(** * Processing-run lifecycle of Foundry: a shallow embedding

    The development follows the server code of the repository:

    - [db/schema.ts]                      tables, enums, unique constraints;
    - [errors/index.ts]                   the [AppError] hierarchy;
    - [services/processing.service.ts]    [verifyProject], [getProcessingConfig],
                                          [updateProcessingConfig],
                                          [createProcessingRun], [simulateProcessing];
    - [services/runs.service.ts]          [verifyRun], [getRun], [cancelRun],
                                          [getRunStatus], [getRunDataset];
    - [services/sources.service.ts]       [verifySource], [triggerSync].

    The database is a record of tables (lists of rows, in insertion order);
    every service function is a computation in a state-and-exception monad
    over it.  [new Date()] is a parameter [now].  The fire-and-forget call
    [simulateProcessing(run.id)] is a job with a program counter: one
    resumption of the job executes exactly one database statement of the
    function body, so that requests can be interleaved between the
    statements, as they are between the [await]s of the source.  In
    [exec] a service call issued by a request is taken as one step; in
    [exec2] the calls that write runs, [createProcessingRun] and
    [cancelRun], are split at their [await]s too, and what is said of
    runs and datasets in every reachable state is proved there.  An id is
    a natural number; the [integer] columns hold ids up to 2147483647,
    and [Int4] has what a query answers on larger ones. *)

From Stdlib Require Import List String Arith ZArith Bool Lia PeanoNat DecimalString.
From Stdlib Require Import QArith_base.
From Stdlib Require Import Sorted Permutation DecimalNat.
Import ListNotations.
Open Scope string_scope.
Open Scope nat_scope.

(** ** Enums of [db/schema.ts] *)

Module RunStatus.
Inductive t := pending | running | completed | failed | cancelled.
Definition eqb (a b : t) : bool :=
  match a, b with
  | pending, pending | running, running | completed, completed
  | failed, failed | cancelled, cancelled => true
  | _, _ => false
  end.
End RunStatus.

Module SourceStatus.
Inductive t := pending | syncing | ready | error.
Definition eqb (a b : t) : bool :=
  match a, b with
  | pending, pending | syncing, syncing | ready, ready | error, error => true
  | _, _ => false
  end.
End SourceStatus.

Module SourceType.
Inductive t := file | teamwork.
Definition eqb (a b : t) : bool :=
  match a, b with
  | file, file | teamwork, teamwork => true
  | _, _ => false
  end.
End SourceType.

Inductive OutputFormat := conversational | qa | json.


(** ** Rows *)

Record QualityFilters := { minLength : Z; maxLength : Z }.

Record ProcessingConfig := {
  outputFormat : OutputFormat;
  includeMetadata : bool;
  chunkSize : Z;
  qualityFilters : QualityFilters
}.

(** [processing_runs.config] is [Record<string, any>]: the code stores either
    a copy of the project's configuration or the object literal [{}]. *)
Inductive RunConfig :=
| EmptyObject
| ConfigSnapshot (c : ProcessingConfig).

Record RunStats := {
  totalRecords : nat;
  processedRecords : nat;
  piiDetected : nat;
  piiMasked : nat
}.

Record DatasetStats := {
  totalConversations : nat;
  avgConversationLength : Q;
  uniqueSpeakers : nat
}.

(** Columns that no modelled statement reads or writes are left out of
    [Project] and [Source]. *)
Record Project := {
  proj_id : nat;
  proj_name : string;
  proj_organizationId : nat;
  proj_deletedAt : option nat
}.

Record Source := {
  src_id : nat;
  src_name : string;
  src_type : SourceType.t;
  src_status : SourceStatus.t;
  src_projectId : nat;
  src_lastSyncAt : option nat;
  src_syncError : option string;
  src_recordCount : option nat;
  src_createdAt : nat;
  src_updatedAt : nat
}.

Record ProcessingConfigRow := {
  pcfg_id : nat;
  pcfg_projectId : nat;
  pcfg_config : ProcessingConfig;
  pcfg_createdAt : nat;
  pcfg_updatedAt : nat
}.

Record ProcessingRun := {
  run_id : nat;
  run_projectId : nat;
  run_status : RunStatus.t;
  run_progress : nat;
  run_startedAt : option nat;
  run_completedAt : option nat;
  run_error : option string;
  run_errorDetails : option string;
  run_config : option RunConfig;
  run_stats : option RunStats;
  run_createdAt : nat;
  run_updatedAt : nat
}.

Record Dataset := {
  ds_id : nat;
  ds_runId : nat;
  ds_name : string;
  ds_format : string;
  ds_filePath : option string;
  ds_fileSize : option nat;
  ds_recordCount : option nat;
  ds_stats : option DatasetStats;
  ds_createdAt : nat;
  ds_updatedAt : nat
}.

(** ** In-flight background work *)

(** Where a call of [simulateProcessing] is suspended.  [InLoop p] is the
    head of the [for] loop with loop variable [progress = p]. *)
Inductive Pc :=
| AtStart
| InLoop (progress : nat)
| AtCreateDataset
| Resolved
| Rejected.

Record Job := { job_runId : nat; job_pc : Pc }.

(** ** The state: tables, their [serial] sequences, jobs and timers *)

Record State := {
  projects : list Project;
  sources : list Source;
  processingConfigs : list ProcessingConfigRow;
  processingRuns : list ProcessingRun;
  datasets : list Dataset;
  processingConfigs_seq : nat;
  processingRuns_seq : nat;
  datasets_seq : nat;
  jobs : list Job;
  timers : list nat
}.

Definition with_sources (x : list Source) (s : State) : State :=
  {| projects := projects s; sources := x;
     processingConfigs := processingConfigs s;
     processingRuns := processingRuns s; datasets := datasets s;
     processingConfigs_seq := processingConfigs_seq s;
     processingRuns_seq := processingRuns_seq s;
     datasets_seq := datasets_seq s; jobs := jobs s; timers := timers s |}.

Definition with_processingConfigs (x : list ProcessingConfigRow) (s : State) : State :=
  {| projects := projects s; sources := sources s;
     processingConfigs := x;
     processingRuns := processingRuns s; datasets := datasets s;
     processingConfigs_seq := processingConfigs_seq s;
     processingRuns_seq := processingRuns_seq s;
     datasets_seq := datasets_seq s; jobs := jobs s; timers := timers s |}.

Definition with_processingRuns (x : list ProcessingRun) (s : State) : State :=
  {| projects := projects s; sources := sources s;
     processingConfigs := processingConfigs s;
     processingRuns := x; datasets := datasets s;
     processingConfigs_seq := processingConfigs_seq s;
     processingRuns_seq := processingRuns_seq s;
     datasets_seq := datasets_seq s; jobs := jobs s; timers := timers s |}.

Definition with_datasets (x : list Dataset) (s : State) : State :=
  {| projects := projects s; sources := sources s;
     processingConfigs := processingConfigs s;
     processingRuns := processingRuns s; datasets := x;
     processingConfigs_seq := processingConfigs_seq s;
     processingRuns_seq := processingRuns_seq s;
     datasets_seq := datasets_seq s; jobs := jobs s; timers := timers s |}.

Definition with_processingConfigs_seq (x : nat) (s : State) : State :=
  {| projects := projects s; sources := sources s;
     processingConfigs := processingConfigs s;
     processingRuns := processingRuns s; datasets := datasets s;
     processingConfigs_seq := x;
     processingRuns_seq := processingRuns_seq s;
     datasets_seq := datasets_seq s; jobs := jobs s; timers := timers s |}.

Definition with_processingRuns_seq (x : nat) (s : State) : State :=
  {| projects := projects s; sources := sources s;
     processingConfigs := processingConfigs s;
     processingRuns := processingRuns s; datasets := datasets s;
     processingConfigs_seq := processingConfigs_seq s;
     processingRuns_seq := x;
     datasets_seq := datasets_seq s; jobs := jobs s; timers := timers s |}.

Definition with_datasets_seq (x : nat) (s : State) : State :=
  {| projects := projects s; sources := sources s;
     processingConfigs := processingConfigs s;
     processingRuns := processingRuns s; datasets := datasets s;
     processingConfigs_seq := processingConfigs_seq s;
     processingRuns_seq := processingRuns_seq s;
     datasets_seq := x; jobs := jobs s; timers := timers s |}.

Definition with_jobs (x : list Job) (s : State) : State :=
  {| projects := projects s; sources := sources s;
     processingConfigs := processingConfigs s;
     processingRuns := processingRuns s; datasets := datasets s;
     processingConfigs_seq := processingConfigs_seq s;
     processingRuns_seq := processingRuns_seq s;
     datasets_seq := datasets_seq s; jobs := x; timers := timers s |}.

Definition with_timers (x : list nat) (s : State) : State :=
  {| projects := projects s; sources := sources s;
     processingConfigs := processingConfigs s;
     processingRuns := processingRuns s; datasets := datasets s;
     processingConfigs_seq := processingConfigs_seq s;
     processingRuns_seq := processingRuns_seq s;
     datasets_seq := datasets_seq s; jobs := jobs s; timers := x |}.

(** ** Errors ([errors/index.ts]) *)

Record AppError := mkAppError {
  statusCode : nat;
  code : string;
  message : string;
  details : option string   (* the [code] field of a [details] object *)
}.

Inductive Exception :=
| App (e : AppError)
| TypeError                       (* property read on [null] *)
| PgError (violated : string).    (* error raised by the database: the
                                     violated constraint, or the SQLSTATE *)

Definition BadRequestError (msg : string) : Exception :=
  App (mkAppError 400 "BAD_REQUEST" msg None).

Definition NotFoundError (resource : string) : Exception :=
  App (mkAppError 404 "NOT_FOUND" (resource ++ " not found") None).

Definition ConflictError (msg code : string) : Exception :=
  App (mkAppError 409 code msg None).

Definition ValidationError (msg : string) (details : option string) : Exception :=
  App (mkAppError 422 "VALIDATION_ERROR" msg details).

(** ** The monad of service code *)

Inductive Result (A : Type) :=
| Ok (a : A)
| Err (e : Exception).
Arguments Ok {A} a.
Arguments Err {A} e.

Definition M (A : Type) : Type := State -> Result A * State.

Definition ret {A} (a : A) : M A := fun s => (Ok a, s).
Definition throw {A} (e : Exception) : M A := fun s => (Err e, s).
Definition bind {A B} (m : M A) (k : A -> M B) : M B :=
  fun s => match m s with
           | (Ok a, s') => k a s'
           | (Err e, s') => (Err e, s')
           end.
Definition query {A} (f : State -> A) : M A := fun s => (Ok (f s), s).
Definition modify (f : State -> State) : M unit := fun s => (Ok tt, f s).

Notation "x <- c1 ;; c2" := (bind c1 (fun x => c2))
  (at level 61, c1 at next level, right associativity).
Notation "c1 ;; c2" := (bind c1 (fun _ => c2))
  (at level 61, right associativity).

(** ** Database statements *)

(** [UPDATE processing_runs SET ... WHERE id = runId] *)
Definition update_runs (runId : nat) (set : ProcessingRun -> ProcessingRun)
    (rows : list ProcessingRun) : list ProcessingRun :=
  map (fun r => if run_id r =? runId then set r else r) rows.

(** [UPDATE sources SET ... WHERE id = sourceId] *)
Definition update_sources (sourceId : nat) (set : Source -> Source)
    (rows : list Source) : list Source :=
  map (fun r => if src_id r =? sourceId then set r else r) rows.

(** [UPDATE processing_configs SET ... WHERE project_id = projectId] *)
Definition update_configs (projectId : nat)
    (set : ProcessingConfigRow -> ProcessingConfigRow)
    (rows : list ProcessingConfigRow) : list ProcessingConfigRow :=
  map (fun r => if pcfg_projectId r =? projectId then set r else r) rows.

Definition has_project (s : State) (projectId : nat) : bool :=
  existsb (fun p => proj_id p =? projectId) (projects s).

Definition has_run (s : State) (runId : nat) : bool :=
  existsb (fun r => run_id r =? runId) (processingRuns s).

Definition has_dataset (s : State) (runId : nat) : bool :=
  existsb (fun d => ds_runId d =? runId) (datasets s).

(** [INSERT INTO processing_runs (project_id, status, progress, config)].
    The [serial] value is drawn before the constraints are checked. *)
Definition run_row (now id projectId : nat) (status : RunStatus.t)
    (progress : nat) (config : RunConfig) : ProcessingRun :=
  {| run_id := id; run_projectId := projectId;
     run_status := status; run_progress := progress;
     run_startedAt := None; run_completedAt := None;
     run_error := None; run_errorDetails := None;
     run_config := Some config; run_stats := None;
     run_createdAt := now; run_updatedAt := now |}.

Definition insert_processingRun (now projectId : nat) (status : RunStatus.t)
    (progress : nat) (config : RunConfig) : M ProcessingRun :=
  fun s =>
    let id := processingRuns_seq s in
    let s1 := with_processingRuns_seq (S id) s in
    if negb (has_project s projectId)
    then (Err (PgError "processing_runs_project_id_projects_id_fk"), s1)
    else
      let row := run_row now id projectId status progress config in
      (Ok row, with_processingRuns (processingRuns s1 ++ [row]) s1).

Definition dataset_row (now id runId : nat) (name format : string)
    (recordCount : nat) (stats : DatasetStats) : Dataset :=
  {| ds_id := id; ds_runId := runId; ds_name := name;
     ds_format := format; ds_filePath := None;
     ds_fileSize := None; ds_recordCount := Some recordCount;
     ds_stats := Some stats;
     ds_createdAt := now; ds_updatedAt := now |}.

(** [INSERT INTO datasets (run_id, name, format, record_count, stats)];
    [run_id] is [notNull().unique().references(processingRuns.id)]. *)
Definition insert_dataset (now runId : nat) (name format : string)
    (recordCount : nat) (stats : DatasetStats) : M Dataset :=
  fun s =>
    let id := datasets_seq s in
    let s1 := with_datasets_seq (S id) s in
    if negb (has_run s runId)
    then (Err (PgError "datasets_run_id_processing_runs_id_fk"), s1)
    else if has_dataset s runId
    then (Err (PgError "datasets_run_id_unique"), s1)
    else
      let row := dataset_row now id runId name format recordCount stats in
      (Ok row, with_datasets (datasets s1 ++ [row]) s1).

(** [INSERT INTO processing_configs (project_id, config)];
    [project_id] is unique and references [projects.id]. *)
Definition insert_processingConfig (now projectId : nat)
    (config : ProcessingConfig) : M ProcessingConfigRow :=
  fun s =>
    let id := processingConfigs_seq s in
    let s1 := with_processingConfigs_seq (S id) s in
    if negb (has_project s projectId)
    then (Err (PgError "processing_configs_project_id_projects_id_fk"), s1)
    else if existsb (fun c => pcfg_projectId c =? projectId) (processingConfigs s)
    then (Err (PgError "processing_configs_project_id_unique"), s1)
    else
      let row := {| pcfg_id := id; pcfg_projectId := projectId;
                    pcfg_config := config;
                    pcfg_createdAt := now; pcfg_updatedAt := now |} in
      (Ok row, with_processingConfigs (processingConfigs s1 ++ [row]) s1).

(** ** [services/processing.service.ts] *)

Definition isNull {A} (x : option A) : bool :=
  match x with None => true | Some _ => false end.

Definition verifyProject (projectId organizationId : nat) : M Project :=
  project <- query (fun s =>
    find (fun p => (proj_id p =? projectId)
                   && (proj_organizationId p =? organizationId)
                   && isNull (proj_deletedAt p)) (projects s)) ;;
  match project with
  | None => throw (NotFoundError "Project")
  | Some p => ret p
  end.

Definition defaultProcessingConfig : ProcessingConfig :=
  {| outputFormat := conversational;
     includeMetadata := true;
     chunkSize := 1000%Z;
     qualityFilters := {| minLength := 10%Z; maxLength := 10000%Z |} |}.

Definition findProcessingConfig (projectId : nat) (s : State)
    : option ProcessingConfigRow :=
  find (fun c => pcfg_projectId c =? projectId) (processingConfigs s).

Definition getProcessingConfig (projectId organizationId : nat)
    : M ProcessingConfig :=
  verifyProject projectId organizationId ;;
  config <- query (findProcessingConfig projectId) ;;
  ret (match config with
       | Some c => pcfg_config c
       | None => defaultProcessingConfig
       end).

Definition updateProcessingConfig (now projectId organizationId : nat)
    (config : ProcessingConfig) : M ProcessingConfig :=
  verifyProject projectId organizationId ;;
  existing <- query (findProcessingConfig projectId) ;;
  match existing with
  | Some _ =>
      modify (fun s => with_processingConfigs
        (update_configs projectId
           (fun r => {| pcfg_id := pcfg_id r; pcfg_projectId := pcfg_projectId r;
                        pcfg_config := config;
                        pcfg_createdAt := pcfg_createdAt r;
                        pcfg_updatedAt := now |})
           (processingConfigs s)) s) ;;
      ret config
  | None =>
      created <- insert_processingConfig now projectId config ;;
      ret (pcfg_config created)
  end.

(** [config?.config || {}]: the stored object is never falsy. *)
Definition configOrEmpty (config : option ProcessingConfigRow) : RunConfig :=
  match config with
  | Some c => ConfigSnapshot (pcfg_config c)
  | None => EmptyObject
  end.

(** The value returned by [createProcessingRun]. *)
Record CreatedRun := {
  cr_id : nat;
  cr_status : RunStatus.t;
  cr_progress : nat;
  cr_createdAt : nat
}.

(** Calling the [async] function [simulateProcessing(runId)] without
    [await]: the job is registered and runs later. *)
Definition spawn_simulateProcessing (runId : nat) : M unit :=
  modify (fun s => with_jobs (jobs s ++ [{| job_runId := runId; job_pc := AtStart |}]) s).

Definition createProcessingRun (now projectId organizationId : nat)
    : M CreatedRun :=
  verifyProject projectId organizationId ;;
  (* Check if there's already a running job *)
  existingRun <- query (fun s =>
    find (fun r => (run_projectId r =? projectId)
                   && RunStatus.eqb (run_status r) RunStatus.running)
         (processingRuns s)) ;;
  match existingRun with
  | Some _ =>
      throw (ValidationError "A processing run is already active"
                             (Some "RUN_ALREADY_RUNNING"))
  | None =>
      (* Check if project has sources *)
      projectSources <- query (fun s =>
        filter (fun x => (src_projectId x =? projectId)
                         && SourceStatus.eqb (src_status x) SourceStatus.ready)
               (sources s)) ;;
      if List.length projectSources =? 0
      then throw (ValidationError "No ready sources configured for project"
                                  (Some "NO_SOURCES_CONFIGURED"))
      else
        (* Get processing config *)
        config <- query (findProcessingConfig projectId) ;;
        run <- insert_processingRun now projectId RunStatus.pending 0
                 (configOrEmpty config) ;;
        spawn_simulateProcessing (run_id run) ;;
        ret {| cr_id := run_id run; cr_status := run_status run;
               cr_progress := run_progress run;
               cr_createdAt := run_createdAt run |}
  end.

Definition finalStats : RunStats :=
  {| totalRecords := 100; processedRecords := 100;
     piiDetected := 15; piiMasked := 15 |}.

Definition sampleDatasetStats : DatasetStats :=
  {| totalConversations := 50;
     avgConversationLength := Qmake 9 2;   (* 4.5 *)
     uniqueSpeakers := 25 |}.

Definition decimal (n : nat) : string :=
  NilEmpty.string_of_uint (Nat.to_uint n).

(** The statements of [simulateProcessing], in the order of the body. *)

Definition setRunning (now : nat) (r : ProcessingRun) : ProcessingRun :=
  {| run_id := run_id r; run_projectId := run_projectId r;
     run_status := RunStatus.running;
     run_progress := run_progress r;
     run_startedAt := Some now;
     run_completedAt := run_completedAt r;
     run_error := run_error r; run_errorDetails := run_errorDetails r;
     run_config := run_config r; run_stats := run_stats r;
     run_createdAt := run_createdAt r;
     run_updatedAt := run_updatedAt r |}.

Definition setProgress (progress : nat) (r : ProcessingRun) : ProcessingRun :=
  {| run_id := run_id r; run_projectId := run_projectId r;
     run_status := run_status r;
     run_progress := progress;
     run_startedAt := run_startedAt r;
     run_completedAt := run_completedAt r;
     run_error := run_error r; run_errorDetails := run_errorDetails r;
     run_config := run_config r; run_stats := run_stats r;
     run_createdAt := run_createdAt r;
     run_updatedAt := run_updatedAt r |}.

Definition setCompleted (now : nat) (r : ProcessingRun) : ProcessingRun :=
  {| run_id := run_id r; run_projectId := run_projectId r;
     run_status := RunStatus.completed;
     run_progress := 100;
     run_startedAt := run_startedAt r;
     run_completedAt := Some now;
     run_error := run_error r; run_errorDetails := run_errorDetails r;
     run_config := run_config r;
     run_stats := Some finalStats;
     run_createdAt := run_createdAt r;
     run_updatedAt := run_updatedAt r |}.

(** [await db.update(processingRuns).set(...).where(eq(id, runId))] *)
Definition updateRun (runId : nat) (set : ProcessingRun -> ProcessingRun)
    : M unit :=
  modify (fun s => with_processingRuns
    (update_runs runId set (processingRuns s)) s).

Definition createDataset (now runId : nat) : M unit :=
  insert_dataset now runId ("Dataset from Run " ++ decimal runId)
                 "conversational" 100 sampleDatasetStats ;;
  ret tt.

(** One resumption of [simulateProcessing(runId)] suspended at [pc]: the
    next database statement of the body, and where the job waits next. *)
Definition simulateProcessing (now runId : nat) (pc : Pc) : M Pc :=
  match pc with
  | AtStart =>
      updateRun runId (setRunning now) ;; ret (InLoop 10)
  | InLoop progress =>
      if progress <=? 100
      then updateRun runId (setProgress progress) ;;
           ret (InLoop (progress + 10))
      else updateRun runId (setCompleted now) ;; ret AtCreateDataset
  | AtCreateDataset =>
      createDataset now runId ;; ret Resolved
  | Resolved => ret Resolved
  | Rejected => ret Rejected
  end.

Definition find_job (runId : nat) (s : State) : option Job :=
  find (fun j => job_runId j =? runId) (jobs s).

Definition set_job_pc (runId : nat) (pc : Pc) (js : list Job) : list Job :=
  map (fun j => if job_runId j =? runId
                then {| job_runId := runId; job_pc := pc |} else j) js.

(** The scheduler resumes the job of [runId]; an exception escaping the
    [async] body rejects its promise, and nobody handles the rejection. *)
Definition resume (now runId : nat) (s : State) : State :=
  match find_job runId s with
  | None => s
  | Some j =>
      match simulateProcessing now runId (job_pc j) s with
      | (Ok pc', s') => with_jobs (set_job_pc runId pc' (jobs s')) s'
      | (Err _, s') => with_jobs (set_job_pc runId Rejected (jobs s')) s'
      end
  end.

(** ** [services/runs.service.ts] *)

(** [db.query.processingRuns.findFirst({ where: eq(id, runId),
    with: { project: true } })]: the row and its joined project. *)
Definition findRunWithProject (runId : nat) (s : State)
    : option (ProcessingRun * option Project) :=
  match find (fun r => run_id r =? runId) (processingRuns s) with
  | None => None
  | Some r =>
      Some (r, find (fun p => proj_id p =? run_projectId r) (projects s))
  end.

Definition verifyRun (runId organizationId : nat) : M ProcessingRun :=
  run <- query (findRunWithProject runId) ;;
  match run with
  | None => throw (NotFoundError "Processing run")
  | Some (r, None) => throw TypeError
  | Some (r, Some project) =>
      if negb (proj_organizationId project =? organizationId)
      then throw (NotFoundError "Processing run")
      else ret r
  end.

Record RunDetails := {
  rd_id : nat;
  rd_projectId : nat;
  rd_status : RunStatus.t;
  rd_progress : nat;
  rd_startedAt : option nat;
  rd_completedAt : option nat;
  rd_error : option string;
  rd_errorDetails : option string;
  rd_stats : option RunStats;
  rd_config : option RunConfig;
  rd_createdAt : nat
}.

Definition getRun (runId organizationId : nat) : M RunDetails :=
  run <- verifyRun runId organizationId ;;
  ret {| rd_id := run_id run; rd_projectId := run_projectId run;
         rd_status := run_status run; rd_progress := run_progress run;
         rd_startedAt := run_startedAt run;
         rd_completedAt := run_completedAt run;
         rd_error := run_error run; rd_errorDetails := run_errorDetails run;
         rd_stats := run_stats run; rd_config := run_config run;
         rd_createdAt := run_createdAt run |}.

Definition cancellable (st : RunStatus.t) : bool :=
  existsb (RunStatus.eqb st) [RunStatus.pending; RunStatus.running].

Definition setCancelled (now : nat) (r : ProcessingRun) : ProcessingRun :=
  {| run_id := run_id r; run_projectId := run_projectId r;
     run_status := RunStatus.cancelled;
     run_progress := run_progress r;
     run_startedAt := run_startedAt r;
     run_completedAt := Some now;
     run_error := run_error r; run_errorDetails := run_errorDetails r;
     run_config := run_config r; run_stats := run_stats r;
     run_createdAt := run_createdAt r;
     run_updatedAt := now |}.

Definition cancelRun (now runId organizationId : nat) : M unit :=
  run <- verifyRun runId organizationId ;;
  if negb (cancellable (run_status run))
  then throw (ValidationError "Run cannot be cancelled"
                              (Some "RUN_NOT_CANCELLABLE"))
  else updateRun runId (setCancelled now).

Record RunStatusView := {
  rs_id : nat;
  rs_status : RunStatus.t;
  rs_progress : nat;
  rs_startedAt : option nat;
  rs_completedAt : option nat;
  rs_error : option string
}.

Definition getRunStatus (runId organizationId : nat) : M RunStatusView :=
  run <- verifyRun runId organizationId ;;
  ret {| rs_id := run_id run; rs_status := run_status run;
         rs_progress := run_progress run;
         rs_startedAt := run_startedAt run;
         rs_completedAt := run_completedAt run;
         rs_error := run_error run |}.

Record RunDataset := {
  rds_id : nat;
  rds_name : string;
  rds_format : string;
  rds_recordCount : option nat;
  rds_stats : option DatasetStats;
  rds_createdAt : nat
}.

Definition findDatasetOfRun (runId : nat) (s : State) : option Dataset :=
  find (fun d => ds_runId d =? runId) (datasets s).

Definition getRunDataset (runId organizationId : nat) : M RunDataset :=
  verifyRun runId organizationId ;;
  dataset <- query (findDatasetOfRun runId) ;;
  match dataset with
  | None => throw (NotFoundError "Dataset")
  | Some d =>
      ret {| rds_id := ds_id d; rds_name := ds_name d;
             rds_format := ds_format d;
             rds_recordCount := ds_recordCount d;
             rds_stats := ds_stats d; rds_createdAt := ds_createdAt d |}
  end.

(** ** [services/sources.service.ts] *)

Definition findSourceWithProject (sourceId : nat) (s : State)
    : option (Source * option Project) :=
  match find (fun x => src_id x =? sourceId) (sources s) with
  | None => None
  | Some x =>
      Some (x, find (fun p => proj_id p =? src_projectId x) (projects s))
  end.

Definition verifySource (sourceId organizationId : nat) : M Source :=
  source <- query (findSourceWithProject sourceId) ;;
  match source with
  | None => throw (NotFoundError "Source")
  | Some (x, None) => throw TypeError
  | Some (x, Some project) =>
      if negb (proj_organizationId project =? organizationId)
      then throw (NotFoundError "Source")
      else ret x
  end.

Definition setSyncing (now : nat) (x : Source) : Source :=
  {| src_id := src_id x; src_name := src_name x; src_type := src_type x;
     src_status := SourceStatus.syncing;
     src_projectId := src_projectId x;
     src_lastSyncAt := src_lastSyncAt x; src_syncError := src_syncError x;
     src_recordCount := src_recordCount x;
     src_createdAt := src_createdAt x; src_updatedAt := now |}.

Definition setSynced (now : nat) (x : Source) : Source :=
  {| src_id := src_id x; src_name := src_name x; src_type := src_type x;
     src_status := SourceStatus.ready;
     src_projectId := src_projectId x;
     src_lastSyncAt := Some now; src_syncError := src_syncError x;
     src_recordCount := Some 100;
     src_createdAt := src_createdAt x; src_updatedAt := now |}.

(** [setTimeout(callback, 2000)]: the callback closes over [sourceId]. *)
Definition setTimeout_syncDone (sourceId : nat) : M unit :=
  modify (fun s => with_timers (timers s ++ [sourceId]) s).

Definition triggerSync (now sourceId organizationId : nat) : M string :=
  source <- verifySource sourceId organizationId ;;
  if negb (SourceType.eqb (src_type source) SourceType.teamwork)
  then throw (BadRequestError "Only Teamwork sources can be synced")
  else
    (* Update status to syncing *)
    modify (fun s => with_sources
      (update_sources sourceId (setSyncing now) (sources s)) s) ;;
    setTimeout_syncDone sourceId ;;
    ret "Sync started".

(** The body of the timer callback of [triggerSync]. *)
Definition syncDone (now sourceId : nat) : M unit :=
  modify (fun s => with_sources
    (update_sources sourceId (setSynced now) (sources s)) s).

(** All timers have the same delay, so they fire in the order they were set. *)
Definition fireTimer (now : nat) (s : State) : State :=
  match timers s with
  | [] => s
  | sourceId :: rest => snd (syncDone now sourceId (with_timers rest s))
  end.

(** ** The system as a transition system *)

Inductive Event :=
| CreateProcessingRun (projectId organizationId : nat)
| CancelRun (runId organizationId : nat)
| UpdateProcessingConfig (projectId organizationId : nat)
                         (config : ProcessingConfig)
| TriggerSync (sourceId organizationId : nat)
| Resume (runId : nat)
| FireTimer.

Definition exec (now : nat) (e : Event) (s : State) : State :=
  match e with
  | CreateProcessingRun projectId organizationId =>
      snd (createProcessingRun now projectId organizationId s)
  | CancelRun runId organizationId =>
      snd (cancelRun now runId organizationId s)
  | UpdateProcessingConfig projectId organizationId config =>
      snd (updateProcessingConfig now projectId organizationId config s)
  | TriggerSync sourceId organizationId =>
      snd (triggerSync now sourceId organizationId s)
  | Resume runId => resume now runId s
  | FireTimer => fireTimer now s
  end.

(** A trace is a list of timestamped events, executed left to right. *)
Fixpoint run_trace (tr : list (nat * Event)) (s : State) : State :=
  match tr with
  | [] => s
  | (now, e) :: rest => run_trace rest (exec now e s)
  end.

(** Before the first request: projects, sources and configurations are
    arbitrary; there are no runs, no datasets and no background work. *)
Definition initial (s : State) : Prop :=
  processingRuns s = [] /\ datasets s = [] /\ jobs s = [] /\ timers s = [].

Inductive reachable : State -> Prop :=
| reachable_initial : forall s, initial s -> reachable s
| reachable_exec : forall s now e, reachable s -> reachable (exec now e s).

(** ** The invariant of the run lifecycle *)

Definition pc_of (s : State) (runId : nat) : option Pc :=
  option_map job_pc (find_job runId s).

(** What the row of a run looks like while its job is suspended at [pc];
    [hasDataset] tells whether a dataset row references the run. *)
Definition run_ok (pc : Pc) (r : ProcessingRun) (hasDataset : bool) : Prop :=
  match pc with
  | AtStart =>
      (run_status r = RunStatus.pending \/ run_status r = RunStatus.cancelled)
      /\ run_progress r = 0 /\ hasDataset = false
  | InLoop p =>
      (run_status r = RunStatus.running \/ run_status r = RunStatus.cancelled)
      /\ 10 <= p <= 110 /\ run_progress r + 10 = p /\ hasDataset = false
  | AtCreateDataset =>
      run_status r = RunStatus.completed /\ run_progress r = 100
      /\ run_stats r = Some finalStats /\ hasDataset = false
  | Resolved =>
      run_status r = RunStatus.completed /\ run_progress r = 100
      /\ run_stats r = Some finalStats /\ hasDataset = true
  | Rejected => False
  end.

Record Inv (s : State) : Prop := {
  inv_fresh : forall r, In r (processingRuns s) ->
      run_id r < processingRuns_seq s;
  inv_jobs_fresh : forall j, In j (jobs s) ->
      job_runId j < processingRuns_seq s;
  inv_nodup : NoDup (map run_id (processingRuns s));
  inv_run : forall r, In r (processingRuns s) ->
      exists pc, pc_of s (run_id r) = Some pc
                 /\ run_ok pc r (has_dataset s (run_id r));
  inv_ds_run : forall d, In d (datasets s) -> has_run s (ds_runId d) = true;
  inv_ds_unique : NoDup (map ds_runId (datasets s));
  inv_ds_shape : forall d, In d (datasets s) ->
      ds_format d = "conversational" /\ ds_recordCount d = Some 100
      /\ ds_stats d = Some sampleDatasetStats
}.

(** Two states that agree on what the invariant reads. *)
Definition same_runs (s s' : State) : Prop :=
  processingRuns s' = processingRuns s /\ datasets s' = datasets s
  /\ jobs s' = jobs s /\ processingRuns_seq s' = processingRuns_seq s.

(** ** Shapes of the states that the operations produce *)

(** The state after a successful [createProcessingRun now projectId _]. *)
Definition created_run (now projectId : nat) (s : State) : ProcessingRun :=
  run_row now (processingRuns_seq s) projectId RunStatus.pending 0
          (configOrEmpty (findProcessingConfig projectId s)).

Definition created_state (now projectId : nat) (s : State) : State :=
  with_jobs (jobs s ++ [{| job_runId := processingRuns_seq s; job_pc := AtStart |}])
    (with_processingRuns (processingRuns s ++ [created_run now projectId s])
       (with_processingRuns_seq (S (processingRuns_seq s)) s)).

(** The dataset that [createDataset now runId] inserts in state [s]. *)
Definition created_dataset (now runId : nat) (s : State) : Dataset :=
  dataset_row now (datasets_seq s) runId ("Dataset from Run " ++ decimal runId)
              "conversational" 100 sampleDatasetStats.

(** ** A small installation used for the examples

    Organization 1 owns project 1 with a synced Teamwork source, an
    uploaded file that was never processed, and a stored configuration
    asking for the [qa] format; organization 2 owns project 2 with a ready
    source and no stored configuration. *)

Definition demo : State :=
  {| projects :=
       [ {| proj_id := 1; proj_name := "Support"; proj_organizationId := 1;
            proj_deletedAt := None |};
         {| proj_id := 2; proj_name := "Sales"; proj_organizationId := 2;
            proj_deletedAt := None |} ];
     sources :=
       [ {| src_id := 1; src_name := "Desk"; src_type := SourceType.teamwork;
            src_status := SourceStatus.ready; src_projectId := 1;
            src_lastSyncAt := Some 3; src_syncError := None;
            src_recordCount := Some 100;
            src_createdAt := 1; src_updatedAt := 3 |};
         {| src_id := 2; src_name := "tickets.csv"; src_type := SourceType.file;
            src_status := SourceStatus.pending; src_projectId := 1;
            src_lastSyncAt := None; src_syncError := None;
            src_recordCount := None;
            src_createdAt := 2; src_updatedAt := 2 |};
         {| src_id := 3; src_name := "Leads"; src_type := SourceType.teamwork;
            src_status := SourceStatus.ready; src_projectId := 2;
            src_lastSyncAt := Some 4; src_syncError := None;
            src_recordCount := Some 100;
            src_createdAt := 4; src_updatedAt := 4 |} ];
     processingConfigs :=
       [ {| pcfg_id := 1; pcfg_projectId := 1;
            pcfg_config := {| outputFormat := qa; includeMetadata := false;
                              chunkSize := 500%Z;
                              qualityFilters := {| minLength := 5%Z;
                                                   maxLength := 2000%Z |} |};
            pcfg_createdAt := 1; pcfg_updatedAt := 5 |} ];
     processingRuns := [];
     datasets := [];
     processingConfigs_seq := 2;
     processingRuns_seq := 1;
     datasets_seq := 1;
     jobs := [];
     timers := [] |}.

(** The same installation before the Teamwork source of project 1 was
    ever synced: only the unprocessed upload is there. *)
Definition demo_unsynced : State :=
  with_sources
    [ {| src_id := 2; src_name := "tickets.csv"; src_type := SourceType.file;
         src_status := SourceStatus.pending; src_projectId := 1;
         src_lastSyncAt := None; src_syncError := None;
         src_recordCount := None;
         src_createdAt := 2; src_updatedAt := 2 |} ]
    demo.

(** Run 1 of project 1 was just created. *)
Definition demo_pending : State :=
  run_trace [(10, CreateProcessingRun 1 1)] demo.

(** ... and its job has issued its first statement. *)
Definition demo_running : State :=
  run_trace [(11, Resume 1)] demo_pending.

(** ... and went through four iterations of the loop. *)
Definition demo_at40 : State :=
  run_trace [(12, Resume 1); (13, Resume 1); (14, Resume 1); (15, Resume 1)]
            demo_running.

(** The owner cancels the run at progress 40. *)
Definition demo_cancelled : State :=
  run_trace [(16, CancelRun 1 1)] demo_at40.

(** The job of [runId] resumed [n] more times. *)
Definition resumes (n now runId : nat) : list (nat * Event) :=
  repeat (now, Resume runId) n.

(** Uncancelled, the job reaches the end of the loop and marks the run
    completed; the statement that inserts the dataset is still to come. *)
Definition demo_completed : State :=
  run_trace (resumes 7 20 1) demo_at40.

Definition demo_done : State :=
  run_trace (resumes 1 21 1) demo_completed.

(** ** More of [services/processing.service.ts]: listing runs *)

Record Pagination := { page : nat; limit : nat; offset : nat }.

(** [ORDER BY key DESC]; rows with equal keys stay in table order. *)
Fixpoint insert_desc {A} (key : A -> nat) (x : A) (l : list A) : list A :=
  match l with
  | [] => [x]
  | y :: l' =>
      if key y <=? key x then x :: y :: l' else y :: insert_desc key x l'
  end.

Definition orderBy_desc {A} (key : A -> nat) (l : list A) : list A :=
  fold_right (insert_desc key) [] l.

(** [LIMIT limit OFFSET offset] *)
Definition limitOffset {A} (pagination : Pagination) (l : list A) : list A :=
  firstn (limit pagination) (skipn (offset pagination) l).

Record RunListItem := {
  li_id : nat;
  li_status : RunStatus.t;
  li_progress : nat;
  li_startedAt : option nat;
  li_completedAt : option nat;
  li_createdAt : nat
}.

Record RunList := { rl_runs : list RunListItem; rl_total : nat }.

Definition runsOfProject (projectId : nat) (s : State) : list ProcessingRun :=
  filter (fun r => run_projectId r =? projectId) (processingRuns s).

Definition runListItem (r : ProcessingRun) : RunListItem :=
  {| li_id := run_id r; li_status := run_status r;
     li_progress := run_progress r; li_startedAt := run_startedAt r;
     li_completedAt := run_completedAt r; li_createdAt := run_createdAt r |}.

Definition listProcessingRuns (projectId organizationId : nat)
    (pagination : Pagination) : M RunList :=
  verifyProject projectId organizationId ;;
  runs <- query (fun s =>
    limitOffset pagination
      (orderBy_desc run_createdAt (runsOfProject projectId s))) ;;
  total <- query (fun s => List.length (runsOfProject projectId s)) ;;
  ret {| rl_runs := map runListItem runs; rl_total := total |}.

(** ** [services/datasets.service.ts] *)

(** [db.query.datasets.findFirst({ where: eq(id, datasetId),
    with: { run: { with: { project: true } } } })] *)
Definition findDatasetWithRun (datasetId : nat) (s : State)
    : option (Dataset * option (ProcessingRun * option Project)) :=
  match find (fun d => ds_id d =? datasetId) (datasets s) with
  | None => None
  | Some d =>
      Some (d, match find (fun r => run_id r =? ds_runId d) (processingRuns s) with
               | None => None
               | Some r =>
                   Some (r, find (fun p => proj_id p =? run_projectId r)
                                 (projects s))
               end)
  end.

Definition verifyDataset (datasetId organizationId : nat) : M Dataset :=
  dataset <- query (findDatasetWithRun datasetId) ;;
  match dataset with
  | None => throw (NotFoundError "Dataset")
  | Some (d, None) => throw TypeError
  | Some (d, Some (r, None)) => throw TypeError
  | Some (d, Some (r, Some project)) =>
      if negb (proj_organizationId project =? organizationId)
      then throw (NotFoundError "Dataset")
      else ret d
  end.

Record DatasetDetails := {
  dd_id : nat;
  dd_name : string;
  dd_format : string;
  dd_recordCount : option nat;
  dd_fileSize : option nat;
  dd_stats : option DatasetStats;
  dd_runId : nat;
  dd_createdAt : nat
}.

Definition getDataset (datasetId organizationId : nat) : M DatasetDetails :=
  dataset <- verifyDataset datasetId organizationId ;;
  ret {| dd_id := ds_id dataset; dd_name := ds_name dataset;
         dd_format := ds_format dataset;
         dd_recordCount := ds_recordCount dataset;
         dd_fileSize := ds_fileSize dataset;
         dd_stats := ds_stats dataset;
         dd_runId := ds_runId dataset;
         dd_createdAt := ds_createdAt dataset |}.

Record DatasetStatistics := {
  st_totalRecords : nat;
  st_totalConversations : nat;
  st_avgConversationLength : Q;
  st_uniqueSpeakers : nat;
  st_piiDetected : nat;
  st_piiMasked : nat;
  st_qualityScore : Q
}.

(** [x || 0] on a nullable number; [0 || 0] is [0] as well. *)
Definition orZero (x : option nat) : nat :=
  match x with Some n => n | None => 0 end.

Definition orZeroQ (x : option Q) : Q :=
  match x with Some q => q | None => Qmake 0 1 end.

Definition getDatasetStats (datasetId organizationId : nat)
    : M DatasetStatistics :=
  dataset <- verifyDataset datasetId organizationId ;;
  ret {| st_totalRecords := orZero (ds_recordCount dataset);
         st_totalConversations :=
           orZero (option_map totalConversations (ds_stats dataset));
         st_avgConversationLength :=
           orZeroQ (option_map avgConversationLength (ds_stats dataset));
         st_uniqueSpeakers :=
           orZero (option_map uniqueSpeakers (ds_stats dataset));
         st_piiDetected := 15;
         st_piiMasked := 15;
         st_qualityScore := Qmake 23 25 |}.   (* 0.92 *)

(** ** More of [services/sources.service.ts] *)

Module SourcesService.
(** The [verifyProject] of this file does not look at [deletedAt]. *)
Definition verifyProject (projectId organizationId : nat) : M Project :=
  project <- query (fun s =>
    find (fun p => (proj_id p =? projectId)
                   && (proj_organizationId p =? organizationId))
         (projects s)) ;;
  match project with
  | None => throw (NotFoundError "Project")
  | Some p => ret p
  end.
End SourcesService.

Record SourceListItem := {
  sl_id : nat;
  sl_name : string;
  sl_type : SourceType.t;
  sl_status : SourceStatus.t;
  sl_recordCount : option nat;
  sl_lastSyncAt : option nat;
  sl_createdAt : nat
}.

Record SourceList := { sl_sources : list SourceListItem; sl_total : nat }.

Definition sourcesOfProject (projectId : nat) (s : State) : list Source :=
  filter (fun x => src_projectId x =? projectId) (sources s).

Definition sourceListItem (x : Source) : SourceListItem :=
  {| sl_id := src_id x; sl_name := src_name x; sl_type := src_type x;
     sl_status := src_status x; sl_recordCount := src_recordCount x;
     sl_lastSyncAt := src_lastSyncAt x; sl_createdAt := src_createdAt x |}.

Definition listProjectSources (projectId organizationId : nat)
    (pagination : Pagination) : M SourceList :=
  SourcesService.verifyProject projectId organizationId ;;
  sourceList <- query (fun s =>
    limitOffset pagination
      (orderBy_desc src_createdAt (sourcesOfProject projectId s))) ;;
  total <- query (fun s => List.length (sourcesOfProject projectId s)) ;;
  ret {| sl_sources := map sourceListItem sourceList; sl_total := total |}.

(** [data.name && { name: data.name }]: an absent or empty name is falsy. *)
Definition truthyName (name : option string) : option string :=
  match name with
  | Some EmptyString => None
  | other => other
  end.

Definition setSourceName (now : nat) (name : option string) (x : Source)
    : Source :=
  {| src_id := src_id x;
     src_name := match truthyName name with
                 | Some n => n
                 | None => src_name x
                 end;
     src_type := src_type x; src_status := src_status x;
     src_projectId := src_projectId x;
     src_lastSyncAt := src_lastSyncAt x; src_syncError := src_syncError x;
     src_recordCount := src_recordCount x;
     src_createdAt := src_createdAt x; src_updatedAt := now |}.

Record UpdatedSource := {
  us_id : nat;
  us_name : string;
  us_type : SourceType.t;
  us_status : SourceStatus.t;
  us_updatedAt : nat
}.

Definition updateSource (now sourceId organizationId : nat)
    (name : option string) : M UpdatedSource :=
  verifySource sourceId organizationId ;;
  modify (fun s => with_sources
    (update_sources sourceId (setSourceName now name) (sources s)) s) ;;
  (* [.returning()]: the first updated row *)
  updated <- query (fun s => find (fun y => src_id y =? sourceId) (sources s)) ;;
  match updated with
  | None => throw TypeError
  | Some u =>
      ret {| us_id := src_id u; us_name := src_name u; us_type := src_type u;
             us_status := src_status u; us_updatedAt := src_updatedAt u |}
  end.

(** [DELETE FROM sources WHERE id = sourceId] *)
Definition delete_source (sourceId : nat) (rows : list Source) : list Source :=
  filter (fun y => negb (src_id y =? sourceId)) rows.

Definition deleteSource (sourceId organizationId : nat) : M unit :=
  verifySource sourceId organizationId ;;
  modify (fun s => with_sources (delete_source sourceId (sources s)) s).

(** ** The life of one run, seen from its row and its job *)

(** [run_step now (pc, r) (pc', r')]: what one step of the system can do
    to the row [r] of a run whose job is suspended at [pc]. *)
Inductive run_step (now : nat) : Pc * ProcessingRun -> Pc * ProcessingRun -> Prop :=
| step_none : forall pc r, run_step now (pc, r) (pc, r)
| step_cancel : forall pc r,
    cancellable (run_status r) = true ->
    run_step now (pc, r) (pc, setCancelled now r)
| step_start : forall r,
    run_step now (AtStart, r) (InLoop 10, setRunning now r)
| step_progress : forall p r,
    p <= 100 ->
    run_step now (InLoop p, r) (InLoop (p + 10), setProgress p r)
| step_complete : forall p r,
    100 < p ->
    run_step now (InLoop p, r) (AtCreateDataset, setCompleted now r)
| step_dataset : forall r,
    run_step now (AtCreateDataset, r) (Resolved, r).

(** A property of rows that depends on where the job is. *)
Definition RowInv (ok : Pc -> ProcessingRun -> Prop) (s : State) : Prop :=
  forall r pc, In r (processingRuns s) -> pc_of s (run_id r) = Some pc ->
               ok pc r.

(** What the columns of a row say while its job is suspended at [pc]. *)
Definition lifecycle_ok (pc : Pc) (r : ProcessingRun) : Prop :=
  run_status r <> RunStatus.failed
  /\ run_error r = None /\ run_errorDetails r = None
  /\ (pc = AtStart -> run_startedAt r = None /\ run_stats r = None)
  /\ (pc <> AtStart -> run_startedAt r <> None)
  /\ (run_status r = RunStatus.pending -> run_completedAt r = None)
  /\ (run_status r = RunStatus.cancelled -> run_completedAt r <> None)
  /\ (run_status r = RunStatus.completed -> run_completedAt r <> None).

(** How many statements the job has left to issue. *)
Definition steps_left (pc : Pc) : nat :=
  match pc with
  | AtStart => 13
  | InLoop p => (if p <=? 100 then (100 - p) / 10 + 1 else 0) + 2
  | AtCreateDataset => 1
  | Resolved => 0
  | Rejected => 0
  end.

(** Dataset ids come from the sequence. *)
Definition DatasetIds (s : State) : Prop :=
  (forall d, In d (datasets s) -> ds_id d < datasets_seq s)
  /\ NoDup (map ds_id (datasets s)).

(** Project ids are a primary key. *)
Definition ProjectIds (s : State) : Prop := NoDup (map proj_id (projects s)).



(** ** [createProcessingRun] and [cancelRun], statement by statement

    Both functions await every query, so statements of other requests
    and of the jobs can run between any two of theirs.  The parts of
    [createProcessingRun] are its five awaits (lines 90, 93-102, 105-114,
    117-119 and 121-139 of [processing.service.ts]); the parts of
    [cancelRun] are the query of [verifyRun] with the test of the status
    (lines 551-555 of [runs.service.ts]) and the update (lines 557-564).
    The other requests write no run, no dataset and no job, whatever
    runs between their statements, and are kept whole. *)

Definition createProcessingRun_verifyProject (projectId organizationId : nat)
    : M unit :=
  verifyProject projectId organizationId ;; ret tt.

Definition createProcessingRun_existingRun (projectId : nat) : M unit :=
  existingRun <- query (fun s =>
    find (fun r => (run_projectId r =? projectId)
                   && RunStatus.eqb (run_status r) RunStatus.running)
         (processingRuns s)) ;;
  match existingRun with
  | Some _ =>
      throw (ValidationError "A processing run is already active"
                             (Some "RUN_ALREADY_RUNNING"))
  | None => ret tt
  end.

Definition createProcessingRun_projectSources (projectId : nat) : M unit :=
  projectSources <- query (fun s =>
    filter (fun x => (src_projectId x =? projectId)
                     && SourceStatus.eqb (src_status x) SourceStatus.ready)
           (sources s)) ;;
  if List.length projectSources =? 0
  then throw (ValidationError "No ready sources configured for project"
                              (Some "NO_SOURCES_CONFIGURED"))
  else ret tt.

Definition createProcessingRun_config (projectId : nat) : M RunConfig :=
  config <- query (findProcessingConfig projectId) ;;
  ret (configOrEmpty config).

Definition createProcessingRun_insert (now projectId : nat)
    (config : RunConfig) : M CreatedRun :=
  run <- insert_processingRun now projectId RunStatus.pending 0 config ;;
  spawn_simulateProcessing (run_id run) ;;
  ret {| cr_id := run_id run; cr_status := run_status run;
         cr_progress := run_progress run;
         cr_createdAt := run_createdAt run |}.

Definition cancelRun_select (runId organizationId : nat) : M unit :=
  run <- verifyRun runId organizationId ;;
  if negb (cancellable (run_status run))
  then throw (ValidationError "Run cannot be cancelled"
                              (Some "RUN_NOT_CANCELLABLE"))
  else ret tt.

Definition cancelRun_update (now runId : nat) : M unit :=
  updateRun runId (setCancelled now).

(** The query that a suspended [createProcessingRun] issues next. *)
Inductive CreateStage :=
| CheckRunning
| CheckSources
| ReadConfig
| InsertRun (config : RunConfig).

(** The state together with the requests that are between two of their
    statements. *)
Record System := {
  state : State;
  creating : list (nat * CreateStage);  (* project and next query of a
                                           suspended [createProcessingRun] *)
  cancelling : list nat                 (* run id of a [cancelRun] past its
                                           check *)
}.

Definition idle (s : State) : System :=
  {| state := s; creating := []; cancelling := [] |}.

Definition remove_nth {A} (i : nat) (l : list A) : list A :=
  (firstn i l ++ skipn (S i) l)%list.

Definition set_nth {A} (i : nat) (x : A) (l : list A) : list A :=
  (firstn i l ++ x :: skipn (S i) l)%list.

(** The next query of the suspended [createProcessingRun] [c]: where it
    waits next ([None] when it has returned or thrown) and the state. *)
Definition create_step (now : nat) (c : nat * CreateStage) (s : State)
    : option (nat * CreateStage) * State :=
  let (projectId, stage) := c in
  match stage with
  | CheckRunning =>
      match createProcessingRun_existingRun projectId s with
      | (Ok _, s') => (Some (projectId, CheckSources), s')
      | (Err _, s') => (None, s')
      end
  | CheckSources =>
      match createProcessingRun_projectSources projectId s with
      | (Ok _, s') => (Some (projectId, ReadConfig), s')
      | (Err _, s') => (None, s')
      end
  | ReadConfig =>
      match createProcessingRun_config projectId s with
      | (Ok config, s') => (Some (projectId, InsertRun config), s')
      | (Err _, s') => (None, s')
      end
  | InsertRun config =>
      (None, snd (createProcessingRun_insert now projectId config s))
  end.

Inductive Statement :=
| Request (e : Event)          (* a whole call, nothing in between *)
| CreateBegin (projectId organizationId : nat)
| CreateStep (i : nat)         (* the next query of the i-th suspended create *)
| CancelSelect (runId organizationId : nat)
| CancelUpdate (i : nat).      (* the update of the i-th suspended cancel *)

Definition exec2 (now : nat) (st : Statement) (w : System) : System :=
  match st with
  | Request e =>
      {| state := exec now e (state w);
         creating := creating w; cancelling := cancelling w |}
  | CreateBegin projectId organizationId =>
      match createProcessingRun_verifyProject projectId organizationId
              (state w) with
      | (Ok _, s') =>
          {| state := s';
             creating := (creating w ++ [(projectId, CheckRunning)])%list;
             cancelling := cancelling w |}
      | (Err _, s') =>
          {| state := s'; creating := creating w; cancelling := cancelling w |}
      end
  | CreateStep i =>
      match nth_error (creating w) i with
      | None => w
      | Some c =>
          {| state := snd (create_step now c (state w));
             creating :=
               match fst (create_step now c (state w)) with
               | Some c' => set_nth i c' (creating w)
               | None => remove_nth i (creating w)
               end;
             cancelling := cancelling w |}
      end
  | CancelSelect runId organizationId =>
      match cancelRun_select runId organizationId (state w) with
      | (Ok _, s') =>
          {| state := s'; creating := creating w;
             cancelling := (cancelling w ++ [runId])%list |}
      | (Err _, s') =>
          {| state := s'; creating := creating w; cancelling := cancelling w |}
      end
  | CancelUpdate i =>
      match nth_error (cancelling w) i with
      | None => w
      | Some runId =>
          {| state := snd (cancelRun_update now runId (state w));
             creating := creating w;
             cancelling := remove_nth i (cancelling w) |}
      end
  end.

Fixpoint run_statements (tr : list (nat * Statement)) (w : System) : System :=
  match tr with
  | [] => w
  | (now, st) :: rest => run_statements rest (exec2 now st w)
  end.

Definition initial2 (w : System) : Prop :=
  initial (state w) /\ creating w = [] /\ cancelling w = [].

Inductive reachable2 : System -> Prop :=
| reachable2_initial : forall w, initial2 w -> reachable2 w
| reachable2_exec : forall w now st, reachable2 w -> reachable2 (exec2 now st w).

(** The state after the insert of [createProcessingRun] with snapshot
    [config]. *)
Definition inserted_state (now projectId : nat) (config : RunConfig)
    (s : State) : State :=
  with_jobs (jobs s ++ [{| job_runId := processingRuns_seq s; job_pc := AtStart |}])
    (with_processingRuns
       (processingRuns s
          ++ [run_row now (processingRuns_seq s) projectId RunStatus.pending 0
                      config])
       (with_processingRuns_seq (S (processingRuns_seq s)) s)).

(** [run_ok] when the update of a [cancelRun] may land at any time: after
    the job has written [completed] the status is [completed] or
    [cancelled]. *)
Definition run_ok2 (pc : Pc) (r : ProcessingRun) (hasDataset : bool) : Prop :=
  match pc with
  | AtStart =>
      (run_status r = RunStatus.pending \/ run_status r = RunStatus.cancelled)
      /\ run_progress r = 0 /\ hasDataset = false
  | InLoop p =>
      (run_status r = RunStatus.running \/ run_status r = RunStatus.cancelled)
      /\ 10 <= p <= 110 /\ run_progress r + 10 = p /\ hasDataset = false
  | AtCreateDataset =>
      (run_status r = RunStatus.completed \/ run_status r = RunStatus.cancelled)
      /\ run_progress r = 100
      /\ run_stats r = Some finalStats /\ hasDataset = false
  | Resolved =>
      (run_status r = RunStatus.completed \/ run_status r = RunStatus.cancelled)
      /\ run_progress r = 100
      /\ run_stats r = Some finalStats /\ hasDataset = true
  | Rejected => False
  end.

Record Inv2 (s : State) : Prop := {
  inv2_fresh : forall r, In r (processingRuns s) ->
      run_id r < processingRuns_seq s;
  inv2_jobs_fresh : forall j, In j (jobs s) ->
      job_runId j < processingRuns_seq s;
  inv2_nodup : NoDup (map run_id (processingRuns s));
  inv2_run : forall r, In r (processingRuns s) ->
      exists pc, pc_of s (run_id r) = Some pc
                 /\ run_ok2 pc r (has_dataset s (run_id r));
  inv2_ds_run : forall d, In d (datasets s) -> has_run s (ds_runId d) = true;
  inv2_ds_unique : NoDup (map ds_runId (datasets s));
  inv2_ds_shape : forall d, In d (datasets s) ->
      ds_format d = "conversational" /\ ds_recordCount d = Some 100
      /\ ds_stats d = Some sampleDatasetStats
}.

(** The changes of status that a statement makes: the update of a
    [cancelRun] writes [cancelled] over any status; the job writes
    [running] over [pending] or [cancelled] and [completed] over
    [running] or [cancelled]. *)
Definition status_change (a b : RunStatus.t) : Prop :=
  match a, b with
  | _, RunStatus.cancelled => True
  | RunStatus.pending, RunStatus.running
  | RunStatus.cancelled, RunStatus.running
  | RunStatus.running, RunStatus.completed
  | RunStatus.cancelled, RunStatus.completed => True
  | _, _ => a = b
  end.

(** Before its last two statements the job has not written [completed]. *)
Definition before_completion (pc : Pc) : Prop :=
  pc = AtStart \/ exists p, pc = InLoop p.

(** ** Ids as parameters of a query

    The id columns are [integer]: PostgreSQL refuses a statement that
    compares one with a parameter outside int4 (SQLSTATE 22003), and no
    code catches that error; [parseIntParam] lets any positive number
    through.  The driver sends a number as JavaScript prints it, and from
    10^21 on that is with an exponent, which the database does not read
    as an integer at all (SQLSTATE 22P02).  [Int4] has the operations as
    a caller reaches them with a number of any size; on ids that fit
    they are the operations above. *)

Definition int4_max : Z := 2147483647%Z.

Definition fits_int4 (n : nat) : bool := (Z.of_nat n <=? int4_max)%Z.

Definition int4_param (n : nat) : M unit :=
  if fits_int4 n then ret tt
  else if (Z.of_nat n <? 10 ^ 21)%Z then throw (PgError "22003")
  else throw (PgError "22P02").

Module Int4.
Definition getRun (runId organizationId : nat) : M RunDetails :=
  int4_param runId ;; getRun runId organizationId.
Definition getRunStatus (runId organizationId : nat) : M RunStatusView :=
  int4_param runId ;; getRunStatus runId organizationId.
Definition cancelRun (now runId organizationId : nat) : M unit :=
  int4_param runId ;; cancelRun now runId organizationId.
Definition getRunDataset (runId organizationId : nat) : M RunDataset :=
  int4_param runId ;; getRunDataset runId organizationId.
Definition getDataset (datasetId organizationId : nat) : M DatasetDetails :=
  int4_param datasetId ;; getDataset datasetId organizationId.
Definition getDatasetStats (datasetId organizationId : nat)
    : M DatasetStatistics :=
  int4_param datasetId ;; getDatasetStats datasetId organizationId.
(* [verifyProject] compares both ids in the query *)
Definition createProcessingRun (now projectId organizationId : nat)
    : M CreatedRun :=
  int4_param projectId ;; int4_param organizationId ;;
  createProcessingRun now projectId organizationId.
Definition getProcessingConfig (projectId organizationId : nat)
    : M ProcessingConfig :=
  int4_param projectId ;; int4_param organizationId ;;
  getProcessingConfig projectId organizationId.
Definition updateProcessingConfig (now projectId organizationId : nat)
    (config : ProcessingConfig) : M ProcessingConfig :=
  int4_param projectId ;; int4_param organizationId ;;
  updateProcessingConfig now projectId organizationId config.
Definition listProcessingRuns (projectId organizationId : nat)
    (pagination : Pagination) : M RunList :=
  int4_param projectId ;; int4_param organizationId ;;
  listProcessingRuns projectId organizationId pagination.
Definition listProjectSources (projectId organizationId : nat)
    (pagination : Pagination) : M SourceList :=
  int4_param projectId ;; int4_param organizationId ;;
  listProjectSources projectId organizationId pagination.
End Int4.

(** ** What [ORDER BY ... DESC] promises

    The database returns the selected rows in some order in which the
    keys descend; rows with equal keys come in any order, and not
    necessarily in the same order in two queries.  [orderBy_desc] is one
    such order. *)
Definition orders_desc {A} (key : A -> nat) (rows sorted : list A) : Prop :=
  Permutation rows sorted /\ Sorted (fun a b => key b <= key a) sorted.

(** Run 1 is running at progress 100; a [cancelRun] reads it, and the job
    then writes [completed] and inserts the dataset ... *)
Definition demo_cancel_pending : System :=
  run_statements
    ([(10, Request (CreateProcessingRun 1 1)); (11, Request (Resume 1))]
     ++ repeat (12, Request (Resume 1)) 10
     ++ [(30, CancelSelect 1 1); (31, Request (Resume 1));
         (32, Request (Resume 1))])
    (idle demo).

(** ... and only then the update of the [cancelRun] lands. *)
Definition demo_late_cancel : System :=
  exec2 33 (CancelUpdate 0) demo_cancel_pending.

(** The row of run 1 in [demo_cancel_pending]. *)
Definition demo_run_finished : ProcessingRun :=
  setCompleted 31
    (setProgress 100 (setProgress 90 (setProgress 80 (setProgress 70
       (setProgress 60 (setProgress 50 (setProgress 40 (setProgress 30
          (setProgress 20 (setProgress 10
             (setRunning 11 (created_run 10 1 demo)))))))))))).

(** Project 1 with a second run, created after the first was done. *)
Definition demo_two_runs : State :=
  run_trace [(50, CreateProcessingRun 1 1)] demo_done.

Example demo_pending_runs :
  map (fun r => (run_id r, run_status r, run_progress r))
      (processingRuns demo_pending) = [(1, RunStatus.pending, 0)].
Proof. reflexivity. Qed.

Example demo_at40_runs :
  map (fun r => (run_id r, run_status r, run_progress r))
      (processingRuns demo_at40) = [(1, RunStatus.running, 40)].
Proof. reflexivity. Qed.

Example demo_completed_runs :
  map (fun r => (run_id r, run_status r, run_progress r))
      (processingRuns demo_completed) = [(1, RunStatus.completed, 100)]
  /\ datasets demo_completed = []
  /\ jobs demo_completed = [{| job_runId := 1; job_pc := AtCreateDataset |}].
Proof. repeat split; reflexivity. Qed.

Example demo_done_datasets :
  map (fun d => (ds_id d, ds_runId d, ds_name d, ds_format d))
      (datasets demo_done) = [(1, 1, "Dataset from Run 1", "conversational")]
  /\ jobs demo_done = [{| job_runId := 1; job_pc := Resolved |}].
Proof. split; reflexivity. Qed.

Example demo_late_cancel_state :
  map (fun r => (run_id r, run_status r, run_progress r))
      (processingRuns (state demo_late_cancel)) = [(1, RunStatus.cancelled, 100)]
  /\ map ds_runId (datasets (state demo_late_cancel)) = [1]
  /\ jobs (state demo_late_cancel) = [{| job_runId := 1; job_pc := Resolved |}]
  /\ cancelling demo_late_cancel = []
  /\ processingRuns (state demo_cancel_pending) = [demo_run_finished].
Proof. split; [|split; [|split; [|split]]]; vm_compute; reflexivity. Qed.

(** * Proofs *)

(** ** Tables as lists *)

Lemma status_eqb_eq a b : RunStatus.eqb a b = true <-> a = b.
Proof. destruct a, b; simpl; split; intro H; try reflexivity; discriminate. Qed.

Lemma in_update_runs runId set rows r' :
  In r' (update_runs runId set rows) <->
  exists r, In r rows /\ r' = (if run_id r =? runId then set r else r).
Proof.
  unfold update_runs. rewrite in_map_iff. split.
  - intros (r & E & I). exists r. auto.
  - intros (r & I & E). exists r. auto.
Qed.

Lemma ids_update_runs runId set rows :
  (forall r, run_id (set r) = run_id r) ->
  map run_id (update_runs runId set rows) = map run_id rows.
Proof.
  intros Hid. unfold update_runs. rewrite map_map. apply map_ext.
  intros r. destruct (run_id r =? runId); auto.
Qed.

Lemma find_app_l {A} (f : A -> bool) l l' :
  find f (l ++ l') = match find f l with Some x => Some x | None => find f l' end.
Proof.
  induction l as [|a l IH]; simpl; auto. destruct (f a); auto.
Qed.

Lemma NoDup_snoc {A} (l : list A) a :
  NoDup l -> ~ In a l -> NoDup (l ++ [a]).
Proof.
  induction l as [|b l IH]; simpl; intros ND NI.
  - repeat constructor. intros [].
  - inversion ND as [|? ? Hb ND']; subst. constructor.
    + intros H. apply in_app_or in H. destruct H as [H|[H|[]]]; auto.
    + apply IH; auto.
Qed.

Lemma find_run_unique rows runId r r0 :
  NoDup (map run_id rows) ->
  find (fun x => run_id x =? runId) rows = Some r ->
  In r0 rows -> run_id r0 = runId -> r0 = r.
Proof.
  induction rows as [|a rows IH]; simpl; intros ND F I E; [contradiction|].
  inversion ND as [|? ? Hnotin ND']; subst.
  destruct (run_id a =? run_id r0) eqn:Ea.
  - injection F as <-. destruct I as [I|I]; auto.
    exfalso. apply Hnotin. apply Nat.eqb_eq in Ea. rewrite Ea.
    now apply in_map.
  - destruct I as [I|I]; [subst; rewrite Nat.eqb_refl in Ea; discriminate|].
    now apply IH.
Qed.

Lemma has_run_true s runId :
  has_run s runId = true <-> exists r, In r (processingRuns s) /\ run_id r = runId.
Proof.
  unfold has_run. rewrite existsb_exists. split; intros (r & I & E); exists r; split; auto.
  - now apply Nat.eqb_eq.
  - now apply Nat.eqb_eq.
Qed.

Lemma has_dataset_true s runId :
  has_dataset s runId = true <-> exists d, In d (datasets s) /\ ds_runId d = runId.
Proof.
  unfold has_dataset. rewrite existsb_exists. split; intros (r & I & E); exists r; split; auto.
  - now apply Nat.eqb_eq.
  - now apply Nat.eqb_eq.
Qed.

Lemma has_dataset_in s runId :
  has_dataset s runId = true <-> In runId (map ds_runId (datasets s)).
Proof.
  rewrite has_dataset_true, in_map_iff. split; intros (d & A & B); exists d; auto.
Qed.

(** ** Jobs *)

Lemma find_set_job_pc k pc js runId :
  find (fun j => job_runId j =? runId) (set_job_pc k pc js) =
  if runId =? k
  then match find (fun j => job_runId j =? runId) js with
       | Some _ => Some {| job_runId := k; job_pc := pc |}
       | None => None
       end
  else find (fun j => job_runId j =? runId) js.
Proof.
  induction js as [|j js IH]; simpl.
  - now destruct (runId =? k).
  - destruct (job_runId j =? k) eqn:Ejk; simpl.
    + destruct (runId =? k) eqn:Erk.
      * apply Nat.eqb_eq in Ejk, Erk. subst.
        now rewrite !Nat.eqb_refl.
      * apply Nat.eqb_eq in Ejk. subst.
        rewrite (Nat.eqb_sym (job_runId j) runId), Erk.
        exact IH.
    + destruct (job_runId j =? runId) eqn:Ejr.
      * apply Nat.eqb_eq in Ejr. subst. now rewrite Ejk.
      * exact IH.
Qed.

Lemma pc_of_set_job_pc s s' k pc runId :
  jobs s' = set_job_pc k pc (jobs s) ->
  pc_of s' runId =
  if runId =? k
  then match pc_of s runId with Some _ => Some pc | None => None end
  else pc_of s runId.
Proof.
  intros E. unfold pc_of, find_job. rewrite E, find_set_job_pc.
  destruct (runId =? k); auto.
  destruct (find _ (jobs s)); reflexivity.
Qed.

Lemma pc_of_find_job s runId j :
  find_job runId s = Some j -> pc_of s runId = Some (job_pc j).
Proof. unfold pc_of. now intros ->. Qed.

Lemma find_job_fresh s runId :
  (forall j, In j (jobs s) -> job_runId j < runId) ->
  find_job runId s = None.
Proof.
  intros H. unfold find_job.
  destruct (find _ (jobs s)) eqn:F; auto.
  apply find_some in F. destruct F as [I E].
  apply Nat.eqb_eq in E. apply H in I. lia.
Qed.

(** ** [createProcessingRun], case by case *)

Lemma verifyProject_state projectId organizationId s :
  snd (verifyProject projectId organizationId s) = s.
Proof.
  unfold verifyProject, bind, query, throw, ret.
  now destruct (find _ (projects s)).
Qed.

Lemma verifyProject_ok projectId organizationId s p :
  fst (verifyProject projectId organizationId s) = Ok p ->
  verifyProject projectId organizationId s = (Ok p, s)
  /\ has_project s projectId = true.
Proof.
  unfold verifyProject, bind, query, throw, ret.
  destruct (find _ (projects s)) as [p0|] eqn:F; simpl; intros E; [|discriminate].
  injection E as ->. split; auto.
  apply find_some in F. destruct F as [I B].
  apply andb_prop in B. destruct B as [B _].
  apply andb_prop in B. destruct B as [B _].
  unfold has_project. apply existsb_exists. exists p. auto.
Qed.

Lemma verifyProject_err projectId organizationId s :
  (forall p, fst (verifyProject projectId organizationId s) <> Ok p) ->
  verifyProject projectId organizationId s = (Err (NotFoundError "Project"), s).
Proof.
  unfold verifyProject, bind, query, throw, ret.
  destruct (find _ (projects s)) as [p0|] eqn:F; simpl; intros H; auto.
  now destruct (H p0).
Qed.

Lemma find_running_none projectId rows :
  find (fun r => (run_projectId r =? projectId)
                 && RunStatus.eqb (run_status r) RunStatus.running) rows = None
  <-> (forall r, In r rows -> run_projectId r = projectId ->
                 run_status r <> RunStatus.running).
Proof.
  split.
  - intros F r I E St.
    apply (find_none _ _ F) in I. rewrite E, Nat.eqb_refl, St in I. discriminate.
  - intros H. destruct (find _ rows) as [r|] eqn:F; auto.
    apply find_some in F. destruct F as [I B].
    apply andb_prop in B. destruct B as [B1 B2].
    apply Nat.eqb_eq in B1. apply status_eqb_eq in B2.
    now destruct (H r I B1).
Qed.

Lemma source_status_eqb_eq a b : SourceStatus.eqb a b = true <-> a = b.
Proof. destruct a, b; simpl; split; intro H; try reflexivity; discriminate. Qed.

Lemma ready_sources_none projectId rows :
  List.length (filter (fun x => (src_projectId x =? projectId)
                         && SourceStatus.eqb (src_status x) SourceStatus.ready)
                      rows) = 0
  <-> (forall x, In x rows -> src_projectId x = projectId ->
                 src_status x <> SourceStatus.ready).
Proof.
  rewrite length_zero_iff_nil. split.
  - intros F x I E St.
    assert (In x []) as [].
    rewrite <- F. apply filter_In. split; auto.
    rewrite E, Nat.eqb_refl, St. reflexivity.
  - intros H. destruct (filter _ rows) as [|x l] eqn:F; auto.
    assert (I : In x (filter (fun x => (src_projectId x =? projectId)
                         && SourceStatus.eqb (src_status x) SourceStatus.ready) rows))
      by (rewrite F; now left).
    apply filter_In in I. destruct I as [I B].
    apply andb_prop in B. destruct B as [B1 B2].
    apply Nat.eqb_eq in B1. apply source_status_eqb_eq in B2.
    now destruct (H x I B1).
Qed.

Lemma createProcessingRun_running now projectId organizationId s p r :
  fst (verifyProject projectId organizationId s) = Ok p ->
  In r (processingRuns s) -> run_projectId r = projectId ->
  run_status r = RunStatus.running ->
  createProcessingRun now projectId organizationId s =
  (Err (ValidationError "A processing run is already active"
                        (Some "RUN_ALREADY_RUNNING")), s).
Proof.
  intros V I E St. apply verifyProject_ok in V. destruct V as [V _].
  unfold createProcessingRun, bind at 1. rewrite V.
  unfold bind, query.
  destruct (find _ (processingRuns s)) as [r0|] eqn:F; auto.
  exfalso. rewrite find_running_none in F. exact (F r I E St).
Qed.

Lemma createProcessingRun_no_sources now projectId organizationId s p :
  fst (verifyProject projectId organizationId s) = Ok p ->
  (forall r, In r (processingRuns s) -> run_projectId r = projectId ->
             run_status r <> RunStatus.running) ->
  (forall x, In x (sources s) -> src_projectId x = projectId ->
             src_status x <> SourceStatus.ready) ->
  createProcessingRun now projectId organizationId s =
  (Err (ValidationError "No ready sources configured for project"
                        (Some "NO_SOURCES_CONFIGURED")), s).
Proof.
  intros V NR NS. apply verifyProject_ok in V. destruct V as [V _].
  apply find_running_none in NR. apply ready_sources_none in NS.
  unfold createProcessingRun, bind at 1. rewrite V.
  unfold bind at 1, query at 1. rewrite NR.
  unfold bind at 1, query at 1. rewrite NS. reflexivity.
Qed.

Lemma createProcessingRun_success now projectId organizationId s p x :
  fst (verifyProject projectId organizationId s) = Ok p ->
  (forall r, In r (processingRuns s) -> run_projectId r = projectId ->
             run_status r <> RunStatus.running) ->
  In x (sources s) -> src_projectId x = projectId ->
  src_status x = SourceStatus.ready ->
  createProcessingRun now projectId organizationId s =
  (Ok {| cr_id := processingRuns_seq s; cr_status := RunStatus.pending;
         cr_progress := 0; cr_createdAt := now |},
   created_state now projectId s).
Proof.
  intros V NR I E St. apply verifyProject_ok in V. destruct V as [V HP].
  apply find_running_none in NR.
  unfold createProcessingRun, bind at 1. rewrite V.
  unfold bind at 1, query at 1. rewrite NR.
  unfold bind at 1, query at 1.
  destruct (List.length _ =? 0) eqn:L.
  - exfalso. apply Nat.eqb_eq in L. rewrite ready_sources_none in L.
    exact (L x I E St).
  - unfold bind, query, insert_processingRun, spawn_simulateProcessing, modify, ret.
    rewrite HP. reflexivity.
Qed.

(** Whatever the outcome, the state is untouched or a run was created. *)
Lemma createProcessingRun_cases now projectId organizationId s :
  snd (createProcessingRun now projectId organizationId s) = s
  \/ snd (createProcessingRun now projectId organizationId s)
     = created_state now projectId s.
Proof.
  destruct (fst (verifyProject projectId organizationId s)) as [p|e] eqn:V.
  - destruct (find (fun r => (run_projectId r =? projectId)
                 && RunStatus.eqb (run_status r) RunStatus.running)
                   (processingRuns s)) as [r|] eqn:F.
    + apply find_some in F. destruct F as [I B].
      apply andb_prop in B. destruct B as [B1 B2].
      apply Nat.eqb_eq in B1. apply status_eqb_eq in B2.
      rewrite (createProcessingRun_running now _ _ _ _ _ V I B1 B2). now left.
    + rewrite find_running_none in F.
      destruct (filter (fun x => (src_projectId x =? projectId)
                         && SourceStatus.eqb (src_status x) SourceStatus.ready)
                       (sources s)) as [|x l] eqn:FS.
      * assert (L : List.length (filter (fun x => (src_projectId x =? projectId)
                         && SourceStatus.eqb (src_status x) SourceStatus.ready)
                       (sources s)) = 0) by now rewrite FS.
        rewrite ready_sources_none in L.
        rewrite (createProcessingRun_no_sources now _ _ _ _ V F L). now left.
      * assert (I : In x (filter (fun x => (src_projectId x =? projectId)
                         && SourceStatus.eqb (src_status x) SourceStatus.ready)
                       (sources s))) by (rewrite FS; now left).
        apply filter_In in I. destruct I as [I B].
        apply andb_prop in B. destruct B as [B1 B2].
        apply Nat.eqb_eq in B1. apply source_status_eqb_eq in B2.
        rewrite (createProcessingRun_success now _ _ _ _ _ V F I B1 B2). now right.
  - left. unfold createProcessingRun, bind at 1.
    rewrite verifyProject_err; auto.
    intros p H. rewrite V in H. discriminate.
Qed.

(** ** [verifyRun] and [cancelRun], case by case *)

Lemma verifyRun_state runId organizationId s :
  snd (verifyRun runId organizationId s) = s.
Proof.
  unfold verifyRun, bind, query, throw, ret.
  destruct (findRunWithProject runId s) as [[r [p|]]|]; simpl; auto.
  now destruct (negb _).
Qed.

Lemma verifyRun_ok runId organizationId s r :
  fst (verifyRun runId organizationId s) = Ok r ->
  verifyRun runId organizationId s = (Ok r, s)
  /\ find (fun x => run_id x =? runId) (processingRuns s) = Some r.
Proof.
  unfold verifyRun, bind, query, throw, ret, findRunWithProject.
  destruct (find _ (processingRuns s)) as [r0|]; simpl; [|discriminate].
  destruct (find _ (projects s)) as [p|]; simpl; [|discriminate].
  destruct (negb _); simpl; [discriminate|].
  intros E. injection E as ->. auto.
Qed.

Lemma verifyRun_missing runId organizationId s :
  find (fun x => run_id x =? runId) (processingRuns s) = None ->
  verifyRun runId organizationId s = (Err (NotFoundError "Processing run"), s).
Proof.
  intros F. unfold verifyRun, bind, query, throw, ret, findRunWithProject.
  now rewrite F.
Qed.

Lemma verifyRun_foreign runId organizationId s r p :
  find (fun x => run_id x =? runId) (processingRuns s) = Some r ->
  find (fun x => proj_id x =? run_projectId r) (projects s) = Some p ->
  proj_organizationId p <> organizationId ->
  verifyRun runId organizationId s = (Err (NotFoundError "Processing run"), s).
Proof.
  intros F P O. unfold verifyRun, bind, query, throw, ret, findRunWithProject.
  rewrite F, P. apply Nat.eqb_neq in O. now rewrite O.
Qed.

Lemma cancellable_iff st :
  cancellable st = true <-> st = RunStatus.pending \/ st = RunStatus.running.
Proof.
  destruct st; simpl; split; intros H; auto;
    try discriminate; destruct H; discriminate.
Qed.

Lemma cancelRun_ok now runId organizationId s r :
  fst (verifyRun runId organizationId s) = Ok r ->
  cancellable (run_status r) = true ->
  cancelRun now runId organizationId s =
  (Ok tt, with_processingRuns
            (update_runs runId (setCancelled now) (processingRuns s)) s).
Proof.
  intros V C. apply verifyRun_ok in V. destruct V as [V _].
  unfold cancelRun, bind. rewrite V, C. reflexivity.
Qed.

Lemma cancelRun_refused now runId organizationId s r :
  fst (verifyRun runId organizationId s) = Ok r ->
  cancellable (run_status r) = false ->
  cancelRun now runId organizationId s =
  (Err (ValidationError "Run cannot be cancelled"
                        (Some "RUN_NOT_CANCELLABLE")), s).
Proof.
  intros V C. apply verifyRun_ok in V. destruct V as [V _].
  unfold cancelRun, bind. rewrite V, C. reflexivity.
Qed.

Lemma cancelRun_cases now runId organizationId s :
  snd (cancelRun now runId organizationId s) = s
  \/ exists r,
       find (fun x => run_id x =? runId) (processingRuns s) = Some r
       /\ cancellable (run_status r) = true
       /\ snd (cancelRun now runId organizationId s)
          = with_processingRuns
              (update_runs runId (setCancelled now) (processingRuns s)) s.
Proof.
  destruct (fst (verifyRun runId organizationId s)) as [r|e] eqn:V.
  - destruct (cancellable (run_status r)) eqn:C.
    + right. exists r. rewrite (cancelRun_ok now _ _ _ _ V C).
      apply verifyRun_ok in V. destruct V as [_ F]. auto.
    + left. now rewrite (cancelRun_refused now _ _ _ _ V C).
  - left. unfold cancelRun, bind.
    pose proof (verifyRun_state runId organizationId s) as St.
    destruct (verifyRun runId organizationId s) as [[r|e'] s']; simpl in *.
    + discriminate.
    + exact St.
Qed.

Lemma find_update_runs runId set rows :
  (forall r, run_id (set r) = run_id r) ->
  find (fun x => run_id x =? runId) (update_runs runId set rows) =
  option_map set (find (fun x => run_id x =? runId) rows).
Proof.
  intros Hid. induction rows as [|a rows IH]; simpl; auto.
  destruct (run_id a =? runId) eqn:E.
  - now rewrite Hid, E.
  - now rewrite E.
Qed.

(** ** Preservation of the invariant *)

Lemma Inv_same_runs s s' : same_runs s s' -> Inv s -> Inv s'.
Proof.
  intros (R & D & J & Q) [I1 I2 I3 I4 I5 I6 I7].
  assert (P : forall k, pc_of s' k = pc_of s k)
    by (intro k; unfold pc_of, find_job; now rewrite J).
  assert (HD : forall k, has_dataset s' k = has_dataset s k)
    by (intro k; unfold has_dataset; now rewrite D).
  assert (HR : forall k, has_run s' k = has_run s k)
    by (intro k; unfold has_run; now rewrite R).
  constructor.
  - rewrite R, Q. exact I1.
  - rewrite J, Q. exact I2.
  - rewrite R. exact I3.
  - rewrite R. intros r I. rewrite P, HD. auto.
  - rewrite D. intros d I. rewrite HR. auto.
  - rewrite D. exact I6.
  - rewrite D. exact I7.
Qed.

Lemma no_dataset_of_fresh s k :
  Inv s -> processingRuns_seq s <= k -> has_dataset s k = false.
Proof.
  intros I L. destruct (has_dataset s k) eqn:H; auto.
  apply has_dataset_true in H. destruct H as (d & Hd & E).
  apply (inv_ds_run _ I) in Hd. apply has_run_true in Hd.
  destruct Hd as (r & Hr & E'). apply (inv_fresh _ I) in Hr. lia.
Qed.

Lemma Inv_created now projectId s :
  Inv s -> Inv (created_state now projectId s).
Proof.
  intros I. pose proof I as [I1 I2 I3 I4 I5 I6 I7].
  constructor; simpl.
  - intros r H. apply in_app_or in H. destruct H as [H|[<-|[]]].
    + apply I1 in H. lia.
    + simpl. lia.
  - intros j H. apply in_app_or in H. destruct H as [H|[<-|[]]].
    + apply I2 in H. lia.
    + simpl. lia.
  - rewrite map_app. simpl. apply NoDup_snoc; auto.
    intros Ha. apply in_map_iff in Ha.
    destruct Ha as (r & E & Hr). apply I1 in Hr. lia.
  - intros r H. unfold pc_of, find_job, has_dataset. simpl.
    rewrite find_app_l.
    apply in_app_or in H. destruct H as [H|[<-|[]]].
    + destruct (I4 r H) as (pc & P & OK). exists pc. split; auto.
      unfold pc_of, find_job in P.
      destruct (find _ (jobs s)); [exact P|discriminate].
    + simpl. fold (find_job (processingRuns_seq s) s).
      rewrite find_job_fresh by (intros j Hj; now apply I2).
      simpl. rewrite Nat.eqb_refl. simpl. exists AtStart. split; auto.
      simpl. repeat split; auto.
      now apply no_dataset_of_fresh.
  - intros d H. unfold has_run. simpl. rewrite existsb_app.
    apply I5 in H. unfold has_run in H. now rewrite H.
  - exact I6.
  - exact I7.
Qed.

Lemma in_set_job_pc k pc js j :
  In j (set_job_pc k pc js) ->
  In j js \/ (job_runId j = k /\ exists j0, In j0 js /\ job_runId j0 = k).
Proof.
  unfold set_job_pc. rewrite in_map_iff. intros (j0 & E & I).
  destruct (job_runId j0 =? k) eqn:B.
  - right. subst j. simpl. split; auto. exists j0. split; auto.
    now apply Nat.eqb_eq.
  - left. now subst.
Qed.

(** One [UPDATE ... WHERE id = runId], possibly with a move of the job. *)
Lemma Inv_update_run s s' runId set :
  Inv s ->
  (forall r, run_id (set r) = run_id r) ->
  processingRuns s' = update_runs runId set (processingRuns s) ->
  datasets s' = datasets s ->
  processingRuns_seq s' = processingRuns_seq s ->
  (forall j, In j (jobs s') -> job_runId j < processingRuns_seq s) ->
  (forall k, k <> runId -> pc_of s' k = pc_of s k) ->
  (forall r pc, In r (processingRuns s) -> run_id r = runId ->
     pc_of s runId = Some pc -> run_ok pc r (has_dataset s runId) ->
     exists pc', pc_of s' runId = Some pc'
                 /\ run_ok pc' (set r) (has_dataset s runId)) ->
  Inv s'.
Proof.
  intros [I1 I2 I3 I4 I5 I6 I7] Hid R D Q J P Step.
  assert (HD : forall k, has_dataset s' k = has_dataset s k)
    by (intro k; unfold has_dataset; now rewrite D).
  constructor.
  - rewrite R, Q. intros r' H. apply in_update_runs in H.
    destruct H as (r & H & ->). apply I1 in H.
    destruct (run_id r =? runId); now rewrite ?Hid.
  - rewrite Q. exact J.
  - rewrite R, ids_update_runs; auto.
  - rewrite R. intros r' H. apply in_update_runs in H.
    destruct H as (r & H & ->).
    destruct (I4 r H) as (pc & Hpc & OK).
    destruct (run_id r =? runId) eqn:E.
    + apply Nat.eqb_eq in E. rewrite Hid, HD, E. rewrite E in Hpc, OK.
      eapply Step; eauto.
    + apply Nat.eqb_neq in E. rewrite HD, P; eauto.
  - rewrite D. intros d H. apply I5 in H.
    apply has_run_true in H. destruct H as (r & H & E).
    apply has_run_true. rewrite R.
    exists (if run_id r =? runId then set r else r). split.
    + apply in_update_runs. eauto.
    + destruct (run_id r =? runId); now rewrite ?Hid.
  - now rewrite D.
  - now rewrite D.
Qed.

Lemma Inv_cancelled now runId s r :
  Inv s ->
  find (fun x => run_id x =? runId) (processingRuns s) = Some r ->
  cancellable (run_status r) = true ->
  Inv (with_processingRuns
         (update_runs runId (setCancelled now) (processingRuns s)) s).
Proof.
  intros I F C.
  apply (Inv_update_run s _ runId (setCancelled now)); auto.
  - exact (inv_jobs_fresh _ I).
  - intros r0 pc Hr E Hpc OK. exists pc. split; auto.
    assert (r0 = r) by (eapply find_run_unique; eauto; exact (inv_nodup _ I)).
    subst r0. apply cancellable_iff in C.
    destruct pc; simpl in *.
    + tauto.
    + tauto.
    + destruct OK as (St & _). rewrite St in C. destruct C; discriminate.
    + destruct OK as (St & _). rewrite St in C. destruct C; discriminate.
    + exact OK.
Qed.

Lemma Inv_job_moved s s' runId j pc' set :
  Inv s ->
  find_job runId s = Some j ->
  (forall r, run_id (set r) = run_id r) ->
  processingRuns s' = update_runs runId set (processingRuns s) ->
  datasets s' = datasets s ->
  processingRuns_seq s' = processingRuns_seq s ->
  jobs s' = set_job_pc runId pc' (jobs s) ->
  (forall r, In r (processingRuns s) -> run_id r = runId ->
     run_ok (job_pc j) r (has_dataset s runId) ->
     run_ok pc' (set r) (has_dataset s runId)) ->
  Inv s'.
Proof.
  intros I F Hid R D Q J Step.
  apply (Inv_update_run s s' runId set); auto.
  - intros j0 H. rewrite J in H. apply in_set_job_pc in H.
    destruct H as [H|(E & j1 & H & E1)].
    + now apply (inv_jobs_fresh _ I).
    + rewrite E, <- E1. now apply (inv_jobs_fresh _ I).
  - intros k Hk. rewrite (pc_of_set_job_pc s s' runId pc' k J).
    apply Nat.eqb_neq in Hk. now rewrite Hk.
  - intros r pc Hr E Hpc OK.
    rewrite (pc_of_set_job_pc s s' runId pc' runId J), Nat.eqb_refl, Hpc.
    exists pc'. split; auto. apply Step; auto.
    rewrite (pc_of_find_job _ _ _ F) in Hpc. injection Hpc as <-. exact OK.
Qed.

Lemma update_runs_id runId rows :
  update_runs runId (fun r => r) rows = rows.
Proof.
  unfold update_runs. rewrite <- (map_id rows) at 2. apply map_ext.
  intros r. now destruct (run_id r =? runId).
Qed.

Lemma Inv_dataset_created now runId s j :
  Inv s ->
  find_job runId s = Some j -> job_pc j = AtCreateDataset ->
  has_run s runId = true -> has_dataset s runId = false ->
  Inv (with_jobs (set_job_pc runId Resolved (jobs s))
        (with_datasets (datasets s ++ [created_dataset now runId s])
           (with_datasets_seq (S (datasets_seq s)) s))).
Proof.
  intros I F Pc HR HD. pose proof I as [I1 I2 I3 I4 I5 I6 I7].
  set (s' := with_jobs _ _).
  assert (J : jobs s' = set_job_pc runId Resolved (jobs s)) by reflexivity.
  assert (D : forall k, has_dataset s' k = has_dataset s k || (runId =? k)).
  { intros k. unfold has_dataset. simpl. rewrite existsb_app. simpl.
    now rewrite orb_false_r. }
  constructor.
  - exact I1.
  - intros j0 H. rewrite J in H. apply in_set_job_pc in H.
    destruct H as [H|(E & j1 & H & E1)].
    + now apply I2.
    + rewrite E, <- E1. now apply I2.
  - exact I3.
  - intros r H. change (processingRuns s') with (processingRuns s) in H.
    destruct (I4 r H) as (pc & Hpc & OK).
    rewrite (pc_of_set_job_pc s s' runId Resolved (run_id r) J), D.
    destruct (run_id r =? runId) eqn:E.
    + apply Nat.eqb_eq in E. rewrite E in *. rewrite Nat.eqb_refl, orb_true_r.
      rewrite Hpc. exists Resolved. split; auto.
      rewrite (pc_of_find_job _ _ _ F), Pc in Hpc. injection Hpc as <-.
      simpl in *. tauto.
    + rewrite Nat.eqb_sym, E, orb_false_r. eauto.
  - intros d H. change (has_run s' (ds_runId d)) with (has_run s (ds_runId d)).
    simpl in H. apply in_app_or in H. destruct H as [H|[<-|[]]]; auto.
  - simpl. rewrite map_app. simpl. apply NoDup_snoc; auto.
    intros H. apply has_dataset_in in H. congruence.
  - intros d H. simpl in H. apply in_app_or in H.
    destruct H as [H|[<-|[]]]; auto.
Qed.

Lemma resume_AtCreateDataset now runId s j :
  find_job runId s = Some j -> job_pc j = AtCreateDataset ->
  resume now runId s =
  if negb (has_run s runId)
  then with_jobs (set_job_pc runId Rejected (jobs s))
         (with_datasets_seq (S (datasets_seq s)) s)
  else if has_dataset s runId
  then with_jobs (set_job_pc runId Rejected (jobs s))
         (with_datasets_seq (S (datasets_seq s)) s)
  else with_jobs (set_job_pc runId Resolved (jobs s))
         (with_datasets (datasets s ++ [created_dataset now runId s])
            (with_datasets_seq (S (datasets_seq s)) s)).
Proof.
  intros F Pc. unfold resume. rewrite F, Pc.
  unfold simulateProcessing, createDataset, bind, insert_dataset, ret.
  destruct (negb (has_run s runId)); auto.
  destruct (has_dataset s runId); auto.
Qed.

Lemma Inv_resume now runId s : Inv s -> Inv (resume now runId s).
Proof.
  intros I. destruct (find_job runId s) as [j|] eqn:F.
  2: { unfold resume. now rewrite F. }
  destruct (job_pc j) as [|p| | |] eqn:Pc.
  - unfold resume. rewrite F, Pc. simpl.
    apply (Inv_job_moved s _ runId j (InLoop 10) (setRunning now)); auto.
    rewrite Pc. simpl. intros r _ _ (St & Pg & H). rewrite Pg. repeat split; auto; lia.
  - unfold resume. rewrite F, Pc. simpl.
    destruct (p <=? 100) eqn:L; simpl.
    + apply Nat.leb_le in L.
      apply (Inv_job_moved s _ runId j (InLoop (p + 10)) (setProgress p)); auto.
      rewrite Pc. simpl. intros r _ _ (St & B & Pg & H). repeat split; auto; lia.
    + apply (Inv_job_moved s _ runId j AtCreateDataset (setCompleted now)); auto.
      rewrite Pc. simpl. intros r _ _ (St & B & Pg & H). repeat split; auto.
  - rewrite (resume_AtCreateDataset now runId s j F Pc).
    destruct (has_run s runId) eqn:HR; simpl.
    + destruct (has_dataset s runId) eqn:HD.
      * apply (Inv_job_moved s _ runId j Rejected (fun r => r)); auto.
        -- simpl. now rewrite update_runs_id.
        -- rewrite Pc. simpl. intros r _ _ (_ & _ & _ & H). congruence.
      * now apply (Inv_dataset_created now runId s j).
    + apply (Inv_job_moved s _ runId j Rejected (fun r => r)); auto.
      * simpl. now rewrite update_runs_id.
      * intros r Hr E. exfalso.
        assert (has_run s runId = true) by (apply has_run_true; eauto).
        congruence.
  - unfold resume. rewrite F, Pc. simpl.
    apply (Inv_job_moved s _ runId j Resolved (fun r => r)); auto.
    + simpl. now rewrite update_runs_id.
    + now rewrite Pc.
  - unfold resume. rewrite F, Pc. simpl.
    apply (Inv_job_moved s _ runId j Rejected (fun r => r)); auto.
    + simpl. now rewrite update_runs_id.
    + now rewrite Pc.
Qed.

Lemma same_runs_refl s : same_runs s s.
Proof. repeat split. Qed.

Lemma updateProcessingConfig_same_runs now projectId organizationId config s :
  same_runs s (snd (updateProcessingConfig now projectId organizationId config s)).
Proof.
  unfold updateProcessingConfig, verifyProject, bind, query, throw, ret, modify,
    insert_processingConfig.
  destruct (find _ (projects s)); simpl; [|now unfold same_runs].
  destruct (findProcessingConfig projectId s); simpl; [now unfold same_runs|].
  destruct (negb _); simpl; [now unfold same_runs|].
  destruct (existsb _ _); simpl; now unfold same_runs.
Qed.

Lemma verifySource_state sourceId organizationId s :
  snd (verifySource sourceId organizationId s) = s.
Proof.
  unfold verifySource, bind, query, throw, ret.
  destruct (findSourceWithProject sourceId s) as [[r [p|]]|]; simpl; auto.
  now destruct (negb _).
Qed.

Lemma triggerSync_same_runs now sourceId organizationId s :
  same_runs s (snd (triggerSync now sourceId organizationId s)).
Proof.
  unfold triggerSync, bind.
  pose proof (verifySource_state sourceId organizationId s) as St.
  destruct (verifySource sourceId organizationId s) as [[x|e] s']; simpl in *;
    subst s'; [|now unfold same_runs].
  destruct (negb _); simpl; now unfold same_runs.
Qed.

Lemma fireTimer_same_runs now s : same_runs s (fireTimer now s).
Proof.
  unfold fireTimer. destruct (timers s); simpl; now unfold same_runs.
Qed.

Lemma Inv_initial s : initial s -> Inv s.
Proof.
  intros (R & D & J & T).
  constructor; rewrite ?R, ?D, ?J; simpl;
    solve [apply NoDup_nil | intros ? []].
Qed.

Lemma Inv_exec now e s : Inv s -> Inv (exec now e s).
Proof.
  intros I. destruct e as [p o|r o|p o c|x o|r|]; simpl.
  - destruct (createProcessingRun_cases now p o s) as [-> | ->]; auto.
    now apply Inv_created.
  - destruct (cancelRun_cases now r o s) as [-> | (r0 & F & C & ->)]; auto.
    now apply (Inv_cancelled now r s r0).
  - eapply Inv_same_runs; eauto. apply updateProcessingConfig_same_runs.
  - eapply Inv_same_runs; eauto. apply triggerSync_same_runs.
  - now apply Inv_resume.
  - eapply Inv_same_runs; eauto. apply fireTimer_same_runs.
Qed.

Lemma Inv_reachable s : reachable s -> Inv s.
Proof.
  induction 1 as [s H | s now e _ IH].
  - now apply Inv_initial.
  - now apply Inv_exec.
Qed.

Lemma reachable_run_trace tr : forall s,
  reachable s -> reachable (run_trace tr s).
Proof.
  induction tr as [|[now e] tr IH]; intros s H; simpl; auto.
  apply IH. now constructor.
Qed.

Lemma demo_initial : initial demo.
Proof. repeat split. Qed.

Lemma demo_at40_reachable : reachable demo_at40.
Proof.
  unfold demo_at40. apply reachable_run_trace.
  unfold demo_running. apply reachable_run_trace.
  unfold demo_pending. apply reachable_run_trace.
  constructor. exact demo_initial.
Qed.

Lemma demo_completed_reachable : reachable demo_completed.
Proof.
  unfold demo_completed. apply reachable_run_trace.
  exact demo_at40_reachable.
Qed.

Lemma demo_done_reachable : reachable demo_done.
Proof.
  unfold demo_done. apply reachable_run_trace.
  exact demo_completed_reachable.
Qed.

(** ** How one step changes a row *)

Lemma same_id_eq rows r r' :
  NoDup (map run_id rows) -> In r rows -> In r' rows ->
  run_id r' = run_id r -> r' = r.
Proof.
  induction rows as [|a rows IH]; simpl; intros ND I I' E; [contradiction|].
  inversion ND as [|? ? Hnotin ND']; subst.
  destruct I as [I|I], I' as [I'|I']; subst; auto.
  - exfalso. apply Hnotin. rewrite <- E. now apply in_map.
  - exfalso. apply Hnotin. rewrite E. now apply in_map.
Qed.

Lemma in_update_runs_same rows runId set r r' :
  NoDup (map run_id rows) ->
  (forall x, run_id (set x) = run_id x) ->
  In r rows -> In r' (update_runs runId set rows) -> run_id r' = run_id r ->
  r' = (if run_id r =? runId then set r else r).
Proof.
  intros ND Hid I I' E. apply in_update_runs in I'.
  destruct I' as (r0 & I0 & ->).
  assert (r0 = r).
  { apply (same_id_eq rows); auto.
    destruct (run_id r0 =? runId); now rewrite ?Hid in E. }
  now subst.
Qed.

(** The row of a run after one step of the system is the old row, or the
    old row changed by [cancelRun] or by the next statement of its job. *)
Lemma exec_row now e s r r' :
  Inv s -> In r (processingRuns s) ->
  In r' (processingRuns (exec now e s)) -> run_id r' = run_id r ->
  r' = r
  \/ (cancellable (run_status r) = true /\ r' = setCancelled now r)
  \/ (pc_of s (run_id r) = Some AtStart /\ r' = setRunning now r)
  \/ (exists p, pc_of s (run_id r) = Some (InLoop p) /\ p <= 100
                /\ r' = setProgress p r)
  \/ (exists p, pc_of s (run_id r) = Some (InLoop p) /\ 100 < p
                /\ r' = setCompleted now r).
Proof.
  intros I Hr Hr' E. pose proof (inv_nodup _ I) as ND.
  assert (Same : forall s', same_runs s s' -> In r' (processingRuns s') -> r' = r).
  { intros s' (R & _) H. rewrite R in H. now apply (same_id_eq (processingRuns s)). }
  destruct e as [p o|k o|p o c|x o|k|]; simpl in Hr'.
  - left. destruct (createProcessingRun_cases now p o s) as [Q|Q];
      rewrite Q in Hr'.
    + now apply (same_id_eq (processingRuns s)).
    + simpl in Hr'. apply in_app_or in Hr'. destruct Hr' as [H|[<-|[]]].
      * now apply (same_id_eq (processingRuns s)).
      * simpl in E. apply (inv_fresh _ I) in Hr. lia.
  - destruct (cancelRun_cases now k o s) as [Q|(r0 & F & C & Q)];
      rewrite Q in Hr'.
    + left. now apply (same_id_eq (processingRuns s)).
    + simpl in Hr'.
      apply (in_update_runs_same _ _ _ r) in Hr'; auto.
      destruct (run_id r =? k) eqn:B; auto.
      right. left. split; auto.
      apply Nat.eqb_eq in B.
      assert (r = r0) by (eapply find_run_unique; eauto). now subst.
  - left. apply (Same _ (updateProcessingConfig_same_runs now p o c s) Hr').
  - left. apply (Same _ (triggerSync_same_runs now x o s) Hr').
  - destruct (find_job k s) as [j|] eqn:F.
    2: { left. unfold resume in Hr'. rewrite F in Hr'.
         now apply (same_id_eq (processingRuns s)). }
    pose proof (pc_of_find_job _ _ _ F) as Hpc.
    destruct (job_pc j) as [|p| | |] eqn:Pc.
    + unfold resume in Hr'. rewrite F, Pc in Hr'. simpl in Hr'.
      apply (in_update_runs_same _ _ _ r) in Hr'; auto.
      destruct (run_id r =? k) eqn:B; auto.
      apply Nat.eqb_eq in B. rewrite B. auto.
    + unfold resume in Hr'. rewrite F, Pc in Hr'. simpl in Hr'.
      destruct (p <=? 100) eqn:L; simpl in Hr';
        apply (in_update_runs_same _ _ _ r) in Hr'; auto;
        destruct (run_id r =? k) eqn:B; auto;
        apply Nat.eqb_eq in B; rewrite B; right; right; right.
      * left. exists p. apply Nat.leb_le in L. auto.
      * right. exists p. apply Nat.leb_gt in L. auto.
    + left. rewrite (resume_AtCreateDataset now k s j F Pc) in Hr'.
      destruct (negb (has_run s k)); [|destruct (has_dataset s k)];
        simpl in Hr'; now apply (same_id_eq (processingRuns s)).
    + left. unfold resume in Hr'. rewrite F, Pc in Hr'. simpl in Hr'.
      now apply (same_id_eq (processingRuns s)).
    + left. unfold resume in Hr'. rewrite F, Pc in Hr'. simpl in Hr'.
      now apply (same_id_eq (processingRuns s)).
  - left. apply (Same _ (fireTimer_same_runs now s) Hr').
Qed.

(** * The claims *)

(** ** Creating a run *)

(** C1, as the code has it: when the caller's project already has a run in
    status [running], [createProcessingRun] fails with the 422
    [ValidationError] "A processing run is already active" (details code
    [RUN_ALREADY_RUNNING]) and leaves the whole state as it was: no row is
    inserted and the running run is untouched. *)
Theorem C1_running_run_rejects_create now projectId organizationId s p r :
  fst (verifyProject projectId organizationId s) = Ok p ->
  In r (processingRuns s) ->
  run_projectId r = projectId ->
  run_status r = RunStatus.running ->
  createProcessingRun now projectId organizationId s =
  (Err (App {| statusCode := 422; code := "VALIDATION_ERROR";
               message := "A processing run is already active";
               details := Some "RUN_ALREADY_RUNNING" |}), s).
Proof. apply createProcessingRun_running. Qed.

Lemma C1_running_run_rejects_create_witness :
  createProcessingRun 20 1 1 demo_running =
  (Err (App {| statusCode := 422; code := "VALIDATION_ERROR";
               message := "A processing run is already active";
               details := Some "RUN_ALREADY_RUNNING" |}), demo_running).
Proof.
  apply (C1_running_run_rejects_create 20 1 1 demo_running
           {| proj_id := 1; proj_name := "Support"; proj_organizationId := 1;
              proj_deletedAt := None |}
           (setRunning 11 (created_run 10 1 demo))).
  - reflexivity.
  - vm_compute. left. reflexivity.
  - reflexivity.
  - reflexivity.
Defined.

(** C1 fails as stated.  Project 1 has run 1 in status [pending]; a second
    [createProcessingRun] succeeds and inserts run 2.  And where the call
    is refused (run 1 [running]) the status code is 422, not the 409 of
    [ConflictError]. *)
Lemma C1_counterexample :
  ~ (forall now projectId organizationId s p r,
       fst (verifyProject projectId organizationId s) = Ok p ->
       In r (processingRuns s) ->
       run_projectId r = projectId ->
       run_status r = RunStatus.pending \/ run_status r = RunStatus.running ->
       (exists msg c,
          fst (createProcessingRun now projectId organizationId s)
          = Err (ConflictError msg c))
       /\ processingRuns (snd (createProcessingRun now projectId organizationId s))
          = processingRuns s).
Proof.
  intros H.
  destruct (H 20 1 1 demo_pending
              {| proj_id := 1; proj_name := "Support"; proj_organizationId := 1;
                 proj_deletedAt := None |}
              (created_run 10 1 demo)) as [_ Rows].
  - reflexivity.
  - vm_compute. left. reflexivity.
  - reflexivity.
  - left. reflexivity.
  - vm_compute in Rows. discriminate.
Qed.

Example C1_pending_run_second_create :
  fst (createProcessingRun 20 1 1 demo_pending)
  = Ok {| cr_id := 2; cr_status := RunStatus.pending; cr_progress := 0;
          cr_createdAt := 20 |}
  /\ map (fun r => (run_id r, run_projectId r, run_status r))
         (processingRuns (snd (createProcessingRun 20 1 1 demo_pending)))
     = [(1, 1, RunStatus.pending); (2, 1, RunStatus.pending)].
Proof. split; reflexivity. Qed.

(** C5, as the code has it: when the project is visible to the caller, has
    no run in status [running] and has a source in status [ready],
    [createProcessingRun] appends one run with the next serial id, status
    [pending], progress 0 and, as configuration, the stored configuration of
    the project or the empty object when none is stored; it registers the
    background job and returns id, status, progress and creation time of
    that run. *)
Theorem C5_create_run_success now projectId organizationId s p x :
  fst (verifyProject projectId organizationId s) = Ok p ->
  (forall r, In r (processingRuns s) -> run_projectId r = projectId ->
             run_status r <> RunStatus.running) ->
  In x (sources s) -> src_projectId x = projectId ->
  src_status x = SourceStatus.ready ->
  let run := created_run now projectId s in
  let s' := snd (createProcessingRun now projectId organizationId s) in
  fst (createProcessingRun now projectId organizationId s)
  = Ok {| cr_id := run_id run; cr_status := RunStatus.pending;
          cr_progress := 0; cr_createdAt := now |}
  /\ processingRuns s' = (processingRuns s ++ [run])%list
  /\ run_id run = processingRuns_seq s
  /\ run_projectId run = projectId
  /\ run_status run = RunStatus.pending
  /\ run_progress run = 0
  /\ run_createdAt run = now
  /\ run_config run
     = Some (match findProcessingConfig projectId s with
             | Some c => ConfigSnapshot (pcfg_config c)
             | None => EmptyObject
             end)
  /\ jobs s' = (jobs s ++ [{| job_runId := run_id run; job_pc := AtStart |}])%list
  /\ datasets s' = datasets s.
Proof.
  intros V NR I E St run s'. subst s'.
  rewrite (createProcessingRun_success now _ _ _ _ _ V NR I E St).
  repeat split.
Qed.

Lemma C5_create_run_success_witness :
  fst (createProcessingRun 10 1 1 demo)
  = Ok {| cr_id := 1; cr_status := RunStatus.pending;
          cr_progress := 0; cr_createdAt := 10 |}
  /\ run_config (created_run 10 1 demo)
     = Some (ConfigSnapshot
               {| outputFormat := qa; includeMetadata := false;
                  chunkSize := 500%Z;
                  qualityFilters := {| minLength := 5%Z;
                                       maxLength := 2000%Z |} |}).
Proof.
  destruct (C5_create_run_success 10 1 1 demo
              {| proj_id := 1; proj_name := "Support"; proj_organizationId := 1;
                 proj_deletedAt := None |}
              {| src_id := 1; src_name := "Desk"; src_type := SourceType.teamwork;
                 src_status := SourceStatus.ready; src_projectId := 1;
                 src_lastSyncAt := Some 3; src_syncError := None;
                 src_recordCount := Some 100;
                 src_createdAt := 1; src_updatedAt := 3 |})
    as (R & _ & _ & _ & _ & _ & _ & C & _).
  - reflexivity.
  - intros r [].
  - left. reflexivity.
  - reflexivity.
  - reflexivity.
  - split; [exact R | exact C].
Defined.

(** C5 fails as stated.  Project 2 has a ready source and no stored
    configuration: the run that [createProcessingRun] inserts carries the
    empty object, not the default configuration that [getProcessingConfig]
    reports for the same project. *)
Lemma C5_counterexample :
  findProcessingConfig 2 demo = None
  /\ fst (getProcessingConfig 2 2 demo) = Ok defaultProcessingConfig
  /\ (exists cr, fst (createProcessingRun 10 2 2 demo) = Ok cr)
  /\ map run_config (processingRuns (snd (createProcessingRun 10 2 2 demo)))
     = [Some EmptyObject]
  /\ ~ In (Some (ConfigSnapshot defaultProcessingConfig))
          (map run_config (processingRuns (snd (createProcessingRun 10 2 2 demo)))).
Proof.
  repeat split.
  - eexists. reflexivity.
  - vm_compute. intros [H|[]]. discriminate.
Qed.

(** C6: a project that is visible to the caller, has no run in status
    [running] and has no source in status [ready]: [createProcessingRun]
    fails with the 422 [ValidationError] "No ready sources configured for
    project" and leaves the state as it was, so no run row is inserted. *)
Theorem C6_no_ready_sources now projectId organizationId s p :
  fst (verifyProject projectId organizationId s) = Ok p ->
  (forall r, In r (processingRuns s) -> run_projectId r = projectId ->
             run_status r <> RunStatus.running) ->
  (forall x, In x (sources s) -> src_projectId x = projectId ->
             src_status x <> SourceStatus.ready) ->
  createProcessingRun now projectId organizationId s =
  (Err (App {| statusCode := 422; code := "VALIDATION_ERROR";
               message := "No ready sources configured for project";
               details := Some "NO_SOURCES_CONFIGURED" |}), s).
Proof. apply createProcessingRun_no_sources. Qed.

Lemma C6_no_ready_sources_witness :
  createProcessingRun 10 1 1 demo_unsynced =
  (Err (App {| statusCode := 422; code := "VALIDATION_ERROR";
               message := "No ready sources configured for project";
               details := Some "NO_SOURCES_CONFIGURED" |}), demo_unsynced).
Proof.
  apply (C6_no_ready_sources 10 1 1 demo_unsynced
           {| proj_id := 1; proj_name := "Support"; proj_organizationId := 1;
              proj_deletedAt := None |}).
  - reflexivity.
  - intros r [].
  - intros x [<-|[]] _. discriminate.
Defined.

(** ** Cancelling a run *)

(** C4: for a run that [verifyRun] hands to the caller, [cancelRun] on
    status [pending] or [running] rewrites the row to status [cancelled]
    with the completion time (and [updatedAt]) set to now, every other
    column and every other table kept; on status [completed], [failed] or
    [cancelled] it fails with the 422 [ValidationError] "Run cannot be
    cancelled" and the state, hence every field of the run, is unchanged. *)
Theorem C4_cancelRun now runId organizationId s r :
  fst (verifyRun runId organizationId s) = Ok r ->
  (run_status r = RunStatus.pending \/ run_status r = RunStatus.running ->
   let s' := snd (cancelRun now runId organizationId s) in
   fst (cancelRun now runId organizationId s) = Ok tt
   /\ s' = with_processingRuns
             (update_runs runId (setCancelled now) (processingRuns s)) s
   /\ find (fun x => run_id x =? runId) (processingRuns s')
      = Some (setCancelled now r)
   /\ run_status (setCancelled now r) = RunStatus.cancelled
   /\ run_completedAt (setCancelled now r) = Some now
   /\ run_progress (setCancelled now r) = run_progress r
   /\ run_config (setCancelled now r) = run_config r
   /\ run_stats (setCancelled now r) = run_stats r)
  /\ (run_status r = RunStatus.completed \/ run_status r = RunStatus.failed
      \/ run_status r = RunStatus.cancelled ->
      cancelRun now runId organizationId s =
      (Err (App {| statusCode := 422; code := "VALIDATION_ERROR";
                   message := "Run cannot be cancelled";
                   details := Some "RUN_NOT_CANCELLABLE" |}), s)).
Proof.
  intros V. split.
  - intros St s'. subst s'. apply cancellable_iff in St.
    rewrite (cancelRun_ok now _ _ _ _ V St). simpl.
    apply verifyRun_ok in V. destruct V as [_ F].
    rewrite find_update_runs, F by reflexivity. repeat split.
  - intros St. apply (cancelRun_refused now _ _ _ _ V).
    destruct St as [St|[St|St]]; now rewrite St.
Qed.

Lemma C4_cancelRun_witness :
  map (fun r => (run_id r, run_status r, run_progress r, run_completedAt r))
      (processingRuns (snd (cancelRun 16 1 1 demo_at40)))
  = [(1, RunStatus.cancelled, 40, Some 16)]
  /\ cancelRun 30 1 1 demo_done
     = (Err (ValidationError "Run cannot be cancelled"
                             (Some "RUN_NOT_CANCELLABLE")), demo_done).
Proof.
  split.
  - destruct (C4_cancelRun 16 1 1 demo_at40
                (setProgress 40 (setRunning 11 (created_run 10 1 demo))))
      as [H _]; [reflexivity|].
    destruct H as (_ & E & _); [right; reflexivity|].
    rewrite E. reflexivity.
  - destruct (C4_cancelRun 30 1 1 demo_done
                (setCompleted 20
                   (setProgress 100 (setRunning 11 (created_run 10 1 demo)))))
      as [_ H]; [reflexivity|].
    apply H. left. reflexivity.
Defined.

(** C2, evaluated on the code.  Run 1 is cancelled at progress 40 and its
    row says [cancelled]; the job of [simulateProcessing] goes on: its
    next statements raise the progress of the cancelled run, the statement
    after the loop overwrites the status with [completed], and the last
    one inserts a dataset.  A run cancelled while [pending] is set to
    [running] by the first statement of the job. *)
Theorem C2_cancelled_status_overwritten :
  map (fun r => (run_id r, run_status r, run_progress r))
      (processingRuns demo_cancelled) = [(1, RunStatus.cancelled, 40)]
  /\ map (fun r => (run_id r, run_status r, run_progress r))
         (processingRuns (run_trace (resumes 1 20 1) demo_cancelled))
     = [(1, RunStatus.cancelled, 50)]
  /\ map (fun r => (run_id r, run_status r, run_progress r))
         (processingRuns (run_trace (resumes 7 20 1) demo_cancelled))
     = [(1, RunStatus.completed, 100)]
  /\ map ds_runId (datasets (run_trace (resumes 8 20 1) demo_cancelled)) = [1]
  /\ map (fun r => (run_id r, run_status r))
         (processingRuns (run_trace [(11, CancelRun 1 1)] demo_pending))
     = [(1, RunStatus.cancelled)]
  /\ map (fun r => (run_id r, run_status r))
         (processingRuns
            (run_trace [(11, CancelRun 1 1); (12, Resume 1)] demo_pending))
     = [(1, RunStatus.running)].
Proof. repeat split; reflexivity. Qed.

(** ** Datasets and the status of their run *)

Lemma run_ok_of s r :
  Inv s -> In r (processingRuns s) ->
  forall pc, pc_of s (run_id r) = Some pc ->
  run_ok pc r (has_dataset s (run_id r)).
Proof.
  intros I Hr pc Hpc. destruct (inv_run _ I r Hr) as (pc0 & H0 & OK).
  rewrite Hpc in H0. injection H0 as <-. exact OK.
Qed.

Lemma dataset_run_completed s r :
  Inv s -> In r (processingRuns s) -> has_dataset s (run_id r) = true ->
  run_status r = RunStatus.completed /\ pc_of s (run_id r) = Some Resolved.
Proof.
  intros I Hr HD. destruct (inv_run _ I r Hr) as (pc & Hpc & OK).
  rewrite HD in OK. destruct pc; simpl in OK.
  - destruct OK as (_ & _ & H). discriminate.
  - destruct OK as (_ & _ & _ & H). discriminate.
  - destruct OK as (_ & _ & _ & H). discriminate.
  - destruct OK as (St & _). auto.
  - contradiction.
Qed.

Lemma completed_run_pc s r :
  Inv s -> In r (processingRuns s) -> run_status r = RunStatus.completed ->
  (pc_of s (run_id r) = Some Resolved /\ has_dataset s (run_id r) = true)
  \/ (pc_of s (run_id r) = Some AtCreateDataset
      /\ has_dataset s (run_id r) = false).
Proof.
  intros I Hr St. destruct (inv_run _ I r Hr) as (pc & Hpc & OK).
  destruct pc; simpl in OK.
  - destruct OK as ([H|H] & _); rewrite St in H; discriminate.
  - destruct OK as ([H|H] & _); rewrite St in H; discriminate.
  - right. tauto.
  - left. tauto.
  - contradiction.
Qed.

Lemma find_dataset_none s runId :
  findDatasetOfRun runId s = None <-> has_dataset s runId = false.
Proof.
  unfold findDatasetOfRun, has_dataset. split.
  - intros F. destruct (existsb _ _) eqn:E; auto.
    apply existsb_exists in E. destruct E as (d & I & B).
    apply (find_none _ _ F) in I. congruence.
  - intros E. destruct (find _ _) as [d|] eqn:F; auto.
    apply find_some in F. destruct F as [I B].
    assert (existsb (fun d => ds_runId d =? runId) (datasets s) = true)
      by (apply existsb_exists; eauto).
    congruence.
Qed.

Lemma getRunDataset_visible runId organizationId s r :
  fst (verifyRun runId organizationId s) = Ok r ->
  getRunDataset runId organizationId s =
  match findDatasetOfRun runId s with
  | None => (Err (NotFoundError "Dataset"), s)
  | Some d =>
      (Ok {| rds_id := ds_id d; rds_name := ds_name d;
             rds_format := ds_format d;
             rds_recordCount := ds_recordCount d;
             rds_stats := ds_stats d; rds_createdAt := ds_createdAt d |}, s)
  end.
Proof.
  intros V. apply verifyRun_ok in V. destruct V as [V _].
  unfold getRunDataset, bind at 1. rewrite V.
  unfold bind, query. now destruct (findDatasetOfRun runId s).
Qed.

(** C3 fails as stated.  In the reachable state [demo_completed] run 1 has
    status [completed] and no dataset row: [getRunStatus] reports
    [completed] and [getRunDataset] answers [NotFound]. *)
Lemma C3_counterexample :
  reachable demo_completed
  /\ ~ (forall r, In r (processingRuns demo_completed) ->
          (has_dataset demo_completed (run_id r) = true
           <-> run_status r = RunStatus.completed))
  /\ option_map rs_status
       (match fst (getRunStatus 1 1 demo_completed) with
        | Ok v => Some v | Err _ => None end) = Some RunStatus.completed
  /\ fst (getRunDataset 1 1 demo_completed) = Err (NotFoundError "Dataset").
Proof.
  split; [|split; [|split]].
  - exact demo_completed_reachable.
  - intros H.
    specialize (H (setCompleted 20
                     (setProgress 100 (setRunning 11 (created_run 10 1 demo))))).
    destruct H as [_ H]; [vm_compute; left; reflexivity|].
    specialize (H eq_refl). vm_compute in H. discriminate.
  - reflexivity.
  - reflexivity.
Qed.

(** ** Progress *)

(** C7: in every reachable state a run with status [pending] has progress
    0 and a run with status [completed] has progress exactly 100; and no
    step of the system (a request or a statement of a background job)
    lowers the progress of a run whose status is [running]. *)
Theorem C7_progress s :
  reachable s ->
  (forall r, In r (processingRuns s) ->
     run_status r = RunStatus.pending -> run_progress r = 0)
  /\ (forall r, In r (processingRuns s) ->
        run_status r = RunStatus.completed -> run_progress r = 100)
  /\ (forall now e r r',
        In r (processingRuns s) ->
        In r' (processingRuns (exec now e s)) ->
        run_id r' = run_id r ->
        run_status r = RunStatus.running ->
        run_progress r <= run_progress r').
Proof.
  intros R. apply Inv_reachable in R. split; [|split].
  - intros r Hr St. destruct (inv_run _ R r Hr) as (pc & _ & OK).
    destruct pc; simpl in OK.
    + tauto.
    + destruct OK as ([H|H] & _); rewrite St in H; discriminate.
    + destruct OK as (H & _); rewrite St in H; discriminate.
    + destruct OK as (H & _); rewrite St in H; discriminate.
    + contradiction.
  - intros r Hr St. destruct (inv_run _ R r Hr) as (pc & _ & OK).
    destruct pc; simpl in OK.
    + destruct OK as ([H|H] & _); rewrite St in H; discriminate.
    + destruct OK as ([H|H] & _); rewrite St in H; discriminate.
    + tauto.
    + tauto.
    + contradiction.
  - intros now e r r' Hr Hr' E St.
    destruct (exec_row now e s r r' R Hr Hr' E)
      as [->|[(_ & ->)|[(_ & ->)|[(p & Hpc & L & ->)|(p & Hpc & L & ->)]]]];
      simpl; auto.
    + pose proof (run_ok_of s r R Hr _ Hpc) as OK. simpl in OK. lia.
    + pose proof (run_ok_of s r R Hr _ Hpc) as OK. simpl in OK. lia.
Qed.

Lemma C7_progress_witness :
  (forall r, In r (processingRuns demo_at40) ->
     run_status r = RunStatus.completed -> run_progress r = 100)
  /\ 40 <= 50.
Proof.
  pose proof (C7_progress demo_at40 demo_at40_reachable) as (_ & C & M).
  split; [exact C|].
  apply (M 16 (Resume 1)
           (setProgress 40 (setRunning 11 (created_run 10 1 demo)))
           (setProgress 50 (setRunning 11 (created_run 10 1 demo)))).
  - vm_compute. left. reflexivity.
  - vm_compute. left. reflexivity.
  - reflexivity.
  - reflexivity.
Defined.

(** ** The dataset of a completed run *)




(** ** Tenant isolation of the run operations *)

(** ** Syncing a source *)

Lemma verifySource_ok sourceId organizationId s x :
  fst (verifySource sourceId organizationId s) = Ok x ->
  verifySource sourceId organizationId s = (Ok x, s)
  /\ find (fun y => src_id y =? sourceId) (sources s) = Some x.
Proof.
  unfold verifySource, bind, query, throw, ret, findSourceWithProject.
  destruct (find _ (sources s)) as [x0|]; simpl; [|discriminate].
  destruct (find _ (projects s)) as [p|]; simpl; [|discriminate].
  destruct (negb _); simpl; [discriminate|].
  intros E. injection E as ->. auto.
Qed.

Lemma find_update_sources sourceId set rows :
  (forall x, src_id (set x) = src_id x) ->
  find (fun y => src_id y =? sourceId) (update_sources sourceId set rows) =
  option_map set (find (fun y => src_id y =? sourceId) rows).
Proof.
  intros Hid. induction rows as [|a rows IH]; simpl; auto.
  destruct (src_id a =? sourceId) eqn:E.
  - now rewrite Hid, E.
  - now rewrite E.
Qed.

(** C10: for a source that [verifySource] hands to the caller,
    [triggerSync] on a source whose type is not [teamwork] fails with the
    400 [BadRequestError] "Only Teamwork sources can be synced" and leaves
    the state, hence the status of the source, as it was; on a [teamwork]
    source it answers "Sync started", sets the status to [syncing] and
    arms a timer; the callback of the timer sets the status of the source,
    whatever happened to it in between, to [ready] with record count 100
    and the sync time. *)
Theorem C10_triggerSync now sourceId organizationId s x :
  fst (verifySource sourceId organizationId s) = Ok x ->
  (src_type x <> SourceType.teamwork ->
   triggerSync now sourceId organizationId s =
   (Err (App {| statusCode := 400; code := "BAD_REQUEST";
                message := "Only Teamwork sources can be synced";
                details := None |}), s))
  /\ (src_type x = SourceType.teamwork ->
      let s' := snd (triggerSync now sourceId organizationId s) in
      fst (triggerSync now sourceId organizationId s) = Ok "Sync started"
      /\ sources s' = update_sources sourceId (setSyncing now) (sources s)
      /\ find (fun y => src_id y =? sourceId) (sources s')
         = Some (setSyncing now x)
      /\ src_status (setSyncing now x) = SourceStatus.syncing
      /\ timers s' = (timers s ++ [sourceId])%list
      /\ (timers s = [] ->
          forall now',
            find (fun y => src_id y =? sourceId) (sources (fireTimer now' s'))
            = Some (setSynced now' (setSyncing now x))))
  /\ (forall now' s'' y,
        find (fun y => src_id y =? sourceId) (sources s'') = Some y ->
        find (fun y => src_id y =? sourceId)
             (sources (snd (syncDone now' sourceId s'')))
        = Some (setSynced now' y)
        /\ src_status (setSynced now' y) = SourceStatus.ready
        /\ src_recordCount (setSynced now' y) = Some 100
        /\ src_lastSyncAt (setSynced now' y) = Some now').
Proof.
  intros V. apply verifySource_ok in V. destruct V as [V F].
  split; [|split].
  - intros T. unfold triggerSync, bind. rewrite V.
    destruct (src_type x); simpl; [reflexivity|]. now destruct T.
  - intros T s'. subst s'. unfold triggerSync, bind. rewrite V, T. simpl.
    repeat split.
    + now rewrite find_update_sources, F.
    + intros E now'. unfold fireTimer. simpl. rewrite E. simpl.
      now rewrite !find_update_sources, F.
  - intros now' s'' y Fy. simpl.
    rewrite find_update_sources, Fy by reflexivity. repeat split.
Qed.

Lemma C10_triggerSync_witness :
  triggerSync 30 2 1 demo
  = (Err (BadRequestError "Only Teamwork sources can be synced"), demo)
  /\ map (fun y => (src_id y, src_status y))
         (sources (snd (triggerSync 30 1 1 demo)))
     = [(1, SourceStatus.syncing); (2, SourceStatus.pending);
        (3, SourceStatus.ready)].
Proof.
  split.
  - destruct (C10_triggerSync 30 2 1 demo
                {| src_id := 2; src_name := "tickets.csv";
                   src_type := SourceType.file;
                   src_status := SourceStatus.pending; src_projectId := 1;
                   src_lastSyncAt := None; src_syncError := None;
                   src_recordCount := None;
                   src_createdAt := 2; src_updatedAt := 2 |})
      as (B & _); [reflexivity|].
    apply B. discriminate.
  - destruct (C10_triggerSync 30 1 1 demo
                {| src_id := 1; src_name := "Desk";
                   src_type := SourceType.teamwork;
                   src_status := SourceStatus.ready; src_projectId := 1;
                   src_lastSyncAt := Some 3; src_syncError := None;
                   src_recordCount := Some 100;
                   src_createdAt := 1; src_updatedAt := 3 |})
      as (_ & T & _); [reflexivity|].
    destruct T as (_ & E & _); [reflexivity|].
    rewrite E. reflexivity.
Defined.

(** * Further properties of the code *)

(** ** One step of the system, seen from one run *)

Lemma pc_of_same_jobs s s' k : jobs s' = jobs s -> pc_of s' k = pc_of s k.
Proof. intros J. unfold pc_of, find_job. now rewrite J. Qed.

Lemma pc_of_created_old now projectId s k pc :
  pc_of s k = Some pc -> pc_of (created_state now projectId s) k = Some pc.
Proof.
  unfold pc_of, find_job. simpl. rewrite find_app_l.
  destruct (find _ (jobs s)); [auto|discriminate].
Qed.

Lemma pc_of_created_new now projectId s :
  Inv s ->
  pc_of (created_state now projectId s) (processingRuns_seq s) = Some AtStart.
Proof.
  intros I. unfold pc_of, find_job. simpl. rewrite find_app_l.
  fold (find_job (processingRuns_seq s) s).
  rewrite find_job_fresh by (intros j Hj; now apply (inv_jobs_fresh _ I)).
  simpl. now rewrite Nat.eqb_refl.
Qed.

Lemma exec_run_step now e s r' :
  Inv s -> In r' (processingRuns (exec now e s)) ->
  (exists projectId,
     r' = created_run now projectId s
     /\ pc_of (exec now e s) (run_id r') = Some AtStart)
  \/ (exists r pc pc',
        In r (processingRuns s) /\ run_id r = run_id r'
        /\ pc_of s (run_id r) = Some pc
        /\ pc_of (exec now e s) (run_id r) = Some pc'
        /\ run_step now (pc, r) (pc', r')).
Proof.
  intros I Hr'.
  assert (Keep : forall s', processingRuns s' = processingRuns s ->
            jobs s' = jobs s -> In r' (processingRuns s') ->
            exists r pc pc',
              In r (processingRuns s) /\ run_id r = run_id r'
              /\ pc_of s (run_id r) = Some pc
              /\ pc_of s' (run_id r) = Some pc'
              /\ run_step now (pc, r) (pc', r')).
  { intros s' R J H. rewrite R in H.
    destruct (inv_run _ I r' H) as (pc & Hpc & _).
    exists r', pc, pc. repeat split; auto.
    - now rewrite (pc_of_same_jobs s s' _ J).
    - constructor. }
  assert (Moved : forall k pc0 pcn set s',
            pc_of s k = Some pc0 ->
            (forall r, run_id (set r) = run_id r) ->
            processingRuns s' = update_runs k set (processingRuns s) ->
            jobs s' = set_job_pc k pcn (jobs s) ->
            In r' (processingRuns s') ->
            (forall r, In r (processingRuns s) -> run_id r = k ->
                       run_step now (pc0, r) (pcn, set r)) ->
            exists r pc pc',
              In r (processingRuns s) /\ run_id r = run_id r'
              /\ pc_of s (run_id r) = Some pc
              /\ pc_of s' (run_id r) = Some pc'
              /\ run_step now (pc, r) (pc', r')).
  { intros k pc0 pcn set s' Hk Hid R J H St. rewrite R in H.
    apply in_update_runs in H. destruct H as (r & Hr & ->).
    destruct (inv_run _ I r Hr) as (pc & Hpc & _).
    destruct (run_id r =? k) eqn:B.
    - apply Nat.eqb_eq in B. exists r, pc0, pcn.
      rewrite Hid. rewrite B in *. repeat split; auto.
      rewrite (pc_of_set_job_pc s s' k pcn k J), Nat.eqb_refl, Hk.
      reflexivity.
    - exists r, pc, pc. repeat split; auto.
      + rewrite (pc_of_set_job_pc s s' k pcn (run_id r) J), B. exact Hpc.
      + constructor. }
  destruct e as [p o|k o|p o c|x o|k|]; simpl in *.
  - destruct (createProcessingRun_cases now p o s) as [Q|Q]; rewrite Q in *.
    + right. apply (Keep s); auto.
    + simpl in Hr'. apply in_app_or in Hr'. destruct Hr' as [H|[<-|[]]].
      * right. destruct (inv_run _ I r' H) as (pc & Hpc & _).
        exists r', pc, pc. repeat split; auto.
        -- now apply pc_of_created_old.
        -- constructor.
      * left. exists p. split; auto. simpl. now apply pc_of_created_new.
  - right. destruct (cancelRun_cases now k o s) as [Q|(r0 & F & C & Q)];
      rewrite Q in *.
    + apply (Keep s); auto.
    + simpl in Hr'. apply in_update_runs in Hr'.
      destruct Hr' as (r & Hr & ->).
      destruct (inv_run _ I r Hr) as (pc & Hpc & _).
      exists r, pc, pc. destruct (run_id r =? k) eqn:B.
      * apply Nat.eqb_eq in B.
        assert (r = r0)
          by (eapply find_run_unique; eauto; exact (inv_nodup _ I)).
        subst r0. repeat split; auto. now constructor.
      * repeat split; auto. constructor.
  - right. destruct (updateProcessingConfig_same_runs now p o c s)
      as (R & _ & J & _). now apply Keep.
  - right. destruct (triggerSync_same_runs now x o s) as (R & _ & J & _).
    now apply Keep.
  - right. destruct (find_job k s) as [j|] eqn:F.
    2: { unfold resume in *. rewrite F in *. now apply (Keep s). }
    pose proof (pc_of_find_job _ _ _ F) as Hk.
    destruct (job_pc j) as [|p| | |] eqn:Pc.
    + unfold resume in *. rewrite F, Pc in *. simpl in *.
      apply (Moved k AtStart (InLoop 10) (setRunning now)); auto.
      intros r _ _. constructor.
    + unfold resume in *. rewrite F, Pc in *. simpl in *.
      destruct (p <=? 100) eqn:L; simpl in *.
      * apply (Moved k (InLoop p) (InLoop (p + 10)) (setProgress p)); auto.
        intros r _ _. constructor. now apply Nat.leb_le.
      * apply (Moved k (InLoop p) AtCreateDataset (setCompleted now)); auto.
        intros r _ _. constructor. now apply Nat.leb_gt.
    + rewrite (resume_AtCreateDataset now k s j F Pc) in *.
      destruct (has_run s k) eqn:HR; simpl in *.
      * apply has_run_true in HR. destruct HR as (rk & Hrk & Ek).
        pose proof (run_ok_of s rk I Hrk) as OK. rewrite Ek in OK.
        specialize (OK _ Hk). simpl in OK. destruct OK as (_ & _ & _ & HD).
        rewrite HD in *. simpl in *.
        apply (Moved k AtCreateDataset Resolved (fun r => r)); auto.
        -- simpl. now rewrite update_runs_id.
        -- intros r _ _. constructor.
      * apply (Moved k AtCreateDataset Rejected (fun r => r)); auto.
        -- simpl. now rewrite update_runs_id.
        -- intros r Hr E. exfalso.
           assert (has_run s k = true) by (apply has_run_true; eauto).
           congruence.
    + unfold resume in *. rewrite F, Pc in *. simpl in *.
      apply (Moved k Resolved Resolved (fun r => r)); auto.
      * simpl. now rewrite update_runs_id.
      * intros r _ _. constructor.
    + unfold resume in *. rewrite F, Pc in *. simpl in *.
      apply (Moved k Rejected Rejected (fun r => r)); auto.
      * simpl. now rewrite update_runs_id.
      * intros r _ _. constructor.
  - right. destruct (fireTimer_same_runs now s) as (R & _ & J & _).
    now apply Keep.
Qed.

Lemma RowInv_reachable (ok : Pc -> ProcessingRun -> Prop) :
  (forall now projectId s, ok AtStart (created_run now projectId s)) ->
  (forall now pc pc' r r',
     ok pc r -> run_step now (pc, r) (pc', r') -> ok pc' r') ->
  forall s, reachable s -> RowInv ok s.
Proof.
  intros Hnew Hstep s R. induction R as [s H | s now e R IH].
  - intros r pc Hr. destruct H as (E & _). rewrite E in Hr. destruct Hr.
  - intros r' pc'' Hr' Hpc''.
    destruct (exec_run_step now e s r' (Inv_reachable s R) Hr')
      as [(p & -> & Hpc)|(r & pc & pc' & Hr & E & Hpc & Hpc' & St)].
    + rewrite Hpc in Hpc''. injection Hpc'' as <-. apply Hnew.
    + rewrite E, Hpc'' in Hpc'. injection Hpc' as <-.
      apply (Hstep now pc pc'' r r'); auto.
Qed.

Lemma exec_keeps_runs now e s r :
  In r (processingRuns s) ->
  exists r', In r' (processingRuns (exec now e s)) /\ run_id r' = run_id r.
Proof.
  intros Hr.
  assert (Upd : forall k set, (forall x, run_id (set x) = run_id x) ->
            exists r', In r' (update_runs k set (processingRuns s))
                       /\ run_id r' = run_id r).
  { intros k set Hid. exists (if run_id r =? k then set r else r). split.
    - apply in_update_runs. eauto.
    - destruct (run_id r =? k); now rewrite ?Hid. }
  destruct e as [p o|k o|p o c|x o|k|]; simpl.
  - destruct (createProcessingRun_cases now p o s) as [-> | ->]; eauto.
    exists r. split; auto. simpl. apply in_or_app. now left.
  - destruct (cancelRun_cases now k o s) as [-> | (r0 & _ & _ & ->)]; eauto.
    simpl. now apply Upd.
  - destruct (updateProcessingConfig_same_runs now p o c s) as (-> & _). eauto.
  - destruct (triggerSync_same_runs now x o s) as (-> & _). eauto.
  - unfold resume. destruct (find_job k s) as [j|] eqn:F; eauto.
    destruct (job_pc j) as [|p| | |] eqn:Pc; simpl.
    + apply Upd. reflexivity.
    + destruct (p <=? 100); simpl; apply Upd; reflexivity.
    + unfold createDataset, bind, insert_dataset, ret.
      destruct (negb (has_run s k)); simpl; eauto.
      destruct (has_dataset s k); simpl; eauto.
    + eauto.
    + eauto.
  - destruct (fireTimer_same_runs now s) as (-> & _). eauto.
Qed.

(** The row and job of [r] before a step and the row [r'] with the same
    id after it are related by [run_step]. *)
Lemma run_step_of now e s r r' :
  Inv s -> In r (processingRuns s) ->
  In r' (processingRuns (exec now e s)) -> run_id r' = run_id r ->
  exists pc pc', pc_of s (run_id r) = Some pc
                 /\ pc_of (exec now e s) (run_id r) = Some pc'
                 /\ run_step now (pc, r) (pc', r').
Proof.
  intros I Hr Hr' E.
  destruct (exec_run_step now e s r' I Hr')
    as [(p & -> & _)|(r0 & pc & pc' & Hr0 & E0 & Hpc & Hpc' & St)].
  - simpl in E. apply (inv_fresh _ I) in Hr. lia.
  - assert (r0 = r)
      by (apply (same_id_eq (processingRuns s)); auto;
          [exact (inv_nodup _ I) | congruence]).
    subst r0. eauto.
Qed.

(** ** What the columns of a run say *)

Lemma lifecycle_ok_created now projectId s :
  lifecycle_ok AtStart (created_run now projectId s).
Proof. unfold lifecycle_ok. simpl. repeat split; congruence. Qed.

Lemma lifecycle_ok_step now pc pc' r r' :
  lifecycle_ok pc r -> run_step now (pc, r) (pc', r') -> lifecycle_ok pc' r'.
Proof.
  intros (F & E1 & E2 & A & B & P & C & D) St.
  inversion St; subst; unfold lifecycle_ok; simpl;
    repeat split; auto; try discriminate;
    try (intros; apply B; discriminate);
    try (intros; now apply A).
Qed.

Lemma lifecycle_reachable s r :
  reachable s -> In r (processingRuns s) ->
  exists pc, pc_of s (run_id r) = Some pc
             /\ run_ok pc r (has_dataset s (run_id r))
             /\ lifecycle_ok pc r.
Proof.
  intros R Hr.
  destruct (inv_run _ (Inv_reachable s R) r Hr) as (pc & Hpc & OK).
  exists pc. split; [exact Hpc|]. split; [exact OK|].
  exact (RowInv_reachable lifecycle_ok lifecycle_ok_created
           lifecycle_ok_step s R r pc Hr Hpc).
Qed.

(** X2: the code has no failure path.  In every reachable state no run
    has status [failed], and the columns [error] and [errorDetails] of
    every run are null. *)
Theorem X2_no_run_ever_fails s r :
  reachable s -> In r (processingRuns s) ->
  run_status r <> RunStatus.failed
  /\ run_error r = None /\ run_errorDetails r = None.
Proof.
  intros R Hr.
  destruct (lifecycle_reachable s r R Hr) as (pc & _ & _ & L).
  unfold lifecycle_ok in L. tauto.
Qed.

Lemma X2_no_run_ever_fails_witness :
  map run_status (processingRuns demo_done) = [RunStatus.completed]
  /\ RunStatus.completed <> RunStatus.failed.
Proof.
  split; [reflexivity|].
  apply (X2_no_run_ever_fails demo_done
           (setCompleted 20
              (setProgress 100 (setRunning 11 (created_run 10 1 demo))))
           demo_done_reachable).
  vm_compute. left. reflexivity.
Defined.

(** X3: timestamps follow the status.  In every reachable state a pending
    run has no start time, no completion time and no statistics; a running
    or completed run has a start time; a completed run has a completion
    time and the final statistics; a cancelled run has a completion
    time. *)
Theorem X3_timestamps_follow_status s r :
  reachable s -> In r (processingRuns s) ->
  (run_status r = RunStatus.pending ->
   run_startedAt r = None /\ run_completedAt r = None /\ run_stats r = None)
  /\ (run_status r = RunStatus.running \/ run_status r = RunStatus.completed ->
      run_startedAt r <> None)
  /\ (run_status r = RunStatus.completed ->
      run_completedAt r <> None /\ run_stats r = Some finalStats)
  /\ (run_status r = RunStatus.cancelled -> run_completedAt r <> None).
Proof.
  intros R Hr.
  destruct (lifecycle_reachable s r R Hr)
    as (pc & _ & OK & (F & E1 & E2 & A & B & P & C & D)).
  split; [|split; [|split]].
  - intros St.
    assert (pc = AtStart) as ->.
    { destruct pc; simpl in OK; auto; try contradiction;
        destruct OK as (H & _); try destruct H as [H|H]; congruence. }
    destruct (A eq_refl). auto.
  - intros St. apply B. intros ->. simpl in OK.
    destruct OK as ([H|H] & _); destruct St as [St|St]; congruence.
  - intros St. split; auto.
    destruct pc; simpl in OK; try tauto;
      destruct OK as ([H|H] & _); congruence.
  - exact C.
Qed.

Lemma X3_timestamps_follow_status_witness :
  map run_startedAt (processingRuns demo_done) = [Some 11]
  /\ forall r, In r (processingRuns demo_done) ->
       run_status r = RunStatus.completed ->
       run_completedAt r <> None /\ run_stats r = Some finalStats.
Proof.
  split; [reflexivity|].
  intros r Hr.
  exact (proj1 (proj2 (proj2
    (X3_timestamps_follow_status demo_done r demo_done_reachable Hr)))).
Defined.

(** ** What never changes *)

(** X4: a run is never deleted, and no step of the system changes its
    project, its configuration snapshot or its creation time: the snapshot
    taken by [createProcessingRun] is frozen, whatever
    [updateProcessingConfig] does later. *)
Theorem X4_run_identity_frozen now e s r :
  reachable s -> In r (processingRuns s) ->
  (exists r', In r' (processingRuns (exec now e s)) /\ run_id r' = run_id r)
  /\ (forall r', In r' (processingRuns (exec now e s)) ->
        run_id r' = run_id r ->
        run_projectId r' = run_projectId r
        /\ run_config r' = run_config r
        /\ run_createdAt r' = run_createdAt r).
Proof.
  intros R Hr. apply Inv_reachable in R. split.
  - now apply exec_keeps_runs.
  - intros r' Hr' E.
    destruct (run_step_of now e s r r' R Hr Hr' E) as (pc & pc' & _ & _ & St).
    inversion St; subst; simpl; auto.
Qed.

Lemma X4_run_identity_frozen_witness :
  map run_config
      (processingRuns
         (exec 30 (UpdateProcessingConfig 1 1 defaultProcessingConfig)
               demo_at40))
  = map run_config (processingRuns demo_at40).
Proof.
  destruct (X4_run_identity_frozen 30
              (UpdateProcessingConfig 1 1 defaultProcessingConfig) demo_at40
              (setProgress 40 (setRunning 11 (created_run 10 1 demo)))
              demo_at40_reachable) as (_ & Frozen).
  - vm_compute. left. reflexivity.
  - destruct (Frozen (setProgress 40 (setRunning 11 (created_run 10 1 demo))))
      as (_ & C & _).
    + vm_compute. left. reflexivity.
    + reflexivity.
    + reflexivity.
Defined.

(** ** Progress *)

Lemma tens_reachable s :
  reachable s ->
  RowInv (fun pc r => (exists k, run_progress r = 10 * k)
                      /\ forall p, pc = InLoop p -> exists k, p = 10 * k) s.
Proof.
  apply RowInv_reachable.
  - intros now projectId s0. split.
    + exists 0. reflexivity.
    + discriminate.
  - intros now pc pc' r r' (P & L) St. inversion St; subst; simpl; auto.
    + split; [exact P|].
      intros p E. injection E as <-. exists 1. reflexivity.
    + destruct (L p eq_refl) as (k & ->). split; [eauto|].
      intros q E. injection E as <-. exists (S k). lia.
    + split; [exists 10; reflexivity|discriminate].
    + split; auto. discriminate.
Qed.

(** X5: in every reachable state the progress of a run is a multiple of
    ten between 0 and 100. *)
Theorem X5_progress_in_tens s r :
  reachable s -> In r (processingRuns s) ->
  run_progress r <= 100 /\ exists k, run_progress r = 10 * k.
Proof.
  intros R Hr.
  destruct (inv_run _ (Inv_reachable s R) r Hr) as (pc & Hpc & OK).
  split.
  - destruct pc; simpl in OK; lia.
  - exact (proj1 (tens_reachable s R r pc Hr Hpc)).
Qed.

Lemma X5_progress_in_tens_witness :
  40 <= 100 /\ exists k, 40 = 10 * k.
Proof.
  apply (X5_progress_in_tens demo_at40
           (setProgress 40 (setRunning 11 (created_run 10 1 demo)))
           demo_at40_reachable).
  vm_compute. left. reflexivity.
Defined.

(** ** Cancelling, then asking again *)

Lemma verifyRun_ok_project runId organizationId s r :
  fst (verifyRun runId organizationId s) = Ok r ->
  exists p, find (fun x => proj_id x =? run_projectId r) (projects s) = Some p
            /\ proj_organizationId p = organizationId.
Proof.
  unfold verifyRun, bind, query, throw, ret, findRunWithProject.
  destruct (find _ (processingRuns s)) as [r0|]; simpl; [|discriminate].
  destruct (find _ (projects s)) as [p|] eqn:P; simpl; [|discriminate].
  destruct (proj_organizationId p =? organizationId) eqn:O; simpl;
    [|discriminate].
  intros E. injection E as <-. exists p. split; auto. now apply Nat.eqb_eq.
Qed.

Lemma verifyRun_intro runId organizationId s r p :
  find (fun x => run_id x =? runId) (processingRuns s) = Some r ->
  find (fun x => proj_id x =? run_projectId r) (projects s) = Some p ->
  proj_organizationId p = organizationId ->
  verifyRun runId organizationId s = (Ok r, s).
Proof.
  intros F P O. unfold verifyRun, bind, query, throw, ret, findRunWithProject.
  rewrite F, P. apply Nat.eqb_eq in O. now rewrite O.
Qed.

(** X7: after a successful [cancelRun], polling with [getRunStatus]
    shows status [cancelled], the completion time of the cancel and the
    progress reached, and a second [cancelRun] by the same caller is
    refused with the 422 "Run cannot be cancelled" and changes nothing. *)
Theorem X7_cancel_then_poll now runId organizationId s r :
  fst (verifyRun runId organizationId s) = Ok r ->
  run_status r = RunStatus.pending \/ run_status r = RunStatus.running ->
  let s1 := snd (cancelRun now runId organizationId s) in
  getRunStatus runId organizationId s1
  = (Ok {| rs_id := run_id r; rs_status := RunStatus.cancelled;
           rs_progress := run_progress r;
           rs_startedAt := run_startedAt r;
           rs_completedAt := Some now;
           rs_error := run_error r |}, s1)
  /\ forall now',
       cancelRun now' runId organizationId s1
       = (Err (ValidationError "Run cannot be cancelled"
                               (Some "RUN_NOT_CANCELLABLE")), s1).
Proof.
  intros V St s1. subst s1.
  destruct (verifyRun_ok_project _ _ _ _ V) as (p & P & O).
  apply cancellable_iff in St.
  rewrite (cancelRun_ok now _ _ _ _ V St). simpl.
  apply verifyRun_ok in V. destruct V as [_ F].
  set (s1 := with_processingRuns _ s).
  assert (V1 : verifyRun runId organizationId s1 = (Ok (setCancelled now r), s1)).
  { apply (verifyRun_intro _ _ _ _ p); auto.
    unfold s1. simpl. rewrite find_update_runs, F by reflexivity. reflexivity. }
  split.
  - unfold getRunStatus, bind. rewrite V1. reflexivity.
  - intros now'. apply (cancelRun_refused now' _ _ _ (setCancelled now r)).
    + now rewrite V1.
    + reflexivity.
Qed.

Lemma X7_cancel_then_poll_witness :
  fst (getRunStatus 1 1 demo_cancelled)
  = Ok {| rs_id := 1; rs_status := RunStatus.cancelled; rs_progress := 40;
          rs_startedAt := Some 11; rs_completedAt := Some 16;
          rs_error := None |}.
Proof.
  destruct (X7_cancel_then_poll 16 1 1 demo_at40
              (setProgress 40 (setRunning 11 (created_run 10 1 demo))))
    as (G & _).
  - reflexivity.
  - right. reflexivity.
  - change (snd (cancelRun 16 1 1 demo_at40)) with demo_cancelled in G.
    rewrite G. reflexivity.
Defined.

(** ** Ids of runs *)

Lemma createProcessingRun_Ok now projectId organizationId s cr :
  fst (createProcessingRun now projectId organizationId s) = Ok cr ->
  createProcessingRun now projectId organizationId s
  = (Ok {| cr_id := processingRuns_seq s; cr_status := RunStatus.pending;
           cr_progress := 0; cr_createdAt := now |},
     created_state now projectId s).
Proof.
  intros H.
  destruct (fst (verifyProject projectId organizationId s)) as [p|e] eqn:V.
  - destruct (find (fun r => (run_projectId r =? projectId)
                 && RunStatus.eqb (run_status r) RunStatus.running)
                   (processingRuns s)) as [r|] eqn:F.
    + apply find_some in F. destruct F as [I B].
      apply andb_prop in B. destruct B as [B1 B2].
      apply Nat.eqb_eq in B1. apply status_eqb_eq in B2.
      rewrite (createProcessingRun_running now _ _ _ _ _ V I B1 B2) in H.
      discriminate.
    + rewrite find_running_none in F.
      destruct (filter (fun x => (src_projectId x =? projectId)
                         && SourceStatus.eqb (src_status x) SourceStatus.ready)
                       (sources s)) as [|x l] eqn:FS.
      * assert (L : List.length (filter (fun x => (src_projectId x =? projectId)
                         && SourceStatus.eqb (src_status x) SourceStatus.ready)
                       (sources s)) = 0) by now rewrite FS.
        rewrite ready_sources_none in L.
        rewrite (createProcessingRun_no_sources now _ _ _ _ V F L) in H.
        discriminate.
      * assert (I : In x (filter (fun x => (src_projectId x =? projectId)
                         && SourceStatus.eqb (src_status x) SourceStatus.ready)
                       (sources s))) by (rewrite FS; now left).
        apply filter_In in I. destruct I as [I B].
        apply andb_prop in B. destruct B as [B1 B2].
        apply Nat.eqb_eq in B1. apply source_status_eqb_eq in B2.
        apply (createProcessingRun_success now _ _ _ _ _ V F I B1 B2).
  - unfold createProcessingRun, bind at 1 in H.
    rewrite verifyProject_err in H; [discriminate|].
    intros p E. rewrite V in E. discriminate.
Qed.

(** X8: in a reachable state a successful [createProcessingRun] returns
    an id that no existing run has, adds exactly one row, that of the
    returned id, and the ids of the runs stay pairwise distinct. *)
Theorem X8_created_run_id_is_fresh now projectId organizationId s cr :
  reachable s ->
  fst (createProcessingRun now projectId organizationId s) = Ok cr ->
  let s' := snd (createProcessingRun now projectId organizationId s) in
  (forall r, In r (processingRuns s) -> run_id r <> cr_id cr)
  /\ (exists r', processingRuns s' = (processingRuns s ++ [r'])%list
                 /\ run_id r' = cr_id cr
                 /\ run_projectId r' = projectId)
  /\ NoDup (map run_id (processingRuns s')).
Proof.
  intros R H s'. subst s'.
  pose proof (Inv_reachable s R) as I.
  pose proof (createProcessingRun_Ok _ _ _ _ _ H) as E.
  rewrite E in H. simpl in H. injection H as <-. rewrite E. simpl.
  split; [|split].
  - intros r Hr. apply (inv_fresh _ I) in Hr. lia.
  - eexists. repeat split.
  - exact (inv_nodup _ (Inv_created now projectId s I)).
Qed.

Lemma X8_created_run_id_is_fresh_witness :
  NoDup (map run_id
           (processingRuns (snd (createProcessingRun 50 1 1 demo_done)))).
Proof.
  exact (proj2 (proj2 (X8_created_run_id_is_fresh 50 1 1 demo_done
                  {| cr_id := 2; cr_status := RunStatus.pending;
                     cr_progress := 0; cr_createdAt := 50 |}
                  demo_done_reachable eq_refl))).
Defined.

(** ** The processing configuration of a project *)

Lemma find_update_configs projectId set rows k :
  (forall c, pcfg_projectId (set c) = pcfg_projectId c) ->
  find (fun c => pcfg_projectId c =? k) (update_configs projectId set rows)
  = if k =? projectId
    then option_map set (find (fun c => pcfg_projectId c =? k) rows)
    else find (fun c => pcfg_projectId c =? k) rows.
Proof.
  intros Hid. induction rows as [|a rows IH]; simpl.
  - now destruct (k =? projectId).
  - destruct (pcfg_projectId a =? projectId) eqn:A.
    + apply Nat.eqb_eq in A. simpl. rewrite Hid, A.
      rewrite (Nat.eqb_sym projectId k).
      destruct (k =? projectId) eqn:K; simpl; auto.
    + destruct (pcfg_projectId a =? k) eqn:B.
      * apply Nat.eqb_eq in B. subst k. now rewrite A.
      * exact IH.
Qed.

Lemma find_config_none projectId s :
  findProcessingConfig projectId s = None ->
  existsb (fun c => pcfg_projectId c =? projectId) (processingConfigs s) = false.
Proof.
  unfold findProcessingConfig. intros F.
  destruct (existsb _ _) eqn:E; auto.
  apply existsb_exists in E. destruct E as (c & I & B).
  apply (find_none _ _ F) in I. congruence.
Qed.

Lemma updateProcessingConfig_existing
    now projectId organizationId config s p row :
  fst (verifyProject projectId organizationId s) = Ok p ->
  findProcessingConfig projectId s = Some row ->
  updateProcessingConfig now projectId organizationId config s
  = (Ok config,
     with_processingConfigs
       (update_configs projectId
          (fun r => {| pcfg_id := pcfg_id r; pcfg_projectId := pcfg_projectId r;
                       pcfg_config := config;
                       pcfg_createdAt := pcfg_createdAt r;
                       pcfg_updatedAt := now |})
          (processingConfigs s)) s).
Proof.
  intros V F. apply verifyProject_ok in V. destruct V as [V _].
  unfold updateProcessingConfig, bind at 1. rewrite V.
  unfold bind at 1, query at 1. rewrite F. reflexivity.
Qed.

Lemma updateProcessingConfig_missing now projectId organizationId config s p :
  fst (verifyProject projectId organizationId s) = Ok p ->
  findProcessingConfig projectId s = None ->
  updateProcessingConfig now projectId organizationId config s
  = (Ok config,
     with_processingConfigs
       (processingConfigs s
          ++ [{| pcfg_id := processingConfigs_seq s;
                 pcfg_projectId := projectId; pcfg_config := config;
                 pcfg_createdAt := now; pcfg_updatedAt := now |}])
       (with_processingConfigs_seq (S (processingConfigs_seq s)) s)).
Proof.
  intros V F. apply verifyProject_ok in V. destruct V as [V HP].
  unfold updateProcessingConfig, bind at 1. rewrite V.
  unfold bind at 1, query at 1. rewrite F.
  unfold bind, insert_processingConfig, ret.
  rewrite HP, (find_config_none _ _ F). reflexivity.
Qed.

(** The state after a successful [updateProcessingConfig]. *)
Lemma updateProcessingConfig_ok now projectId organizationId config s p :
  fst (verifyProject projectId organizationId s) = Ok p ->
  let s' := snd (updateProcessingConfig now projectId organizationId config s) in
  fst (updateProcessingConfig now projectId organizationId config s) = Ok config
  /\ (exists row, findProcessingConfig projectId s' = Some row
                  /\ pcfg_config row = config)
  /\ projects s' = projects s /\ sources s' = sources s.
Proof.
  intros V s'. subst s'.
  destruct (findProcessingConfig projectId s) as [row|] eqn:F.
  - rewrite (updateProcessingConfig_existing now _ _ config _ _ _ V F).
    simpl. repeat split; auto.
    unfold findProcessingConfig in *. simpl.
    rewrite find_update_configs, Nat.eqb_refl, F by reflexivity.
    simpl. eexists. split; reflexivity.
  - rewrite (updateProcessingConfig_missing now _ _ config _ _ V F).
    simpl. repeat split; auto.
    unfold findProcessingConfig in *. simpl. rewrite find_app_l, F. simpl.
    rewrite Nat.eqb_refl. eexists. split; reflexivity.
Qed.

Lemma getProcessingConfig_visible projectId organizationId s p :
  fst (verifyProject projectId organizationId s) = Ok p ->
  getProcessingConfig projectId organizationId s
  = (Ok (match findProcessingConfig projectId s with
         | Some c => pcfg_config c
         | None => defaultProcessingConfig
         end), s).
Proof.
  intros V. apply verifyProject_ok in V. destruct V as [V _].
  unfold getProcessingConfig, bind at 1. rewrite V. reflexivity.
Qed.

Lemma verifyProject_same_projects projectId organizationId s s' :
  projects s' = projects s ->
  fst (verifyProject projectId organizationId s')
  = fst (verifyProject projectId organizationId s).
Proof.
  intros E. unfold verifyProject, bind, query, throw, ret. rewrite E.
  now destruct (find _ (projects s)).
Qed.

(** X9: on a project visible to the caller [updateProcessingConfig]
    always succeeds, whether a configuration row exists or not, and
    [getProcessingConfig] then returns exactly the configuration that was
    written. *)
Theorem X9_config_update_then_get now projectId organizationId config s p :
  fst (verifyProject projectId organizationId s) = Ok p ->
  let s' := snd (updateProcessingConfig now projectId organizationId config s) in
  fst (updateProcessingConfig now projectId organizationId config s) = Ok config
  /\ getProcessingConfig projectId organizationId s' = (Ok config, s').
Proof.
  intros V s'.
  destruct (updateProcessingConfig_ok now _ _ config _ _ V)
    as (U & (row & F & C) & P & _).
  fold s' in F, P. split; auto.
  rewrite (getProcessingConfig_visible _ _ s' p).
  - now rewrite F, C.
  - now rewrite (verifyProject_same_projects _ _ s s' P).
Qed.

Lemma X9_config_update_then_get_witness :
  fst (getProcessingConfig 2 2
         (snd (updateProcessingConfig 30 2 2 defaultProcessingConfig demo)))
  = Ok defaultProcessingConfig.
Proof.
  destruct (X9_config_update_then_get 30 2 2 defaultProcessingConfig demo
              {| proj_id := 2; proj_name := "Sales"; proj_organizationId := 2;
                 proj_deletedAt := None |}) as (_ & G).
  - reflexivity.
  - rewrite G. reflexivity.
Defined.

Lemma updateProcessingConfig_frame now projectId organizationId config s k :
  k <> projectId ->
  let s' := snd (updateProcessingConfig now projectId organizationId config s) in
  findProcessingConfig k s' = findProcessingConfig k s
  /\ projects s' = projects s.
Proof.
  intros K s'. subst s'. apply Nat.eqb_neq in K.
  unfold updateProcessingConfig, verifyProject, bind, query, throw, ret, modify,
    insert_processingConfig.
  destruct (find _ (projects s)); simpl; auto.
  destruct (findProcessingConfig projectId s) eqn:F; simpl.
  - split; auto. unfold findProcessingConfig. simpl.
    now rewrite find_update_configs, K by reflexivity.
  - destruct (negb _); simpl; auto.
    destruct (existsb _ _); simpl; auto.
    split; auto. unfold findProcessingConfig. simpl.
    rewrite find_app_l. simpl. rewrite Nat.eqb_sym, K.
    now destruct (find _ (processingConfigs s)).
Qed.

(** X10: [updateProcessingConfig] on one project, whatever its outcome,
    leaves the answer of [getProcessingConfig] for every other project as
    it was. *)
Theorem X10_config_update_is_local
    now projectId organizationId config s k organizationId' :
  k <> projectId ->
  fst (getProcessingConfig k organizationId'
         (snd (updateProcessingConfig now projectId organizationId config s)))
  = fst (getProcessingConfig k organizationId' s).
Proof.
  intros K.
  destruct (updateProcessingConfig_frame now projectId organizationId config s k K)
    as (F & P).
  unfold getProcessingConfig, verifyProject, bind, query, throw, ret.
  rewrite P. destruct (find _ (projects s)); simpl; auto.
  now rewrite F.
Qed.

Lemma X10_config_update_is_local_witness :
  fst (getProcessingConfig 1 1
         (snd (updateProcessingConfig 30 2 2 defaultProcessingConfig demo)))
  = fst (getProcessingConfig 1 1 demo).
Proof.
  apply (X10_config_update_is_local 30 2 2 defaultProcessingConfig demo 1 1).
  discriminate.
Defined.

(** X11: a run created after a successful [updateProcessingConfig]
    carries the configuration just written as its snapshot. *)
Theorem X11_run_snapshots_latest_config
    now now' projectId organizationId config s p x :
  fst (verifyProject projectId organizationId s) = Ok p ->
  (forall r, In r (processingRuns s) -> run_projectId r = projectId ->
             run_status r <> RunStatus.running) ->
  In x (sources s) -> src_projectId x = projectId ->
  src_status x = SourceStatus.ready ->
  let s1 := snd (updateProcessingConfig now projectId organizationId config s) in
  let s2 := snd (createProcessingRun now' projectId organizationId s1) in
  exists r, processingRuns s2 = (processingRuns s ++ [r])%list
            /\ run_status r = RunStatus.pending
            /\ run_config r = Some (ConfigSnapshot config).
Proof.
  intros V NR Hx Ex St s1 s2.
  destruct (updateProcessingConfig_ok now _ _ config _ _ V)
    as (_ & (row & F & C) & P & S).
  destruct (updateProcessingConfig_same_runs now projectId organizationId
              config s) as (R & _).
  fold s1 in F, P, S, R.
  assert (V1 : fst (verifyProject projectId organizationId s1) = Ok p)
    by now rewrite (verifyProject_same_projects _ _ s s1 P).
  assert (NR1 : forall r, In r (processingRuns s1) ->
            run_projectId r = projectId -> run_status r <> RunStatus.running)
    by now rewrite R.
  assert (Hx1 : In x (sources s1)) by now rewrite S.
  subst s2.
  rewrite (createProcessingRun_success now' _ _ _ _ _ V1 NR1 Hx1 Ex St).
  simpl. rewrite R. eexists. split; [reflexivity|]. split; [reflexivity|].
  simpl. rewrite F. simpl. now rewrite C.
Qed.

Lemma X11_run_snapshots_latest_config_witness :
  map run_config
      (processingRuns
         (snd (createProcessingRun 31 2 2
                 (snd (updateProcessingConfig 30 2 2
                         defaultProcessingConfig demo)))))
  = [Some (ConfigSnapshot defaultProcessingConfig)].
Proof.
  destruct (X11_run_snapshots_latest_config 30 31 2 2 defaultProcessingConfig
              demo
              {| proj_id := 2; proj_name := "Sales"; proj_organizationId := 2;
                 proj_deletedAt := None |}
              {| src_id := 3; src_name := "Leads";
                 src_type := SourceType.teamwork;
                 src_status := SourceStatus.ready; src_projectId := 2;
                 src_lastSyncAt := Some 4; src_syncError := None;
                 src_recordCount := Some 100;
                 src_createdAt := 4; src_updatedAt := 4 |})
    as (r & E & _ & C).
  - reflexivity.
  - intros r [].
  - right. right. left. reflexivity.
  - reflexivity.
  - reflexivity.
  - rewrite E. simpl. now rewrite C.
Defined.

(** ** Datasets *)

Lemma verifyDataset_missing datasetId organizationId s :
  find (fun d => ds_id d =? datasetId) (datasets s) = None ->
  verifyDataset datasetId organizationId s = (Err (NotFoundError "Dataset"), s).
Proof.
  intros F. unfold verifyDataset, bind, query, throw, findDatasetWithRun.
  now rewrite F.
Qed.

Lemma verifyDataset_foreign datasetId organizationId s d r p :
  find (fun x => ds_id x =? datasetId) (datasets s) = Some d ->
  find (fun x => run_id x =? ds_runId d) (processingRuns s) = Some r ->
  find (fun x => proj_id x =? run_projectId r) (projects s) = Some p ->
  proj_organizationId p <> organizationId ->
  verifyDataset datasetId organizationId s = (Err (NotFoundError "Dataset"), s).
Proof.
  intros F R P O. unfold verifyDataset, bind, query, throw, findDatasetWithRun.
  rewrite F, R, P. apply Nat.eqb_neq in O. now rewrite O.
Qed.

Lemma verifyDataset_intro datasetId organizationId s d r p :
  find (fun x => ds_id x =? datasetId) (datasets s) = Some d ->
  find (fun x => run_id x =? ds_runId d) (processingRuns s) = Some r ->
  find (fun x => proj_id x =? run_projectId r) (projects s) = Some p ->
  proj_organizationId p = organizationId ->
  verifyDataset datasetId organizationId s = (Ok d, s).
Proof.
  intros F R P O. unfold verifyDataset, bind, query, throw, findDatasetWithRun.
  rewrite F, R, P. apply Nat.eqb_eq in O. now rewrite O.
Qed.

Lemma updateProcessingConfig_datasets_seq now projectId organizationId config s :
  datasets_seq (snd (updateProcessingConfig now projectId organizationId config s))
  = datasets_seq s.
Proof.
  unfold updateProcessingConfig, verifyProject, bind, query, throw, ret, modify,
    insert_processingConfig.
  destruct (find _ (projects s)); simpl; auto.
  destruct (findProcessingConfig projectId s); simpl; auto.
  destruct (negb _); simpl; auto.
  destruct (existsb _ _); simpl; auto.
Qed.

Lemma triggerSync_datasets_seq now sourceId organizationId s :
  datasets_seq (snd (triggerSync now sourceId organizationId s))
  = datasets_seq s.
Proof.
  unfold triggerSync, bind.
  pose proof (verifySource_state sourceId organizationId s) as St.
  destruct (verifySource sourceId organizationId s) as [[x|e] s']; simpl in *;
    subst s'; auto.
  destruct (negb _); simpl; auto.
Qed.

(** How one step changes the table of datasets. *)
Lemma exec_datasets now e s :
  (datasets (exec now e s) = datasets s
   /\ datasets_seq s <= datasets_seq (exec now e s))
  \/ (exists k, datasets (exec now e s)
                = (datasets s ++ [created_dataset now k s])%list
                /\ datasets_seq (exec now e s) = S (datasets_seq s)
                /\ has_run s k = true /\ has_dataset s k = false).
Proof.
  destruct e as [p o|k o|p o c|x o|k|]; simpl.
  - left. destruct (createProcessingRun_cases now p o s) as [-> | ->]; auto.
  - left. destruct (cancelRun_cases now k o s) as [-> | (r0 & _ & _ & ->)]; auto.
  - left. destruct (updateProcessingConfig_same_runs now p o c s)
      as (_ & -> & _).
    rewrite updateProcessingConfig_datasets_seq. auto.
  - left. destruct (triggerSync_same_runs now x o s) as (_ & -> & _).
    rewrite triggerSync_datasets_seq. auto.
  - unfold resume. destruct (find_job k s) as [j|] eqn:F; auto.
    destruct (job_pc j) as [|p| | |] eqn:Pc; simpl; auto.
    + destruct (p <=? 100); simpl; auto.
    + unfold createDataset, bind, insert_dataset, ret.
      destruct (has_run s k) eqn:HR; simpl; auto.
      destruct (has_dataset s k) eqn:HD; simpl; auto.
      right. exists k. auto.
  - left. unfold fireTimer. destruct (timers s); simpl; auto.
Qed.

(** X13: datasets are append-only.  No step of the system changes or
    removes a dataset row; a step adds at most one row, and only for a run
    that exists and has no dataset yet. *)
Theorem X13_datasets_append_only now e s :
  datasets (exec now e s) = datasets s
  \/ exists d, datasets (exec now e s) = (datasets s ++ [d])%list
               /\ has_run s (ds_runId d) = true
               /\ has_dataset s (ds_runId d) = false.
Proof.
  destruct (exec_datasets now e s) as [(E & _)|(k & E & _ & HR & HD)]; auto.
  right. exists (created_dataset now k s). auto.
Qed.

Lemma DatasetIds_reachable s : reachable s -> DatasetIds s.
Proof.
  induction 1 as [s (_ & D & _) | s now e _ (L & ND)].
  - split; rewrite D; [intros d []|constructor].
  - destruct (exec_datasets now e s) as [(E & Q)|(k & E & Q & _)];
      split; rewrite E.
    + intros d Hd. apply L in Hd. lia.
    + exact ND.
    + intros d Hd. apply in_app_or in Hd. destruct Hd as [Hd|[<-|[]]].
      * apply L in Hd. lia.
      * simpl. lia.
    + rewrite map_app. simpl. apply NoDup_snoc; auto.
      intros H. apply in_map_iff in H. destruct H as (d & Ed & Hd).
      apply L in Hd. lia.
Qed.

Lemma find_dataset_by_id l d :
  NoDup (map ds_id l) -> In d l ->
  find (fun x => ds_id x =? ds_id d) l = Some d.
Proof.
  induction l as [|a l IH]; simpl; intros ND I; [contradiction|].
  inversion ND as [|? ? Hnotin ND']; subst.
  destruct (ds_id a =? ds_id d) eqn:E.
  - destruct I as [->|I]; auto.
    exfalso. apply Hnotin. apply Nat.eqb_eq in E. rewrite E. now apply in_map.
  - destruct I as [->|I]; [now rewrite Nat.eqb_refl in E|auto].
Qed.

(** X14: in every reachable state the id that [getRunDataset] returns for
    a run can be handed to [getDataset] by the same caller: it succeeds,
    names that run as the owner and shows the same name, format, record
    count, statistics and creation time. *)
Theorem X14_run_dataset_is_the_dataset runId organizationId s v :
  reachable s ->
  fst (getRunDataset runId organizationId s) = Ok v ->
  getDataset (rds_id v) organizationId s
  = (Ok {| dd_id := rds_id v; dd_name := rds_name v;
           dd_format := rds_format v;
           dd_recordCount := rds_recordCount v;
           dd_fileSize := None;
           dd_stats := rds_stats v;
           dd_runId := runId;
           dd_createdAt := rds_createdAt v |}, s).
Proof.
  intros R G.
  destruct (fst (verifyRun runId organizationId s)) as [r|e] eqn:V.
  2: { unfold getRunDataset, bind in G.
       destruct (verifyRun runId organizationId s) as [[r|e'] s']; simpl in *;
         discriminate. }
  rewrite (getRunDataset_visible _ _ _ _ V) in G.
  destruct (findDatasetOfRun runId s) as [d|] eqn:F; simpl in G; [|discriminate].
  injection G as <-. simpl.
  unfold findDatasetOfRun in F. apply find_some in F. destruct F as [Hd E].
  apply Nat.eqb_eq in E.
  destruct (verifyRun_ok_project _ _ _ _ V) as (p & P & O).
  apply verifyRun_ok in V. destruct V as [_ FR].
  destruct (DatasetIds_reachable s R) as (_ & ND).
  assert (VD : verifyDataset (ds_id d) organizationId s = (Ok d, s)).
  { apply (verifyDataset_intro _ _ _ _ r p); auto.
    - now apply find_dataset_by_id.
    - now rewrite E. }
  unfold getDataset, bind. rewrite VD. unfold ret. rewrite E.
  assert (FS : ds_fileSize d = None).
  { clear - R Hd. induction R as [s (_ & D & _) | s now e R IH].
    - rewrite D in Hd. destruct Hd.
    - destruct (exec_datasets now e s) as [(E & _)|(k & E & _)];
        rewrite E in Hd; auto.
      apply in_app_or in Hd. destruct Hd as [Hd|[<-|[]]]; auto. }
  now rewrite FS.
Qed.

Lemma X14_run_dataset_is_the_dataset_witness :
  fst (getDataset 1 1 demo_done)
  = Ok {| dd_id := 1; dd_name := "Dataset from Run 1";
          dd_format := "conversational"; dd_recordCount := Some 100;
          dd_fileSize := None; dd_stats := Some sampleDatasetStats;
          dd_runId := 1; dd_createdAt := 21 |}.
Proof.
  pose proof (X14_run_dataset_is_the_dataset 1 1 demo_done
             {| rds_id := 1; rds_name := "Dataset from Run 1";
                rds_format := "conversational"; rds_recordCount := Some 100;
                rds_stats := Some sampleDatasetStats; rds_createdAt := 21 |}
             demo_done_reachable eq_refl) as G.
  simpl rds_id in G. rewrite G. reflexivity.
Defined.

(** ** Pages of a listing *)

Lemma insert_desc_perm {A} (key : A -> nat) x l :
  Permutation (insert_desc key x l) (x :: l).
Proof.
  induction l as [|y l IH]; simpl; auto.
  destruct (key y <=? key x); auto.
  apply perm_trans with (y :: x :: l); [now apply perm_skip|apply perm_swap].
Qed.

Lemma orderBy_desc_perm {A} (key : A -> nat) l :
  Permutation (orderBy_desc key l) l.
Proof.
  induction l as [|x l IH]; simpl; auto.
  apply perm_trans with (x :: orderBy_desc key l).
  - apply insert_desc_perm.
  - now apply perm_skip.
Qed.

Lemma insert_desc_sorted {A} (key : A -> nat) x l :
  Sorted (fun a b => key b <= key a) l ->
  Sorted (fun a b => key b <= key a) (insert_desc key x l).
Proof.
  induction l as [|y l IH]; simpl; intros S.
  - repeat constructor.
  - destruct (key y <=? key x) eqn:E.
    + constructor; auto. constructor. now apply Nat.leb_le.
    + apply Nat.leb_gt in E. apply Sorted_inv in S. destruct S as [S H].
      constructor; auto.
      destruct l as [|z l]; simpl.
      * constructor. lia.
      * destruct (key z <=? key x); constructor; try lia.
        now apply HdRel_inv in H.
Qed.

Lemma orderBy_desc_sorted {A} (key : A -> nat) l :
  Sorted (fun a b => key b <= key a) (orderBy_desc key l).
Proof.
  induction l as [|x l IH]; simpl; [constructor|].
  now apply insert_desc_sorted.
Qed.








Lemma firstn_plus {A} a b : forall l : list A,
  (firstn a l ++ firstn b (skipn a l))%list = firstn (a + b) l.
Proof.
  induction a as [|a IH]; intros [|x l]; simpl; auto.
  - now destruct b.
  - now rewrite IH.
Qed.

Lemma limitOffset_next {A} a b o pg (l : list A) :
  (limitOffset {| page := pg; limit := a; offset := o |} l
   ++ limitOffset {| page := S pg; limit := b; offset := o + a |} l)%list
  = limitOffset {| page := pg; limit := a + b; offset := o |} l.
Proof.
  unfold limitOffset. simpl.
  rewrite (Nat.add_comm o a), <- skipn_skipn. apply firstn_plus.
Qed.

Lemma listProcessingRuns_visible projectId organizationId pagination s p :
  fst (verifyProject projectId organizationId s) = Ok p ->
  listProcessingRuns projectId organizationId pagination s
  = (Ok {| rl_runs :=
             map runListItem
                 (limitOffset pagination
                    (orderBy_desc run_createdAt (runsOfProject projectId s)));
           rl_total := List.length (runsOfProject projectId s) |}, s).
Proof.
  intros V. apply verifyProject_ok in V. destruct V as [V _].
  unfold listProcessingRuns, bind at 1. rewrite V. reflexivity.
Qed.



(** ** Sources *)

Lemma verifySource_missing sourceId organizationId s :
  find (fun y => src_id y =? sourceId) (sources s) = None ->
  verifySource sourceId organizationId s = (Err (NotFoundError "Source"), s).
Proof.
  intros F. unfold verifySource, bind, query, throw, findSourceWithProject.
  now rewrite F.
Qed.

Lemma verifySource_ok_project sourceId organizationId s x :
  fst (verifySource sourceId organizationId s) = Ok x ->
  exists p, find (fun q => proj_id q =? src_projectId x) (projects s) = Some p
            /\ proj_organizationId p = organizationId.
Proof.
  unfold verifySource, bind, query, throw, ret, findSourceWithProject.
  destruct (find _ (sources s)) as [x0|]; simpl; [|discriminate].
  destruct (find _ (projects s)) as [p|] eqn:P; simpl; [|discriminate].
  destruct (proj_organizationId p =? organizationId) eqn:O; simpl;
    [|discriminate].
  intros E. injection E as <-. exists p. split; auto. now apply Nat.eqb_eq.
Qed.

Lemma find_delete_source sourceId rows :
  find (fun y => src_id y =? sourceId) (delete_source sourceId rows) = None.
Proof.
  destruct (find _ (delete_source sourceId rows)) as [y|] eqn:F; auto.
  apply find_some in F. destruct F as [I E].
  apply filter_In in I. destruct I as [_ N]. rewrite E in N. discriminate.
Qed.

Lemma update_sources_absent sourceId set rows :
  find (fun y => src_id y =? sourceId) rows = None ->
  update_sources sourceId set rows = rows.
Proof.
  intros F. unfold update_sources. rewrite <- (map_id rows) at 2.
  apply map_ext_in. intros y Hy.
  now rewrite (find_none _ _ F y Hy).
Qed.

(** X17: after a successful [deleteSource] the source is gone for every
    caller ([verifySource] and [triggerSync] answer 404 "Source not
    found"), every other source is kept as it was, runs and datasets are
    untouched, and a sync timer that was still pending for the source
    changes nothing when it fires: the callback does not bring the row
    back. *)
Theorem X17_deleteSource sourceId organizationId s x :
  fst (verifySource sourceId organizationId s) = Ok x ->
  let s' := snd (deleteSource sourceId organizationId s) in
  fst (deleteSource sourceId organizationId s) = Ok tt
  /\ (forall y, In y (sources s') <-> In y (sources s) /\ src_id y <> sourceId)
  /\ processingRuns s' = processingRuns s /\ datasets s' = datasets s
  /\ (forall organizationId',
        verifySource sourceId organizationId' s'
        = (Err (NotFoundError "Source"), s'))
  /\ (forall now organizationId',
        triggerSync now sourceId organizationId' s'
        = (Err (NotFoundError "Source"), s'))
  /\ (forall now, sources (snd (syncDone now sourceId s')) = sources s').
Proof.
  intros V s'. subst s'. apply verifySource_ok in V. destruct V as [V F].
  unfold deleteSource, bind. rewrite V. simpl.
  set (s' := with_sources _ s).
  assert (F' : find (fun y => src_id y =? sourceId) (sources s') = None)
    by apply find_delete_source.
  repeat split; auto.
  - apply filter_In in H. tauto.
  - apply filter_In in H. destruct H as [_ N]. intros E.
    rewrite E, Nat.eqb_refl in N. discriminate.
  - intros (I & N). apply filter_In. split; auto.
    apply Nat.eqb_neq in N. now rewrite N.
  - intros o. now apply verifySource_missing.
  - intros now o. unfold triggerSync, bind.
    now rewrite (verifySource_missing sourceId o s' F').
  - intros now. simpl. now apply update_sources_absent.
Qed.

Lemma X17_deleteSource_witness :
  map src_id (sources (snd (deleteSource 1 1 demo))) = [2; 3]
  /\ forall now,
       sources (snd (syncDone now 1 (snd (deleteSource 1 1 demo))))
       = sources (snd (deleteSource 1 1 demo)).
Proof.
  split; [reflexivity|].
  destruct (X17_deleteSource 1 1 demo
              {| src_id := 1; src_name := "Desk"; src_type := SourceType.teamwork;
                 src_status := SourceStatus.ready; src_projectId := 1;
                 src_lastSyncAt := Some 3; src_syncError := None;
                 src_recordCount := Some 100;
                 src_createdAt := 1; src_updatedAt := 3 |} eq_refl)
    as (_ & _ & _ & _ & _ & _ & T).
  exact T.
Defined.

Lemma updateSource_visible now sourceId organizationId name s x :
  fst (verifySource sourceId organizationId s) = Ok x ->
  updateSource now sourceId organizationId name s
  = (Ok {| us_id := src_id x;
           us_name := src_name (setSourceName now name x);
           us_type := src_type x; us_status := src_status x;
           us_updatedAt := now |},
     with_sources
       (update_sources sourceId (setSourceName now name) (sources s)) s).
Proof.
  intros V. apply verifySource_ok in V. destruct V as [V F].
  unfold updateSource, bind at 1. rewrite V.
  unfold bind at 1, modify at 1. unfold bind, query.
  cbn [sources with_sources].
  rewrite find_update_sources, F by reflexivity. reflexivity.
Qed.

(** X18: [updateSource] on a source visible to the caller renames it
    only when the new name is present and not empty, always stamps
    [updatedAt], never touches type, status, record count or the other
    sources, and returns the row as stored. *)
Theorem X18_updateSource now sourceId organizationId name s x :
  fst (verifySource sourceId organizationId s) = Ok x ->
  let s' := snd (updateSource now sourceId organizationId name s) in
  let newName := match name with
                 | Some EmptyString | None => src_name x
                 | Some n => n
                 end in
  fst (updateSource now sourceId organizationId name s)
  = Ok {| us_id := src_id x; us_name := newName; us_type := src_type x;
          us_status := src_status x; us_updatedAt := now |}
  /\ (exists x', find (fun y => src_id y =? sourceId) (sources s') = Some x'
        /\ src_name x' = newName /\ src_updatedAt x' = now
        /\ src_type x' = src_type x /\ src_status x' = src_status x
        /\ src_recordCount x' = src_recordCount x
        /\ src_projectId x' = src_projectId x)
  /\ (forall y, In y (sources s) -> src_id y <> sourceId -> In y (sources s'))
  /\ processingRuns s' = processingRuns s.
Proof.
  intros V s' newName. subst s'.
  rewrite (updateSource_visible now _ _ name _ _ V).
  apply verifySource_ok in V. destruct V as [V F].
  assert (N : src_name (setSourceName now name x) = newName).
  { subst newName. destruct name as [[|c n]|]; reflexivity. }
  cbn [fst snd]. rewrite N. split; [reflexivity|]. split; [|split].
  - exists (setSourceName now name x). cbn [sources with_sources].
    rewrite find_update_sources, F by reflexivity. repeat split. exact N.
  - intros y I E. cbn [sources with_sources].
    unfold update_sources. apply in_map_iff. exists y.
    apply Nat.eqb_neq in E. rewrite E. auto.
  - reflexivity.
Qed.

Lemma X18_updateSource_witness :
  fst (updateSource 30 2 1 (Some "") demo)
  = Ok {| us_id := 2; us_name := "tickets.csv"; us_type := SourceType.file;
          us_status := SourceStatus.pending; us_updatedAt := 30 |}.
Proof.
  destruct (X18_updateSource 30 2 1 (Some "") demo
              {| src_id := 2; src_name := "tickets.csv";
                 src_type := SourceType.file;
                 src_status := SourceStatus.pending; src_projectId := 1;
                 src_lastSyncAt := None; src_syncError := None;
                 src_recordCount := None;
                 src_createdAt := 2; src_updatedAt := 2 |} eq_refl)
    as (R & _).
  exact R.
Defined.

(** X19: syncing makes a project runnable.  For a project visible to the
    caller with no run in status [running]: once a Teamwork source of the
    project has been synced ([triggerSync], then its timer fires, no other
    timer pending), [createProcessingRun] succeeds. *)
Theorem X19_sync_then_run
    now now' now'' projectId sourceId organizationId s p x :
  fst (verifyProject projectId organizationId s) = Ok p ->
  (forall r, In r (processingRuns s) -> run_projectId r = projectId ->
             run_status r <> RunStatus.running) ->
  fst (verifySource sourceId organizationId s) = Ok x ->
  src_type x = SourceType.teamwork ->
  src_projectId x = projectId ->
  timers s = [] ->
  let s1 := snd (triggerSync now sourceId organizationId s) in
  let s2 := fireTimer now' s1 in
  timers s2 = []
  /\ createProcessingRun now'' projectId organizationId s2
     = (Ok {| cr_id := processingRuns_seq s; cr_status := RunStatus.pending;
              cr_progress := 0; cr_createdAt := now'' |},
        created_state now'' projectId s2).
Proof.
  intros V NR VS T E Tm s1 s2.
  apply verifySource_ok in VS. destruct VS as [VS F].
  assert (S2 : s2 = with_timers []
                 (with_sources
                    (update_sources sourceId (setSynced now')
                       (update_sources sourceId (setSyncing now) (sources s)))
                    s)).
  { subst s2 s1. unfold triggerSync, bind. rewrite VS, T. simpl.
    unfold fireTimer. simpl. rewrite Tm. reflexivity. }
  split; [now rewrite S2|].
  rewrite (createProcessingRun_success now'' projectId organizationId s2 p
             (setSynced now' (setSyncing now x))).
  - now rewrite S2.
  - rewrite <- V. apply verifyProject_same_projects. now rewrite S2.
  - rewrite S2. exact NR.
  - rewrite S2. simpl. apply find_some in F. destruct F as [I B].
    unfold update_sources. rewrite map_map. apply in_map_iff. exists x.
    split; auto. rewrite B. simpl. now rewrite B.
  - exact E.
  - reflexivity.
Qed.

Lemma X19_sync_then_run_witness :
  exists cr,
    fst (createProcessingRun 33 1 1
           (fireTimer 32 (snd (triggerSync 31 1 1 demo)))) = Ok cr.
Proof.
  destruct (X19_sync_then_run 31 32 33 1 1 1 demo
              {| proj_id := 1; proj_name := "Support"; proj_organizationId := 1;
                 proj_deletedAt := None |}
              {| src_id := 1; src_name := "Desk"; src_type := SourceType.teamwork;
                 src_status := SourceStatus.ready; src_projectId := 1;
                 src_lastSyncAt := Some 3; src_syncError := None;
                 src_recordCount := Some 100;
                 src_createdAt := 1; src_updatedAt := 3 |})
    as (_ & C).
  - reflexivity.
  - intros r [].
  - reflexivity.
  - reflexivity.
  - reflexivity.
  - reflexivity.
  - eexists. rewrite C. reflexivity.
Defined.

(** ** A soft-deleted project *)








(** X22: a sync can be restarted.  On a Teamwork source visible to the
    caller, with no timer pending, a second [triggerSync] issued while the
    source is [syncing] is accepted and arms a second timer; the first
    timer to fire already marks the source [ready] although the second is
    still pending, and when that one fires the source is [ready] with the
    later sync time. *)
Theorem X22_sync_restart now1 now2 now3 now4 sourceId organizationId s x :
  fst (verifySource sourceId organizationId s) = Ok x ->
  src_type x = SourceType.teamwork ->
  timers s = [] ->
  let s1 := snd (triggerSync now1 sourceId organizationId s) in
  let s2 := snd (triggerSync now2 sourceId organizationId s1) in
  let s3 := fireTimer now3 s2 in
  let s4 := fireTimer now4 s3 in
  fst (triggerSync now2 sourceId organizationId s1) = Ok "Sync started"
  /\ timers s2 = [sourceId; sourceId]
  /\ (exists y, find (fun z => src_id z =? sourceId) (sources s3) = Some y
                /\ src_status y = SourceStatus.ready
                /\ src_lastSyncAt y = Some now3)
  /\ timers s3 = [sourceId]
  /\ (exists y, find (fun z => src_id z =? sourceId) (sources s4) = Some y
                /\ src_status y = SourceStatus.ready
                /\ src_lastSyncAt y = Some now4
                /\ src_recordCount y = Some 100)
  /\ timers s4 = [].
Proof.
  intros V T Tm s1 s2 s3 s4.
  destruct (verifySource_ok_project _ _ _ _ V) as (p & P & O).
  apply verifySource_ok in V. destruct V as [V F].
  assert (S1 : s1 = with_timers [sourceId]
                 (with_sources
                    (update_sources sourceId (setSyncing now1) (sources s)) s)).
  { subst s1. unfold triggerSync, bind. rewrite V, T. simpl.
    now rewrite Tm. }
  assert (V1 : verifySource sourceId organizationId s1
               = (Ok (setSyncing now1 x), s1)).
  { unfold verifySource, bind, query, throw, ret, findSourceWithProject.
    rewrite S1. simpl. rewrite find_update_sources, F by reflexivity.
    simpl. rewrite P. apply Nat.eqb_eq in O. now rewrite O. }
  assert (S2 : s2 = with_timers [sourceId; sourceId]
                 (with_sources
                    (update_sources sourceId (setSyncing now2) (sources s1))
                    s1)).
  { subst s2. unfold triggerSync, bind. rewrite V1. simpl. rewrite T. simpl.
    now rewrite S1. }
  assert (R2 : fst (triggerSync now2 sourceId organizationId s1)
               = Ok "Sync started").
  { unfold triggerSync, bind. rewrite V1. simpl. now rewrite T. }
  assert (F2 : find (fun z => src_id z =? sourceId) (sources s2)
               = Some (setSyncing now2 (setSyncing now1 x))).
  { rewrite S2. simpl. rewrite find_update_sources by reflexivity.
    rewrite S1. simpl. now rewrite find_update_sources, F by reflexivity. }
  assert (S3 : s3 = with_sources
                      (update_sources sourceId (setSynced now3) (sources s2))
                      (with_timers [sourceId] s2)).
  { subst s3. unfold fireTimer. now rewrite S2. }
  assert (F3 : find (fun z => src_id z =? sourceId) (sources s3)
               = Some (setSynced now3 (setSyncing now2 (setSyncing now1 x)))).
  { rewrite S3. simpl. now rewrite find_update_sources, F2 by reflexivity. }
  assert (S4 : s4 = with_sources
                      (update_sources sourceId (setSynced now4) (sources s3))
                      (with_timers [] s3)).
  { subst s4. unfold fireTimer. now rewrite S3. }
  split; [exact R2|]. split; [now rewrite S2|]. split; [|split; [|split]].
  - eexists. split; [exact F3|]. split; reflexivity.
  - now rewrite S3.
  - eexists. split.
    + rewrite S4. simpl. now rewrite find_update_sources, F3 by reflexivity.
    + repeat split.
  - now rewrite S4.
Qed.

Lemma X22_sync_restart_witness :
  map (fun y => (src_id y, src_status y, src_lastSyncAt y))
      (sources
         (fireTimer 34
            (fireTimer 33
               (snd (triggerSync 32 1 1 (snd (triggerSync 31 1 1 demo)))))))
  = [(1, SourceStatus.ready, Some 34); (2, SourceStatus.pending, None);
     (3, SourceStatus.ready, Some 4)]
  /\ timers (snd (triggerSync 32 1 1 (snd (triggerSync 31 1 1 demo)))) = [1; 1].
Proof.
  split; [reflexivity|].
  destruct (X22_sync_restart 31 32 33 34 1 1 demo
              {| src_id := 1; src_name := "Desk"; src_type := SourceType.teamwork;
                 src_status := SourceStatus.ready; src_projectId := 1;
                 src_lastSyncAt := Some 3; src_syncError := None;
                 src_recordCount := Some 100;
                 src_createdAt := 1; src_updatedAt := 3 |}
              eq_refl eq_refl eq_refl) as (_ & T & _).
  exact T.
Defined.

(** ** One job per run *)

Lemma find_job_of_pc s k pc :
  pc_of s k = Some pc -> exists j, find_job k s = Some j /\ job_pc j = pc.
Proof.
  unfold pc_of. destruct (find_job k s) as [j|]; [|discriminate].
  intros E. injection E as <-. eauto.
Qed.


Lemma ids_set_job_pc k pc js :
  map job_runId (set_job_pc k pc js) = map job_runId js.
Proof.
  unfold set_job_pc. rewrite map_map. apply map_ext_in. intros j _.
  destruct (job_runId j =? k) eqn:E; simpl; auto.
  now apply Nat.eqb_eq in E.
Qed.

Lemma exec_jobs_runs now e s :
  map job_runId (jobs s) = map run_id (processingRuns s) ->
  map job_runId (jobs (exec now e s))
  = map run_id (processingRuns (exec now e s)).
Proof.
  intros H.
  destruct e as [p o|k o|p o c|x o|k|]; simpl.
  - destruct (createProcessingRun_cases now p o s) as [-> | ->]; auto.
    simpl. rewrite !map_app, H. reflexivity.
  - destruct (cancelRun_cases now k o s) as [-> | (r0 & _ & _ & ->)]; auto.
    simpl. now rewrite ids_update_runs.
  - destruct (updateProcessingConfig_same_runs now p o c s)
      as (-> & _ & -> & _). exact H.
  - destruct (triggerSync_same_runs now x o s) as (-> & _ & -> & _). exact H.
  - unfold resume. destruct (find_job k s) as [j|] eqn:F; auto.
    destruct (job_pc j) as [|p| | |] eqn:Pc; simpl.
    + now rewrite ids_set_job_pc, ids_update_runs.
    + destruct (p <=? 100); simpl;
        now rewrite ids_set_job_pc, ids_update_runs.
    + unfold createDataset, bind, insert_dataset, ret.
      destruct (negb (has_run s k)); simpl; [now rewrite ids_set_job_pc|].
      destruct (has_dataset s k); simpl; now rewrite ids_set_job_pc.
    + now rewrite ids_set_job_pc.
    + now rewrite ids_set_job_pc.
  - destruct (fireTimer_same_runs now s) as (-> & _ & -> & _). exact H.
Qed.

(** X23: every run has exactly one pipeline job.  In every reachable
    state the jobs are, in order, the jobs of the runs: the list of their
    run ids is the list of the ids of the runs, without repetition, and no
    job has been rejected. *)
Theorem X23_one_job_per_run s :
  reachable s ->
  map job_runId (jobs s) = map run_id (processingRuns s)
  /\ NoDup (map job_runId (jobs s))
  /\ forall j, In j (jobs s) -> job_pc j <> Rejected.
Proof.
  intros R.
  assert (E : map job_runId (jobs s) = map run_id (processingRuns s)).
  { induction R as [s (Rn & _ & J & _) | s now e _ IH].
    - now rewrite Rn, J.
    - now apply exec_jobs_runs. }
  pose proof (Inv_reachable s R) as I.
  assert (ND : NoDup (map job_runId (jobs s)))
    by (rewrite E; exact (inv_nodup _ I)).
  split; [exact E|]. split; [exact ND|].
  intros j Hj Pc.
  assert (Hk : In (job_runId j) (map run_id (processingRuns s)))
    by (rewrite <- E; now apply in_map).
  apply in_map_iff in Hk. destruct Hk as (r & Er & Hr).
  destruct (inv_run _ I r Hr) as (pc & Hpc & OK).
  destruct (find_job_of_pc _ _ _ Hpc) as (j0 & F & Pc0).
  unfold find_job in F. apply find_some in F. destruct F as [Hj0 B].
  apply Nat.eqb_eq in B.
  assert (j0 = j).
  { clear - ND Hj Hj0 B Er. revert ND Hj Hj0.
    induction (jobs s) as [|a l IH]; simpl; intros ND Hj Hj0; [contradiction|].
    inversion ND as [|? ? Hnotin ND']; subst.
    destruct Hj as [->|Hj], Hj0 as [->|Hj0]; auto.
    - exfalso. apply Hnotin. rewrite <- Er, <- B. now apply in_map.
    - exfalso. apply Hnotin. rewrite B, Er. now apply in_map. }
  subst j0. rewrite Pc in Pc0. subst pc. destruct OK.
Qed.

Lemma X23_one_job_per_run_witness :
  map job_runId (jobs demo_done) = map run_id (processingRuns demo_done).
Proof. exact (proj1 (X23_one_job_per_run demo_done demo_done_reachable)). Defined.

(** ** Names of datasets *)

Lemma append_inj_l (a b c : string) : a ++ b = a ++ c -> b = c.
Proof.
  induction a as [|ch a IH]; simpl; intros E; auto.
  injection E as E. auto.
Qed.

Lemma decimal_inj a b : decimal a = decimal b -> a = b.
Proof.
  unfold decimal. intros E.
  assert (U : Nat.to_uint a = Nat.to_uint b).
  { pose proof (NilEmpty.usu (Nat.to_uint a)) as Ha.
    pose proof (NilEmpty.usu (Nat.to_uint b)) as Hb.
    rewrite E in Ha. rewrite Ha in Hb. now injection Hb. }
  rewrite <- (Unsigned.of_to a), <- (Unsigned.of_to b). now rewrite U.
Qed.

Lemma dataset_names_reachable s d :
  reachable s -> In d (datasets s) ->
  ds_name d = "Dataset from Run " ++ decimal (ds_runId d).
Proof.
  intros R. revert d. induction R as [s (_ & D & _) | s now e R IH]; intros d Hd.
  - rewrite D in Hd. destruct Hd.
  - destruct (exec_datasets now e s) as [(E & _)|(k & E & _)];
      rewrite E in Hd; auto.
    apply in_app_or in Hd. destruct Hd as [Hd|[<-|[]]]; auto.
Qed.

(** X24: the name of a dataset identifies it.  In every reachable state
    the name of a dataset is "Dataset from Run " followed by the decimal
    id of its run, and two datasets with the same name are the same
    row. *)
Theorem X24_dataset_names_identify s d d' :
  reachable s -> In d (datasets s) -> In d' (datasets s) ->
  ds_name d = "Dataset from Run " ++ decimal (ds_runId d)
  /\ (ds_name d = ds_name d' -> d = d').
Proof.
  intros R Hd Hd'. split; [now apply (dataset_names_reachable s)|].
  intros E.
  rewrite (dataset_names_reachable s d R Hd),
          (dataset_names_reachable s d' R Hd') in E.
  apply append_inj_l, decimal_inj in E.
  pose proof (inv_ds_unique _ (Inv_reachable s R)) as ND.
  clear - ND Hd Hd' E. revert ND Hd Hd'.
  induction (datasets s) as [|a l IH]; simpl; intros ND Hd Hd'; [contradiction|].
  inversion ND as [|? ? Hnotin ND']; subst.
  destruct Hd as [->|Hd], Hd' as [->|Hd']; auto.
  - exfalso. apply Hnotin. rewrite E. now apply in_map.
  - exfalso. apply Hnotin. rewrite <- E. now apply in_map.
Qed.

Lemma X24_dataset_names_identify_witness :
  ds_name (created_dataset 21 1 demo_completed) = "Dataset from Run 1".
Proof.
  destruct (X24_dataset_names_identify demo_done
              (created_dataset 21 1 demo_completed)
              (created_dataset 21 1 demo_completed) demo_done_reachable)
    as (N & _).
  - vm_compute. left. reflexivity.
  - vm_compute. left. reflexivity.
  - exact N.
Defined.


(** * The system statement by statement *)

(** The two halves of [createProcessingRun] and of [cancelRun], run one
    after the other, are the whole call. *)
Lemma createProcessingRun_split now projectId organizationId s :
  createProcessingRun now projectId organizationId s
  = (createProcessingRun_verifyProject projectId organizationId ;;
     createProcessingRun_existingRun projectId ;;
     createProcessingRun_projectSources projectId ;;
     config <- createProcessingRun_config projectId ;;
     createProcessingRun_insert now projectId config) s.
Proof.
  unfold createProcessingRun, createProcessingRun_verifyProject,
    createProcessingRun_existingRun, createProcessingRun_projectSources,
    createProcessingRun_config, createProcessingRun_insert,
    bind, query, throw, ret.
  destruct (verifyProject projectId organizationId s) as [[p|e] s1]; auto.
  destruct (find _ (processingRuns s1)); auto.
  destruct (List.length _ =? 0); auto.
Qed.

Lemma cancelRun_split now runId organizationId s :
  cancelRun now runId organizationId s
  = (cancelRun_select runId organizationId ;; cancelRun_update now runId) s.
Proof.
  unfold cancelRun, cancelRun_select, cancelRun_update, bind, throw, ret.
  destruct (verifyRun runId organizationId s) as [[r|e] s1]; auto.
  destruct (negb (cancellable (run_status r))); auto.
Qed.

Lemma createProcessingRun_verify_state projectId organizationId s :
  snd (createProcessingRun_verifyProject projectId organizationId s) = s.
Proof.
  unfold createProcessingRun_verifyProject, bind, ret.
  pose proof (verifyProject_state projectId organizationId s) as St.
  destruct (verifyProject projectId organizationId s) as [[p|e] s1];
    simpl in St; subst s1; auto.
Qed.

Lemma cancelRun_select_state runId organizationId s :
  snd (cancelRun_select runId organizationId s) = s.
Proof.
  unfold cancelRun_select, bind, throw, ret.
  pose proof (verifyRun_state runId organizationId s) as St.
  destruct (verifyRun runId organizationId s) as [[r|e] s1];
    simpl in St; subst s1; auto.
  destruct (negb (cancellable (run_status r))); auto.
Qed.

Lemma createProcessingRun_insert_state now projectId config s :
  snd (createProcessingRun_insert now projectId config s)
  = (if has_project s projectId
     then inserted_state now projectId config s
     else with_processingRuns_seq (S (processingRuns_seq s)) s).
Proof.
  unfold createProcessingRun_insert, bind, insert_processingRun,
    spawn_simulateProcessing, modify, ret.
  destruct (has_project s projectId); reflexivity.
Qed.

(** The queries of a suspended [createProcessingRun] leave the state as
    it is, but for the insert. *)
Lemma create_step_state now c s :
  snd (create_step now c s) = s
  \/ exists projectId config,
       snd (create_step now c s)
       = (if has_project s projectId
          then inserted_state now projectId config s
          else with_processingRuns_seq (S (processingRuns_seq s)) s).
Proof.
  destruct c as [p [| | |config]]; simpl.
  - left. unfold createProcessingRun_existingRun, bind, query, throw, ret.
    now destruct (find _ (processingRuns s)).
  - left. unfold createProcessingRun_projectSources, bind, query, throw, ret.
    now destruct (List.length _ =? 0).
  - left. reflexivity.
  - right. exists p, config. apply createProcessingRun_insert_state.
Qed.

Lemma cancelRun_update_state now runId s :
  snd (cancelRun_update now runId s)
  = with_processingRuns
      (update_runs runId (setCancelled now) (processingRuns s)) s.
Proof. reflexivity. Qed.

Lemma created_state_inserted now projectId s :
  created_state now projectId s
  = inserted_state now projectId
      (configOrEmpty (findProcessingConfig projectId s)) s.
Proof. reflexivity. Qed.

(** ** Preservation of [Inv2] *)

Lemma Inv2_same_runs s s' : same_runs s s' -> Inv2 s -> Inv2 s'.
Proof.
  intros (R & D & J & Q) [I1 I2 I3 I4 I5 I6 I7].
  assert (P : forall k, pc_of s' k = pc_of s k)
    by (intro k; unfold pc_of, find_job; now rewrite J).
  assert (HD : forall k, has_dataset s' k = has_dataset s k)
    by (intro k; unfold has_dataset; now rewrite D).
  assert (HR : forall k, has_run s' k = has_run s k)
    by (intro k; unfold has_run; now rewrite R).
  constructor.
  - rewrite R, Q. exact I1.
  - rewrite J, Q. exact I2.
  - rewrite R. exact I3.
  - rewrite R. intros r I. rewrite P, HD. auto.
  - rewrite D. intros d I. rewrite HR. auto.
  - rewrite D. exact I6.
  - rewrite D. exact I7.
Qed.

(** A failed insert only consumes a value of the sequence. *)
Lemma Inv2_seq_consumed s :
  Inv2 s -> Inv2 (with_processingRuns_seq (S (processingRuns_seq s)) s).
Proof.
  intros [I1 I2 I3 I4 I5 I6 I7]. constructor; simpl; auto.
  - intros r H. apply I1 in H. lia.
  - intros j H. apply I2 in H. lia.
Qed.

Lemma no_dataset_of_fresh2 s k :
  Inv2 s -> processingRuns_seq s <= k -> has_dataset s k = false.
Proof.
  intros I L. destruct (has_dataset s k) eqn:H; auto.
  apply has_dataset_true in H. destruct H as (d & Hd & E).
  apply (inv2_ds_run _ I) in Hd. apply has_run_true in Hd.
  destruct Hd as (r & Hr & E'). apply (inv2_fresh _ I) in Hr. lia.
Qed.

Lemma Inv2_inserted now projectId config s :
  Inv2 s -> Inv2 (inserted_state now projectId config s).
Proof.
  intros I. pose proof I as [I1 I2 I3 I4 I5 I6 I7].
  constructor; simpl.
  - intros r H. apply in_app_or in H. destruct H as [H|[<-|[]]].
    + apply I1 in H. lia.
    + simpl. lia.
  - intros j H. apply in_app_or in H. destruct H as [H|[<-|[]]].
    + apply I2 in H. lia.
    + simpl. lia.
  - rewrite map_app. simpl. apply NoDup_snoc; auto.
    intros Ha. apply in_map_iff in Ha.
    destruct Ha as (r & E & Hr). apply I1 in Hr. lia.
  - intros r H. unfold pc_of, find_job, has_dataset. simpl.
    rewrite find_app_l.
    apply in_app_or in H. destruct H as [H|[<-|[]]].
    + destruct (I4 r H) as (pc & P & OK). exists pc. split; auto.
      unfold pc_of, find_job in P.
      destruct (find _ (jobs s)); [exact P|discriminate].
    + simpl. fold (find_job (processingRuns_seq s) s).
      rewrite find_job_fresh by (intros j Hj; now apply I2).
      simpl. rewrite Nat.eqb_refl. simpl. exists AtStart. split; auto.
      simpl. repeat split; auto.
      now apply no_dataset_of_fresh2.
  - intros d H. unfold has_run. simpl. rewrite existsb_app.
    apply I5 in H. unfold has_run in H. now rewrite H.
  - exact I6.
  - exact I7.
Qed.

Lemma Inv2_update_run s s' runId set :
  Inv2 s ->
  (forall r, run_id (set r) = run_id r) ->
  processingRuns s' = update_runs runId set (processingRuns s) ->
  datasets s' = datasets s ->
  processingRuns_seq s' = processingRuns_seq s ->
  (forall j, In j (jobs s') -> job_runId j < processingRuns_seq s) ->
  (forall k, k <> runId -> pc_of s' k = pc_of s k) ->
  (forall r pc, In r (processingRuns s) -> run_id r = runId ->
     pc_of s runId = Some pc -> run_ok2 pc r (has_dataset s runId) ->
     exists pc', pc_of s' runId = Some pc'
                 /\ run_ok2 pc' (set r) (has_dataset s runId)) ->
  Inv2 s'.
Proof.
  intros [I1 I2 I3 I4 I5 I6 I7] Hid R D Q J P Step.
  assert (HD : forall k, has_dataset s' k = has_dataset s k)
    by (intro k; unfold has_dataset; now rewrite D).
  constructor.
  - rewrite R, Q. intros r' H. apply in_update_runs in H.
    destruct H as (r & H & ->). apply I1 in H.
    destruct (run_id r =? runId); now rewrite ?Hid.
  - rewrite Q. exact J.
  - rewrite R, ids_update_runs; auto.
  - rewrite R. intros r' H. apply in_update_runs in H.
    destruct H as (r & H & ->).
    destruct (I4 r H) as (pc & Hpc & OK).
    destruct (run_id r =? runId) eqn:E.
    + apply Nat.eqb_eq in E. rewrite Hid, HD, E. rewrite E in Hpc, OK.
      eapply Step; eauto.
    + apply Nat.eqb_neq in E. rewrite HD, P; eauto.
  - rewrite D. intros d H. apply I5 in H.
    apply has_run_true in H. destruct H as (r & H & E).
    apply has_run_true. rewrite R.
    exists (if run_id r =? runId then set r else r). split.
    + apply in_update_runs. eauto.
    + destruct (run_id r =? runId); now rewrite ?Hid.
  - now rewrite D.
  - now rewrite D.
Qed.

(** The update of [cancelRun] is unconditional: whenever it lands, the
    row is as its job left it, with status [cancelled]. *)
Lemma Inv2_cancel_update now runId s :
  Inv2 s ->
  Inv2 (with_processingRuns
          (update_runs runId (setCancelled now) (processingRuns s)) s).
Proof.
  intros I.
  apply (Inv2_update_run s _ runId (setCancelled now)); auto.
  - exact (inv2_jobs_fresh _ I).
  - intros r0 pc Hr E Hpc OK. exists pc. split; auto.
    destruct pc; simpl in *; tauto.
Qed.

Lemma Inv2_job_moved s s' runId j pc' set :
  Inv2 s ->
  find_job runId s = Some j ->
  (forall r, run_id (set r) = run_id r) ->
  processingRuns s' = update_runs runId set (processingRuns s) ->
  datasets s' = datasets s ->
  processingRuns_seq s' = processingRuns_seq s ->
  jobs s' = set_job_pc runId pc' (jobs s) ->
  (forall r, In r (processingRuns s) -> run_id r = runId ->
     run_ok2 (job_pc j) r (has_dataset s runId) ->
     run_ok2 pc' (set r) (has_dataset s runId)) ->
  Inv2 s'.
Proof.
  intros I F Hid R D Q J Step.
  apply (Inv2_update_run s s' runId set); auto.
  - intros j0 H. rewrite J in H. apply in_set_job_pc in H.
    destruct H as [H|(E & j1 & H & E1)].
    + now apply (inv2_jobs_fresh _ I).
    + rewrite E, <- E1. now apply (inv2_jobs_fresh _ I).
  - intros k Hk. rewrite (pc_of_set_job_pc s s' runId pc' k J).
    apply Nat.eqb_neq in Hk. now rewrite Hk.
  - intros r pc Hr E Hpc OK.
    rewrite (pc_of_set_job_pc s s' runId pc' runId J), Nat.eqb_refl, Hpc.
    exists pc'. split; auto. apply Step; auto.
    rewrite (pc_of_find_job _ _ _ F) in Hpc. injection Hpc as <-. exact OK.
Qed.

Lemma Inv2_dataset_created now runId s j :
  Inv2 s ->
  find_job runId s = Some j -> job_pc j = AtCreateDataset ->
  has_run s runId = true -> has_dataset s runId = false ->
  Inv2 (with_jobs (set_job_pc runId Resolved (jobs s))
         (with_datasets (datasets s ++ [created_dataset now runId s])
            (with_datasets_seq (S (datasets_seq s)) s))).
Proof.
  intros I F Pc HR HD. pose proof I as [I1 I2 I3 I4 I5 I6 I7].
  set (s' := with_jobs _ _).
  assert (J : jobs s' = set_job_pc runId Resolved (jobs s)) by reflexivity.
  assert (D : forall k, has_dataset s' k = has_dataset s k || (runId =? k)).
  { intros k. unfold has_dataset. simpl. rewrite existsb_app. simpl.
    now rewrite orb_false_r. }
  constructor.
  - exact I1.
  - intros j0 H. rewrite J in H. apply in_set_job_pc in H.
    destruct H as [H|(E & j1 & H & E1)].
    + now apply I2.
    + rewrite E, <- E1. now apply I2.
  - exact I3.
  - intros r H. change (processingRuns s') with (processingRuns s) in H.
    destruct (I4 r H) as (pc & Hpc & OK).
    rewrite (pc_of_set_job_pc s s' runId Resolved (run_id r) J), D.
    destruct (run_id r =? runId) eqn:E.
    + apply Nat.eqb_eq in E. rewrite E in *. rewrite Nat.eqb_refl, orb_true_r.
      rewrite Hpc. exists Resolved. split; auto.
      rewrite (pc_of_find_job _ _ _ F), Pc in Hpc. injection Hpc as <-.
      simpl in *. tauto.
    + rewrite Nat.eqb_sym, E, orb_false_r. eauto.
  - intros d H. change (has_run s' (ds_runId d)) with (has_run s (ds_runId d)).
    simpl in H. apply in_app_or in H. destruct H as [H|[<-|[]]]; auto.
  - simpl. rewrite map_app. simpl. apply NoDup_snoc; auto.
    intros H. apply has_dataset_in in H. congruence.
  - intros d H. simpl in H. apply in_app_or in H.
    destruct H as [H|[<-|[]]]; auto.
Qed.

Lemma Inv2_resume now runId s : Inv2 s -> Inv2 (resume now runId s).
Proof.
  intros I. destruct (find_job runId s) as [j|] eqn:F.
  2: { unfold resume. now rewrite F. }
  destruct (job_pc j) as [|p| | |] eqn:Pc.
  - unfold resume. rewrite F, Pc. simpl.
    apply (Inv2_job_moved s _ runId j (InLoop 10) (setRunning now)); auto.
    rewrite Pc. simpl. intros r _ _ (St & Pg & H). rewrite Pg.
    repeat split; auto; lia.
  - unfold resume. rewrite F, Pc. simpl.
    destruct (p <=? 100) eqn:L; simpl.
    + apply Nat.leb_le in L.
      apply (Inv2_job_moved s _ runId j (InLoop (p + 10)) (setProgress p)); auto.
      rewrite Pc. simpl. intros r _ _ (St & B & Pg & H).
      repeat split; auto; lia.
    + apply (Inv2_job_moved s _ runId j AtCreateDataset (setCompleted now)); auto.
      rewrite Pc. simpl. intros r _ _ (St & B & Pg & H). repeat split; auto.
  - rewrite (resume_AtCreateDataset now runId s j F Pc).
    destruct (has_run s runId) eqn:HR; simpl.
    + destruct (has_dataset s runId) eqn:HD.
      * apply (Inv2_job_moved s _ runId j Rejected (fun r => r)); auto.
        -- simpl. now rewrite update_runs_id.
        -- rewrite Pc. simpl. intros r _ _ (_ & _ & _ & H). congruence.
      * now apply (Inv2_dataset_created now runId s j).
    + apply (Inv2_job_moved s _ runId j Rejected (fun r => r)); auto.
      * simpl. now rewrite update_runs_id.
      * intros r Hr E. exfalso.
        assert (has_run s runId = true) by (apply has_run_true; eauto).
        congruence.
  - unfold resume. rewrite F, Pc. simpl.
    apply (Inv2_job_moved s _ runId j Resolved (fun r => r)); auto.
    + simpl. now rewrite update_runs_id.
    + now rewrite Pc.
  - unfold resume. rewrite F, Pc. simpl.
    apply (Inv2_job_moved s _ runId j Rejected (fun r => r)); auto.
    + simpl. now rewrite update_runs_id.
    + now rewrite Pc.
Qed.

Lemma Inv2_initial s : initial s -> Inv2 s.
Proof.
  intros (R & D & J & T).
  constructor; rewrite ?R, ?D, ?J; simpl;
    solve [apply NoDup_nil | intros ? []].
Qed.

Lemma Inv2_exec now e s : Inv2 s -> Inv2 (exec now e s).
Proof.
  intros I. destruct e as [p o|r o|p o c|x o|r|]; simpl.
  - destruct (createProcessingRun_cases now p o s) as [-> | ->]; auto.
    rewrite created_state_inserted. now apply Inv2_inserted.
  - destruct (cancelRun_cases now r o s) as [-> | (r0 & F & C & ->)]; auto.
    now apply Inv2_cancel_update.
  - eapply Inv2_same_runs; eauto. apply updateProcessingConfig_same_runs.
  - eapply Inv2_same_runs; eauto. apply triggerSync_same_runs.
  - now apply Inv2_resume.
  - eapply Inv2_same_runs; eauto. apply fireTimer_same_runs.
Qed.

Lemma Inv2_exec2 now st w : Inv2 (state w) -> Inv2 (state (exec2 now st w)).
Proof.
  intros I. destruct st as [e|p o|i|k o|i]; unfold exec2.
  - cbn [state]. now apply Inv2_exec.
  - pose proof (createProcessingRun_verify_state p o (state w)) as St.
    destruct (createProcessingRun_verifyProject p o (state w)) as [[c|e] s'];
      simpl in *; now subst s'.
  - destruct (nth_error (creating w) i) as [c|]; cbn [state]; auto.
    destruct (create_step_state now c (state w)) as [->|(p & config & ->)];
      auto.
    destruct (has_project (state w) p).
    + now apply Inv2_inserted.
    + now apply Inv2_seq_consumed.
  - pose proof (cancelRun_select_state k o (state w)) as St.
    destruct (cancelRun_select k o (state w)) as [[c|e] s'];
      simpl in *; now subst s'.
  - destruct (nth_error (cancelling w) i) as [k|]; cbn [state]; auto.
    rewrite cancelRun_update_state. now apply Inv2_cancel_update.
Qed.

Lemma Inv2_reachable2 w : reachable2 w -> Inv2 (state w).
Proof.
  induction 1 as [w (H & _) | w now st _ IH].
  - now apply Inv2_initial.
  - now apply Inv2_exec2.
Qed.

Lemma reachable2_run_statements tr : forall w,
  reachable2 w -> reachable2 (run_statements tr w).
Proof.
  induction tr as [|[now st] tr IH]; intros w H; simpl; auto.
  apply IH. now constructor.
Qed.

(** What is reachable by whole calls is reachable statement by statement. *)
Lemma reachable_reachable2 s : reachable s -> reachable2 (idle s).
Proof.
  induction 1 as [s H | s now e _ IH].
  - constructor. split; [exact H | split; reflexivity].
  - exact (reachable2_exec (idle s) now (Request e) IH).
Qed.

Lemma demo_cancel_pending_reachable : reachable2 demo_cancel_pending.
Proof.
  unfold demo_cancel_pending. apply reachable2_run_statements.
  apply reachable_reachable2. constructor. exact demo_initial.
Qed.

Lemma demo_late_cancel_reachable : reachable2 demo_late_cancel.
Proof.
  unfold demo_late_cancel. constructor 2.
  exact demo_cancel_pending_reachable.
Qed.

Lemma demo_two_runs_reachable : reachable demo_two_runs.
Proof.
  unfold demo_two_runs. apply reachable_run_trace.
  exact demo_done_reachable.
Qed.

Lemma run_ok2_of s r :
  Inv2 s -> In r (processingRuns s) ->
  forall pc, pc_of s (run_id r) = Some pc ->
             run_ok2 pc r (has_dataset s (run_id r)).
Proof.
  intros I Hr pc Hpc. destruct (inv2_run _ I r Hr) as (pc' & Hpc' & OK).
  congruence.
Qed.

(** ** How one statement changes a row *)

Lemma exec_row2 now e s r r' :
  Inv2 s -> In r (processingRuns s) ->
  In r' (processingRuns (exec now e s)) -> run_id r' = run_id r ->
  r' = r
  \/ r' = setCancelled now r
  \/ (pc_of s (run_id r) = Some AtStart /\ r' = setRunning now r)
  \/ (exists p, pc_of s (run_id r) = Some (InLoop p) /\ p <= 100
                /\ r' = setProgress p r)
  \/ (exists p, pc_of s (run_id r) = Some (InLoop p) /\ 100 < p
                /\ r' = setCompleted now r).
Proof.
  intros I Hr Hr' E. pose proof (inv2_nodup _ I) as ND.
  assert (Same : forall s', same_runs s s' -> In r' (processingRuns s') -> r' = r).
  { intros s' (R & _) H. rewrite R in H. now apply (same_id_eq (processingRuns s)). }
  destruct e as [p o|k o|p o c|x o|k|]; simpl in Hr'.
  - left. destruct (createProcessingRun_cases now p o s) as [Q|Q];
      rewrite Q in Hr'.
    + now apply (same_id_eq (processingRuns s)).
    + simpl in Hr'. apply in_app_or in Hr'. destruct Hr' as [H|[<-|[]]].
      * now apply (same_id_eq (processingRuns s)).
      * simpl in E. apply (inv2_fresh _ I) in Hr. lia.
  - destruct (cancelRun_cases now k o s) as [Q|(r0 & F & C & Q)];
      rewrite Q in Hr'.
    + left. now apply (same_id_eq (processingRuns s)).
    + simpl in Hr'.
      apply (in_update_runs_same _ _ _ r) in Hr'; auto.
      destruct (run_id r =? k) eqn:B; auto.
  - left. apply (Same _ (updateProcessingConfig_same_runs now p o c s) Hr').
  - left. apply (Same _ (triggerSync_same_runs now x o s) Hr').
  - destruct (find_job k s) as [j|] eqn:F.
    2: { left. unfold resume in Hr'. rewrite F in Hr'.
         now apply (same_id_eq (processingRuns s)). }
    pose proof (pc_of_find_job _ _ _ F) as Hpc.
    destruct (job_pc j) as [|p| | |] eqn:Pc.
    + unfold resume in Hr'. rewrite F, Pc in Hr'. simpl in Hr'.
      apply (in_update_runs_same _ _ _ r) in Hr'; auto.
      destruct (run_id r =? k) eqn:B; auto.
      apply Nat.eqb_eq in B. rewrite B. auto.
    + unfold resume in Hr'. rewrite F, Pc in Hr'. simpl in Hr'.
      destruct (p <=? 100) eqn:L; simpl in Hr';
        apply (in_update_runs_same _ _ _ r) in Hr'; auto;
        destruct (run_id r =? k) eqn:B; auto;
        apply Nat.eqb_eq in B; rewrite B; right; right; right.
      * left. exists p. apply Nat.leb_le in L. auto.
      * right. exists p. apply Nat.leb_gt in L. auto.
    + left. rewrite (resume_AtCreateDataset now k s j F Pc) in Hr'.
      destruct (negb (has_run s k)); [|destruct (has_dataset s k)];
        simpl in Hr'; now apply (same_id_eq (processingRuns s)).
    + left. unfold resume in Hr'. rewrite F, Pc in Hr'. simpl in Hr'.
      now apply (same_id_eq (processingRuns s)).
    + left. unfold resume in Hr'. rewrite F, Pc in Hr'. simpl in Hr'.
      now apply (same_id_eq (processingRuns s)).
  - left. apply (Same _ (fireTimer_same_runs now s) Hr').
Qed.

Lemma exec2_row now st w r r' :
  Inv2 (state w) -> In r (processingRuns (state w)) ->
  In r' (processingRuns (state (exec2 now st w))) -> run_id r' = run_id r ->
  r' = r
  \/ r' = setCancelled now r
  \/ (pc_of (state w) (run_id r) = Some AtStart /\ r' = setRunning now r)
  \/ (exists p, pc_of (state w) (run_id r) = Some (InLoop p) /\ p <= 100
                /\ r' = setProgress p r)
  \/ (exists p, pc_of (state w) (run_id r) = Some (InLoop p) /\ 100 < p
                /\ r' = setCompleted now r).
Proof.
  intros I Hr Hr' E. pose proof (inv2_nodup _ I) as ND.
  destruct st as [e|p o|i|k o|i]; unfold exec2 in Hr'.
  - now apply (exec_row2 now e (state w) r r').
  - left. pose proof (createProcessingRun_verify_state p o (state w)) as St.
    destruct (createProcessingRun_verifyProject p o (state w)) as [[c|e] s'];
      simpl in *; subst s'; now apply (same_id_eq (processingRuns (state w))).
  - left. destruct (nth_error (creating w) i) as [c|]; cbn [state] in Hr'.
    + destruct (create_step_state now c (state w)) as [Q|(p & config & Q)];
        rewrite Q in Hr'.
      * now apply (same_id_eq (processingRuns (state w))).
      * destruct (has_project (state w) p); simpl in Hr'.
        -- apply in_app_or in Hr'. destruct Hr' as [H|[<-|[]]].
           ++ now apply (same_id_eq (processingRuns (state w))).
           ++ simpl in E. apply (inv2_fresh _ I) in Hr. lia.
        -- now apply (same_id_eq (processingRuns (state w))).
    + now apply (same_id_eq (processingRuns (state w))).
  - left. pose proof (cancelRun_select_state k o (state w)) as St.
    destruct (cancelRun_select k o (state w)) as [[c|e] s'];
      simpl in *; subst s'; now apply (same_id_eq (processingRuns (state w))).
  - destruct (nth_error (cancelling w) i) as [k|]; simpl in Hr'.
    + apply (in_update_runs_same _ _ _ r) in Hr'; auto.
      destruct (run_id r =? k); auto.
    + left. now apply (same_id_eq (processingRuns (state w))).
Qed.

Lemma status_change_refl a : status_change a a.
Proof. now destruct a. Qed.

Lemma run_ok2_status pc r h :
  run_ok2 pc r h ->
  run_status r = RunStatus.pending \/ run_status r = RunStatus.running
  \/ run_status r = RunStatus.completed \/ run_status r = RunStatus.cancelled.
Proof. destruct pc; simpl; tauto. Qed.

(** ** Datasets and the status of their runs *)

Lemma dataset_run_finished s r :
  Inv2 s -> In r (processingRuns s) -> has_dataset s (run_id r) = true ->
  pc_of s (run_id r) = Some Resolved
  /\ (run_status r = RunStatus.completed \/ run_status r = RunStatus.cancelled)
  /\ run_progress r = 100 /\ run_stats r = Some finalStats.
Proof.
  intros I Hr HD. destruct (inv2_run _ I r Hr) as (pc & Hpc & OK).
  rewrite HD in OK. destruct pc; simpl in OK.
  - destruct OK as (_ & _ & H). discriminate.
  - destruct OK as (_ & _ & _ & H). discriminate.
  - destruct OK as (_ & _ & _ & H). discriminate.
  - tauto.
  - destruct OK.
Qed.

Lemma completed_run_pc2 s r :
  Inv2 s -> In r (processingRuns s) -> run_status r = RunStatus.completed ->
  (pc_of s (run_id r) = Some Resolved /\ has_dataset s (run_id r) = true)
  \/ (pc_of s (run_id r) = Some AtCreateDataset
      /\ has_dataset s (run_id r) = false).
Proof.
  intros I Hr St. destruct (inv2_run _ I r Hr) as (pc & Hpc & OK).
  destruct pc; simpl in OK.
  - destruct OK as ([H|H] & _); congruence.
  - destruct OK as ([H|H] & _); congruence.
  - right. tauto.
  - left. tauto.
  - destruct OK.
Qed.

(** C3, as the code has it.  In every state that the statements of the
    requests and of the jobs can reach, in any interleaving: a run that
    owns a dataset has been finished by its job (progress 100 and the
    final statistics) and its status is [completed], or [cancelled] when
    the update of a [cancelRun] landed after the job wrote [completed];
    so a run that is [pending], [running] or [failed] owns none; a run
    with status [completed] either owns its dataset or its job is
    suspended just before the insert, and the next resumption of the job
    inserts it; and for a run visible to the caller [getRunDataset]
    answers [NotFound] ("Dataset not found") exactly when no dataset
    references the run, and the dataset otherwise. *)
Theorem C3_dataset_and_status w :
  reachable2 w ->
  (forall d, In d (datasets (state w)) ->
     exists r, In r (processingRuns (state w)) /\ run_id r = ds_runId d
               /\ (run_status r = RunStatus.completed
                   \/ run_status r = RunStatus.cancelled)
               /\ run_progress r = 100 /\ run_stats r = Some finalStats)
  /\ (forall r, In r (processingRuns (state w)) ->
        run_status r = RunStatus.pending \/ run_status r = RunStatus.running
        \/ run_status r = RunStatus.failed ->
        has_dataset (state w) (run_id r) = false)
  /\ (forall r, In r (processingRuns (state w)) ->
        run_status r = RunStatus.completed ->
        has_dataset (state w) (run_id r) = true
        \/ (pc_of (state w) (run_id r) = Some AtCreateDataset
            /\ forall now,
                 has_dataset (resume now (run_id r) (state w)) (run_id r)
                 = true))
  /\ (forall runId organizationId r,
        fst (verifyRun runId organizationId (state w)) = Ok r ->
        (fst (getRunDataset runId organizationId (state w))
           = Err (NotFoundError "Dataset")
         <-> has_dataset (state w) runId = false)
        /\ (has_dataset (state w) runId = true ->
            exists d, In d (datasets (state w)) /\ ds_runId d = runId
              /\ fst (getRunDataset runId organizationId (state w))
                 = Ok {| rds_id := ds_id d; rds_name := ds_name d;
                         rds_format := ds_format d;
                         rds_recordCount := ds_recordCount d;
                         rds_stats := ds_stats d;
                         rds_createdAt := ds_createdAt d |})
        /\ snd (getRunDataset runId organizationId (state w)) = state w).
Proof.
  intros R. apply Inv2_reachable2 in R. revert R.
  generalize (state w). clear w. intros s R.
  split; [|split; [|split]].
  - intros d Hd. pose proof (inv2_ds_run _ R d Hd) as HR.
    apply has_run_true in HR. destruct HR as (r & Hr & E).
    exists r. split; auto. split; auto.
    apply (dataset_run_finished s r R Hr).
    apply has_dataset_true. exists d. auto.
  - intros r Hr St. destruct (has_dataset s (run_id r)) eqn:HD; auto.
    destruct (dataset_run_finished s r R Hr HD) as (_ & [H|H] & _);
      rewrite H in St; destruct St as [St|[St|St]]; discriminate.
  - intros r Hr St.
    destruct (completed_run_pc2 s r R Hr St) as [[_ H]|[Hpc HD]]; auto.
    right. split; auto. intros now.
    unfold pc_of in Hpc. destruct (find_job (run_id r) s) as [j|] eqn:F;
      [|discriminate].
    injection Hpc as Hpc.
    rewrite (resume_AtCreateDataset now _ s j F Hpc), HD.
    assert (HR : has_run s (run_id r) = true) by (apply has_run_true; eauto).
    rewrite HR. simpl. unfold has_dataset. simpl.
    rewrite existsb_app. simpl. rewrite Nat.eqb_refl. apply orb_true_r.
  - intros runId organizationId r V.
    rewrite (getRunDataset_visible _ _ _ _ V).
    pose proof (find_dataset_none s runId) as FN.
    destruct (findDatasetOfRun runId s) as [d|] eqn:F; simpl.
    + assert (HD : has_dataset s runId = true).
      { destruct (has_dataset s runId); auto.
        destruct FN as [_ FN]. specialize (FN eq_refl). discriminate. }
      split; [|split]; auto.
      * rewrite HD. split; discriminate.
      * intros _. exists d. unfold findDatasetOfRun in F.
        apply find_some in F. destruct F as [I B].
        apply Nat.eqb_eq in B. auto.
    + destruct FN as [FN _]. specialize (FN eq_refl).
      split; [|split]; auto.
      * tauto.
      * intros HD. congruence.
Qed.

Lemma C3_dataset_and_status_witness :
  (forall d, In d (datasets (state demo_late_cancel)) ->
     exists r, In r (processingRuns (state demo_late_cancel))
               /\ run_id r = ds_runId d
               /\ (run_status r = RunStatus.completed
                   \/ run_status r = RunStatus.cancelled)
               /\ run_progress r = 100 /\ run_stats r = Some finalStats)
  /\ map run_status (processingRuns (state demo_late_cancel))
     = [RunStatus.cancelled].
Proof.
  split.
  - exact (proj1 (C3_dataset_and_status demo_late_cancel
                    demo_late_cancel_reachable)).
  - vm_compute. reflexivity.
Defined.

(** ** The dataset of a run *)



(** ** Runs of other organizations *)

Lemma int4_param_ok n s : fits_int4 n = true -> int4_param n s = (Ok tt, s).
Proof. unfold int4_param. now intros ->. Qed.

Lemma int4_param_bind {A} n (c : M A) s :
  fits_int4 n = true -> bind (int4_param n) (fun _ => c) s = c s.
Proof. intros B. unfold bind. now rewrite (int4_param_ok n s B). Qed.

Lemma fits_int4_pow31 : fits_int4 (2 ^ 31) = false.
Proof. unfold fits_int4. rewrite Nat2Z.inj_pow. vm_compute. reflexivity. Qed.

(** C9, as the code has it.  For run ids within the range of the
    [integer] id column, a run id that does not exist (in a state [s1])
    and a run whose project belongs to another organization than the
    caller's (in a state [s2]) get the same answer from [getRun],
    [getRunStatus], [cancelRun] and [getRunDataset]: the 404
    [NotFoundError] "Processing run not found", with the state left as it
    was. *)
Theorem C9_foreign_run_looks_missing
    now s1 runId1 organizationId1 s2 runId2 organizationId2 r p :
  fits_int4 runId1 = true ->
  fits_int4 runId2 = true ->
  find (fun x => run_id x =? runId1) (processingRuns s1) = None ->
  find (fun x => run_id x =? runId2) (processingRuns s2) = Some r ->
  find (fun x => proj_id x =? run_projectId r) (projects s2) = Some p ->
  proj_organizationId p <> organizationId2 ->
  let notFound :=
    App {| statusCode := 404; code := "NOT_FOUND";
           message := "Processing run not found"; details := None |} in
  (Int4.getRun runId1 organizationId1 s1 = (Err notFound, s1)
   /\ Int4.getRun runId2 organizationId2 s2 = (Err notFound, s2))
  /\ (Int4.getRunStatus runId1 organizationId1 s1 = (Err notFound, s1)
      /\ Int4.getRunStatus runId2 organizationId2 s2 = (Err notFound, s2))
  /\ (Int4.cancelRun now runId1 organizationId1 s1 = (Err notFound, s1)
      /\ Int4.cancelRun now runId2 organizationId2 s2 = (Err notFound, s2))
  /\ (Int4.getRunDataset runId1 organizationId1 s1 = (Err notFound, s1)
      /\ Int4.getRunDataset runId2 organizationId2 s2 = (Err notFound, s2)).
Proof.
  intros B1 B2 F1 F2 P O notFound.
  pose proof (verifyRun_missing runId1 organizationId1 s1 F1) as V1.
  pose proof (verifyRun_foreign runId2 organizationId2 s2 r p F2 P O) as V2.
  unfold Int4.getRun, Int4.getRunStatus, Int4.cancelRun, Int4.getRunDataset.
  rewrite !int4_param_bind by assumption.
  unfold getRun, getRunStatus, cancelRun, getRunDataset, bind.
  rewrite V1, V2. repeat split.
Qed.

Lemma C9_foreign_run_looks_missing_witness :
  Int4.getRunDataset 7 2 demo_done = Int4.getRunDataset 1 2 demo_done
  /\ Int4.getRun 7 2 demo_done = Int4.getRun 1 2 demo_done.
Proof.
  destruct (C9_foreign_run_looks_missing 30 demo_done 7 2 demo_done 1 2
              (setCompleted 20
                 (setProgress 100 (setRunning 11 (created_run 10 1 demo))))
              {| proj_id := 1; proj_name := "Support";
                 proj_organizationId := 1; proj_deletedAt := None |})
    as ((A1 & A2) & _ & _ & (D1 & D2)).
  - reflexivity.
  - reflexivity.
  - reflexivity.
  - reflexivity.
  - reflexivity.
  - simpl. lia.
  - split.
    + rewrite D1, D2. reflexivity.
    + rewrite A1, A2. reflexivity.
Defined.

(** C9 fails as stated.  No run has the id 2147483648, and the caller of
    organization 2 gets the database's error 22003 for it, which no code
    turns into a 404, where the run 1 of organization 1 gives the 404
    "Processing run not found". *)
Lemma C9_counterexample :
  find (fun x => run_id x =? 2 ^ 31) (processingRuns demo) = None
  /\ fst (Int4.getRun (2 ^ 31) 2 demo) = Err (PgError "22003")
  /\ fst (Int4.getRun 1 2 demo_done) = Err (NotFoundError "Processing run")
  /\ ~ (forall s1 runId1 organizationId1 s2 runId2 organizationId2 r p,
          find (fun x => run_id x =? runId1) (processingRuns s1) = None ->
          find (fun x => run_id x =? runId2) (processingRuns s2) = Some r ->
          find (fun x => proj_id x =? run_projectId r) (projects s2)
            = Some p ->
          proj_organizationId p <> organizationId2 ->
          fst (Int4.getRun runId1 organizationId1 s1)
          = fst (Int4.getRun runId2 organizationId2 s2)).
Proof.
  assert (A : fst (Int4.getRun (2 ^ 31) 2 demo) = Err (PgError "22003")).
  { unfold Int4.getRun, bind, int4_param.
    rewrite fits_int4_pow31, Nat2Z.inj_pow. reflexivity. }
  assert (B : fst (Int4.getRun 1 2 demo_done)
              = Err (NotFoundError "Processing run"))
    by (vm_compute; reflexivity).
  split; [reflexivity|]. split; [exact A|]. split; [exact B|].
  intros H.
  specialize (H demo (2 ^ 31) 2 demo_done 1 2
                (setCompleted 20
                   (setProgress 100 (setRunning 11 (created_run 10 1 demo))))
                {| proj_id := 1; proj_name := "Support";
                   proj_organizationId := 1; proj_deletedAt := None |}
                eq_refl eq_refl eq_refl).
  rewrite A, B in H. unfold NotFoundError in H.
  assert (N : 1 <> 2) by lia. specialize (H N). discriminate H.
Qed.

(** ** The status of a run from statement to statement *)

(** X1: whatever statement runs next, of a request or of a job, the
    status of a run stays as it is, becomes [cancelled] (from any status,
    [completed] included: the update of [cancelRun] is unconditional), or
    is moved by its job from [pending] or [cancelled] to [running] or
    from [running] or [cancelled] to [completed].  No run goes back to
    [pending], none becomes [failed], and a [completed] run can only
    become [cancelled]. *)
Theorem X1_status_changes now st w r r' :
  reachable2 w ->
  In r (processingRuns (state w)) ->
  In r' (processingRuns (state (exec2 now st w))) ->
  run_id r' = run_id r ->
  status_change (run_status r) (run_status r')
  /\ (run_status r' = RunStatus.pending ->
      run_status r = RunStatus.pending)
  /\ run_status r' <> RunStatus.failed
  /\ (run_status r = RunStatus.completed ->
      run_status r' = RunStatus.completed
      \/ run_status r' = RunStatus.cancelled).
Proof.
  intros R Hr Hr' E. apply Inv2_reachable2 in R.
  destruct (inv2_run _ R r Hr) as (pc & Hpc & OK).
  pose proof (run_ok2_status _ _ _ OK) as S4.
  destruct (exec2_row now st w r r' R Hr Hr' E)
    as [->|[->|[(Hpc' & ->)|[(p & Hpc' & L & ->)|(p & Hpc' & L & ->)]]]].
  - split; [apply status_change_refl|]. split; auto. split; auto.
    destruct S4 as [H|[H|[H|H]]]; rewrite H; discriminate.
  - simpl. split; [now destruct (run_status r)|].
    split; [discriminate|]. split; [discriminate|]. auto.
  - rewrite Hpc in Hpc'. injection Hpc' as ->. simpl in OK. simpl.
    destruct OK as ([H|H] & _); rewrite H; simpl;
      (split; [exact I|]); (split; [discriminate|]);
      (split; discriminate).
  - simpl. split; [apply status_change_refl|]. split; auto. split; auto.
    destruct S4 as [H|[H|[H|H]]]; rewrite H; discriminate.
  - rewrite Hpc in Hpc'. injection Hpc' as ->. simpl in OK. simpl.
    destruct OK as ([H|H] & _); rewrite H; simpl;
      (split; [exact I|]); (split; [discriminate|]);
      (split; [discriminate|]); auto.
Qed.

Lemma X1_status_changes_witness :
  status_change RunStatus.completed RunStatus.cancelled
  /\ In demo_run_finished (processingRuns (state demo_cancel_pending))
  /\ In (setCancelled 33 demo_run_finished)
        (processingRuns (state demo_late_cancel)).
Proof.
  assert (A : In demo_run_finished (processingRuns (state demo_cancel_pending)))
    by (vm_compute; left; reflexivity).
  assert (B : In (setCancelled 33 demo_run_finished)
                 (processingRuns (state demo_late_cancel)))
    by (vm_compute; left; reflexivity).
  split; [|split; assumption].
  exact (proj1 (X1_status_changes 33 (CancelUpdate 0) demo_cancel_pending
                  demo_run_finished (setCancelled 33 demo_run_finished)
                  demo_cancel_pending_reachable A B eq_refl)).
Defined.

(** ** The job always finishes *)

Lemma steps_left_loop p :
  p <= 100 -> steps_left (InLoop (p + 10)) = steps_left (InLoop p) - 1.
Proof.
  intros L. unfold steps_left.
  apply Nat.leb_le in L. rewrite L. apply Nat.leb_le in L.
  destruct (p + 10 <=? 100) eqn:L'; cbv iota.
  - apply Nat.leb_le in L'.
    replace (100 - p) with ((100 - (p + 10)) + 1 * 10) by lia.
    rewrite Nat.div_add by discriminate.
    generalize ((100 - (p + 10)) / 10). intros q. lia.
  - apply Nat.leb_gt in L'.
    rewrite (Nat.div_small (100 - p) 10) by lia. reflexivity.
Qed.

Lemma steps_left_bound2 pc r h :
  run_ok2 pc r h -> steps_left pc <= 13.
Proof.
  destruct pc; unfold steps_left; intros OK; try lia.
  destruct OK as (_ & B & _).
  destruct (progress <=? 100); [|lia].
  assert (H : (100 - progress) / 10 <= 9)
    by (apply Nat.Div0.div_le_upper_bound; lia).
  revert H. generalize ((100 - progress) / 10). intros q H. lia.
Qed.

(** One resumption takes the job one statement further; a status
    [completed] that the job has written, or is still to write, is not
    undone by the job. *)
Lemma resume_advances2 now s r pc :
  Inv2 s -> In r (processingRuns s) -> pc_of s (run_id r) = Some pc ->
  exists r' pc',
    In r' (processingRuns (resume now (run_id r) s))
    /\ run_id r' = run_id r
    /\ pc_of (resume now (run_id r) s) (run_id r) = Some pc'
    /\ steps_left pc' = steps_left pc - 1
    /\ (before_completion pc \/ run_status r = RunStatus.completed ->
        before_completion pc' \/ run_status r' = RunStatus.completed).
Proof.
  intros I Hr Hpc. pose proof (run_ok2_of s r I Hr _ Hpc) as OK.
  destruct (find_job_of_pc _ _ _ Hpc) as (j & F & Pc).
  assert (Next : forall pc' s', jobs s' = set_job_pc (run_id r) pc' (jobs s) ->
            pc_of s' (run_id r) = Some pc').
  { intros pc' s' J.
    now rewrite (pc_of_set_job_pc s s' _ pc' _ J), Nat.eqb_refl, Hpc. }
  assert (Upd : forall set s',
            processingRuns s' = update_runs (run_id r) set (processingRuns s) ->
            In (set r) (processingRuns s')).
  { intros set s' E. rewrite E. apply in_update_runs. exists r.
    split; auto. now rewrite Nat.eqb_refl. }
  assert (Keep : forall s', processingRuns s' = processingRuns s ->
            In r (processingRuns s')).
  { intros s' E. now rewrite E. }
  destruct pc as [|p| | |].
  - exists (setRunning now r), (InLoop 10).
    split; [apply Upd; unfold resume; now rewrite F, Pc|].
    split; [reflexivity|].
    split; [apply Next; unfold resume; now rewrite F, Pc|].
    split; [reflexivity|]. intros _. left. right. now exists 10.
  - destruct (p <=? 100) eqn:L.
    + exists (setProgress p r), (InLoop (p + 10)).
      split; [apply Upd; unfold resume; rewrite F, Pc; simpl; now rewrite L|].
      split; [reflexivity|].
      split; [apply Next; unfold resume; rewrite F, Pc; simpl; now rewrite L|].
      split; [apply steps_left_loop; now apply Nat.leb_le|].
      intros _. left. right. now exists (p + 10).
    + exists (setCompleted now r), AtCreateDataset.
      split; [apply Upd; unfold resume; rewrite F, Pc; simpl; now rewrite L|].
      split; [reflexivity|].
      split; [apply Next; unfold resume; rewrite F, Pc; simpl; now rewrite L|].
      split; [simpl; now rewrite L|].
      intros _. right. reflexivity.
  - assert (HR : has_run s (run_id r) = true) by (apply has_run_true; eauto).
    simpl in OK. destruct OK as (_ & _ & _ & HD).
    exists r, Resolved.
    split; [apply Keep; rewrite (resume_AtCreateDataset now _ s j F Pc);
            now rewrite HR, HD|].
    split; [reflexivity|].
    split; [apply Next; rewrite (resume_AtCreateDataset now _ s j F Pc);
            now rewrite HR, HD|].
    split; [reflexivity|].
    intros [[H|(q & H)]|H]; [discriminate|discriminate|now right].
  - exists r, Resolved.
    split; [apply Keep; unfold resume; now rewrite F, Pc|].
    split; [reflexivity|].
    split; [apply Next; unfold resume; now rewrite F, Pc|].
    split; [reflexivity|].
    intros [[H|(q & H)]|H]; [discriminate|discriminate|now right].
  - destruct OK.
Qed.

Lemma resumes_advance2 n : forall now k s r pc,
  Inv2 s -> In r (processingRuns s) -> run_id r = k ->
  pc_of s k = Some pc ->
  let s' := run_trace (resumes n now k) s in
  Inv2 s'
  /\ exists r' pc', In r' (processingRuns s') /\ run_id r' = k
       /\ pc_of s' k = Some pc'
       /\ steps_left pc' = steps_left pc - n
       /\ (before_completion pc \/ run_status r = RunStatus.completed ->
           before_completion pc' \/ run_status r' = RunStatus.completed).
Proof.
  induction n as [|n IH]; intros now k s r pc I Hr E Hpc; simpl.
  - split; auto. exists r, pc. repeat split; auto. lia.
  - subst k.
    destruct (resume_advances2 now s r pc I Hr Hpc)
      as (r1 & pc1 & Hr1 & E1 & Hpc1 & L1 & K1).
    destruct (IH now (run_id r) (resume now (run_id r) s) r1 pc1
                (Inv2_resume now (run_id r) s I) Hr1 E1 Hpc1)
      as (I' & r' & pc' & Hr' & E' & Hpc' & L' & K').
    split; auto.
    exists r', pc'. split; auto. split; auto. split; auto.
    split; [lia|]. intros H. apply K'. apply K1. exact H.
Qed.

(** X6: the job of a run always finishes.  From any state that the
    statements of the requests and of the jobs can reach, thirteen or
    more resumptions of the job of a run, with no other statement in
    between, leave the run with progress 100, the final statistics and a
    dataset.  Its status is then [completed], unless the run was
    [cancelled] after its job had written [completed] (the status stays
    [cancelled] then): a run that is not [cancelled], and a cancelled run
    whose job has not yet written [completed], end [completed]. *)
Theorem X6_job_always_finishes n now w r :
  reachable2 w -> In r (processingRuns (state w)) -> 13 <= n ->
  exists r',
    In r' (processingRuns (run_trace (resumes n now (run_id r)) (state w)))
    /\ run_id r' = run_id r
    /\ (run_status r' = RunStatus.completed
        \/ run_status r' = RunStatus.cancelled)
    /\ run_progress r' = 100
    /\ run_stats r' = Some finalStats
    /\ (exists d,
          In d (datasets (run_trace (resumes n now (run_id r)) (state w)))
          /\ ds_runId d = run_id r)
    /\ (run_status r <> RunStatus.cancelled ->
        run_status r' = RunStatus.completed)
    /\ (forall pc, pc_of (state w) (run_id r) = Some pc ->
          before_completion pc -> run_status r' = RunStatus.completed).
Proof.
  intros R Hr N. apply Inv2_reachable2 in R. revert R Hr.
  generalize (state w). clear w. intros s R Hr.
  destruct (inv2_run _ R r Hr) as (pc & Hpc & OK).
  destruct (resumes_advance2 n now (run_id r) s r pc R Hr eq_refl Hpc)
    as (I' & r' & pc' & Hr' & E' & Hpc' & L' & K').
  pose proof (steps_left_bound2 pc r _ OK) as B.
  pose proof (run_ok2_of _ r' I' Hr' pc') as OK'.
  rewrite E' in OK'. specialize (OK' Hpc').
  exists r'. split; auto. split; auto.
  assert (Z : steps_left pc' = 0) by lia.
  destruct pc' as [|p| | |]; unfold steps_left in Z; try lia.
  2: destruct OK'.
  simpl in OK'. destruct OK' as (St & Pg & Sx & HD).
  assert (Done : before_completion pc
                 \/ run_status r = RunStatus.completed ->
                 run_status r' = RunStatus.completed).
  { intros H. destruct (K' H) as [[H'|(q & H')]|H']; auto; discriminate. }
  split; auto. split; auto. split; auto. split.
  - apply has_dataset_true in HD. exact HD.
  - split.
    + intros NC. apply Done.
      destruct pc; simpl in OK.
      * left. now left.
      * left. right. now exists progress.
      * right. destruct OK as ([H|H] & _); congruence.
      * right. destruct OK as ([H|H] & _); congruence.
      * destruct OK.
    + intros pc0 Hpc0 BC. apply Done. left. congruence.
Qed.

Lemma X6_job_always_finishes_witness :
  exists r',
    In r' (processingRuns (run_trace (resumes 13 20 1)
                             (state (idle demo_cancelled))))
    /\ run_id r' = 1
    /\ (run_status r' = RunStatus.completed
        \/ run_status r' = RunStatus.cancelled)
    /\ run_progress r' = 100
    /\ run_stats r' = Some finalStats
    /\ (exists d,
          In d (datasets (run_trace (resumes 13 20 1)
                            (state (idle demo_cancelled))))
          /\ ds_runId d = 1)
    /\ (RunStatus.cancelled <> RunStatus.cancelled ->
        run_status r' = RunStatus.completed)
    /\ (forall pc, pc_of (state (idle demo_cancelled)) 1 = Some pc ->
          before_completion pc -> run_status r' = RunStatus.completed).
Proof.
  apply (X6_job_always_finishes 13 20 (idle demo_cancelled)
           (setCancelled 16
              (setProgress 40 (setRunning 11 (created_run 10 1 demo))))).
  - apply reachable_reachable2. unfold demo_cancelled.
    apply reachable_run_trace. exact demo_at40_reachable.
  - vm_compute. left. reflexivity.
  - lia.
Defined.

(** ** Datasets of other organizations *)

(** X12: for dataset ids within the range of the [integer] id column, a
    dataset id that does not exist and a dataset whose run belongs to a
    project of another organization get the same answer from [getDataset]
    and [getDatasetStats]: the 404 "Dataset not found", with the state
    left as it was. *)
Theorem X12_foreign_dataset_looks_missing
    s1 datasetId1 organizationId1 s2 datasetId2 organizationId2 d r p :
  fits_int4 datasetId1 = true ->
  fits_int4 datasetId2 = true ->
  find (fun x => ds_id x =? datasetId1) (datasets s1) = None ->
  find (fun x => ds_id x =? datasetId2) (datasets s2) = Some d ->
  find (fun x => run_id x =? ds_runId d) (processingRuns s2) = Some r ->
  find (fun x => proj_id x =? run_projectId r) (projects s2) = Some p ->
  proj_organizationId p <> organizationId2 ->
  let notFound :=
    App {| statusCode := 404; code := "NOT_FOUND";
           message := "Dataset not found"; details := None |} in
  (Int4.getDataset datasetId1 organizationId1 s1 = (Err notFound, s1)
   /\ Int4.getDataset datasetId2 organizationId2 s2 = (Err notFound, s2))
  /\ (Int4.getDatasetStats datasetId1 organizationId1 s1 = (Err notFound, s1)
      /\ Int4.getDatasetStats datasetId2 organizationId2 s2
         = (Err notFound, s2)).
Proof.
  intros B1 B2 F1 F2 R P O notFound.
  pose proof (verifyDataset_missing datasetId1 organizationId1 s1 F1) as V1.
  pose proof (verifyDataset_foreign datasetId2 organizationId2 s2 d r p
                F2 R P O) as V2.
  unfold Int4.getDataset, Int4.getDatasetStats.
  rewrite !int4_param_bind by assumption.
  unfold getDataset, getDatasetStats, bind. rewrite V1, V2. repeat split.
Qed.

Lemma X12_foreign_dataset_looks_missing_witness :
  Int4.getDataset 9 2 demo_done = Int4.getDataset 1 2 demo_done
  /\ Int4.getDatasetStats 9 2 demo_done = Int4.getDatasetStats 1 2 demo_done.
Proof.
  destruct (X12_foreign_dataset_looks_missing demo_done 9 2 demo_done 1 2
              (created_dataset 21 1 demo_completed)
              (setCompleted 20
                 (setProgress 100 (setRunning 11 (created_run 10 1 demo))))
              {| proj_id := 1; proj_name := "Support";
                 proj_organizationId := 1; proj_deletedAt := None |})
    as ((A1 & A2) & (B1 & B2)).
  - reflexivity.
  - reflexivity.
  - reflexivity.
  - reflexivity.
  - reflexivity.
  - reflexivity.
  - simpl. lia.
  - split.
    + rewrite A1, A2. reflexivity.
    + rewrite B1, B2. reflexivity.
Defined.

(** ** Pages of a listing *)

Lemma same_key_eq {A} (key : A -> nat) (l : list A) x y :
  NoDup (map key l) -> In x l -> In y l -> key x = key y -> x = y.
Proof.
  induction l as [|a l IH]; simpl; intros ND Hx Hy E; [contradiction|].
  inversion ND as [|? ? Hnotin ND']; subst.
  destruct Hx as [Hx|Hx], Hy as [Hy|Hy]; subst; auto.
  - exfalso. apply Hnotin. rewrite E. now apply in_map.
  - exfalso. apply Hnotin. rewrite <- E. now apply in_map.
Qed.

(** With distinct keys there is one descending order. *)
Lemma sorted_desc_unique {A} (key : A -> nat) : forall l1 l2 : list A,
  NoDup (map key l1) -> Permutation l1 l2 ->
  StronglySorted (fun a b => key b <= key a) l1 ->
  StronglySorted (fun a b => key b <= key a) l2 ->
  l1 = l2.
Proof.
  induction l1 as [|x l1 IH]; intros l2 ND P S1 S2.
  - apply Permutation_nil in P. now subst.
  - destruct l2 as [|y l2].
    + apply Permutation_sym, Permutation_nil in P. discriminate.
    + inversion ND as [|? ? Hnotin ND']; subst.
      inversion S1 as [|? ? S1' H1]; subst.
      inversion S2 as [|? ? S2' H2]; subst.
      rewrite Forall_forall in H1, H2.
      assert (E : x = y).
      { assert (Hx : In x (y :: l2))
          by (apply (Permutation_in _ P); now left).
        assert (Hy : In y (x :: l1))
          by (apply (Permutation_in _ (Permutation_sym P)); now left).
        destruct Hx as [Hx|Hx]; [now subst|].
        destruct Hy as [Hy|Hy]; [exact Hy|].
        exfalso. apply Hnotin.
        assert (K : key x = key y)
          by (apply Nat.le_antisymm; [now apply H2 | now apply H1]).
        rewrite K. now apply in_map. }
      subst y. f_equal. apply IH; auto.
      now apply Permutation_cons_inv in P.
Qed.

Lemma orders_desc_unique {A} (key : A -> nat) (rows sorted : list A) :
  NoDup (map key rows) -> orders_desc key rows sorted ->
  sorted = orderBy_desc key rows.
Proof.
  intros ND (P & S).
  assert (T : Relations_1.Transitive (fun a b : A => key b <= key a))
    by (intros a b c H1 H2; lia).
  apply sorted_desc_unique with (key := key).
  - apply (Permutation_NoDup (Permutation_map key P) ND).
  - apply perm_trans with rows.
    + now apply Permutation_sym.
    + apply Permutation_sym, orderBy_desc_perm.
  - now apply Sorted_StronglySorted.
  - apply Sorted_StronglySorted; auto. apply orderBy_desc_sorted.
Qed.

(** X16: consecutive pages tile the listing when no two runs of the
    project were created at the same instant.  The order of the rows is
    then the same in every query: whatever descending order the database
    picks is the one of [listProcessingRuns].  While the runs do not
    change, the page of [a] items at offset [o] followed by the page of
    [b] items at offset [o + a] is the page of [a + b] items at offset
    [o], also when the three pages come from three queries: no run is
    skipped or shown twice; and one page that is large enough holds every
    run of the project exactly once. *)
Theorem X16_listProcessingRuns_pages_tile
    projectId organizationId s p pg a b o :
  fst (verifyProject projectId organizationId s) = Ok p ->
  NoDup (map run_createdAt (runsOfProject projectId s)) ->
  let runsOf pagination :=
    match fst (listProcessingRuns projectId organizationId pagination s) with
    | Ok l => rl_runs l
    | Err _ => []
    end in
  (forall sorted,
     orders_desc run_createdAt (runsOfProject projectId s) sorted ->
     sorted = orderBy_desc run_createdAt (runsOfProject projectId s))
  /\ (forall l1 l2 l3,
        orders_desc run_createdAt (runsOfProject projectId s) l1 ->
        orders_desc run_createdAt (runsOfProject projectId s) l2 ->
        orders_desc run_createdAt (runsOfProject projectId s) l3 ->
        (map runListItem
             (limitOffset {| page := pg; limit := a; offset := o |} l1)
         ++ map runListItem
              (limitOffset {| page := S pg; limit := b; offset := o + a |} l2))%list
        = map runListItem
            (limitOffset {| page := pg; limit := a + b; offset := o |} l3)
        /\ runsOf {| page := pg; limit := a + b; offset := o |}
           = map runListItem
               (limitOffset {| page := pg; limit := a + b; offset := o |} l3))
  /\ (runsOf {| page := pg; limit := a; offset := o |}
      ++ runsOf {| page := S pg; limit := b; offset := o + a |})%list
     = runsOf {| page := pg; limit := a + b; offset := o |}
  /\ (List.length (runsOfProject projectId s) <= a ->
      Permutation (runsOf {| page := 1; limit := a; offset := 0 |})
                  (map runListItem (runsOfProject projectId s))).
Proof.
  intros V ND runsOf. subst runsOf. simpl.
  rewrite !(listProcessingRuns_visible _ _ _ _ _ V). simpl.
  split; [|split; [|split]].
  - intros sorted H. now apply orders_desc_unique.
  - intros l1 l2 l3 H1 H2 H3.
    rewrite (orders_desc_unique _ _ _ ND H1), (orders_desc_unique _ _ _ ND H2),
      (orders_desc_unique _ _ _ ND H3).
    split; auto. rewrite <- map_app. f_equal. apply limitOffset_next.
  - rewrite <- map_app. f_equal. apply limitOffset_next.
  - intros L. apply Permutation_map. unfold limitOffset. simpl.
    rewrite firstn_all2.
    + apply orderBy_desc_perm.
    + now rewrite (Permutation_length (orderBy_desc_perm run_createdAt _)).
Qed.

Lemma X16_listProcessingRuns_pages_tile_witness :
  map run_createdAt (runsOfProject 1 demo_two_runs) = [10; 50]
  /\ Permutation
       (match fst (listProcessingRuns 1 1
                     {| page := 1; limit := 5; offset := 0 |}
                     demo_two_runs) with
        | Ok l => rl_runs l
        | Err _ => []
        end)
       (map runListItem (runsOfProject 1 demo_two_runs)).
Proof.
  split; [vm_compute; reflexivity|].
  apply (X16_listProcessingRuns_pages_tile 1 1 demo_two_runs
           {| proj_id := 1; proj_name := "Support"; proj_organizationId := 1;
              proj_deletedAt := None |} 1 5 0 0).
  - vm_compute. reflexivity.
  - vm_compute. constructor.
    + simpl. intros [H|[]]. discriminate H.
    + constructor; [intros []|constructor].
  - vm_compute. lia.
Defined.

(** ** Projects of other organizations *)

(** X25: for ids within the range of the [integer] id columns, when no
    project row with the given id belongs to the caller's organization
    (the project does not exist, or is another tenant's),
    [createProcessingRun], [getProcessingConfig], [updateProcessingConfig],
    [listProcessingRuns] and [listProjectSources] all answer the same 404
    "Project not found" and leave the state as it was, whatever runs and
    sources the project has. *)
Theorem X25_foreign_project_looks_missing
    now projectId organizationId config pagination s :
  fits_int4 projectId = true ->
  fits_int4 organizationId = true ->
  (forall q, In q (projects s) -> proj_id q = projectId ->
             proj_organizationId q <> organizationId) ->
  Int4.createProcessingRun now projectId organizationId s
  = (Err (NotFoundError "Project"), s)
  /\ Int4.getProcessingConfig projectId organizationId s
     = (Err (NotFoundError "Project"), s)
  /\ Int4.updateProcessingConfig now projectId organizationId config s
     = (Err (NotFoundError "Project"), s)
  /\ Int4.listProcessingRuns projectId organizationId pagination s
     = (Err (NotFoundError "Project"), s)
  /\ Int4.listProjectSources projectId organizationId pagination s
     = (Err (NotFoundError "Project"), s).
Proof.
  intros B1 B2 D.
  assert (V : verifyProject projectId organizationId s
              = (Err (NotFoundError "Project"), s)).
  { unfold verifyProject, bind, query, throw, ret.
    destruct (find _ (projects s)) as [q|] eqn:F; auto.
    apply find_some in F. destruct F as [I B].
    apply andb_prop in B. destruct B as [B _].
    apply andb_prop in B. destruct B as [B O].
    apply Nat.eqb_eq in B, O. now destruct (D q I B). }
  assert (V' : SourcesService.verifyProject projectId organizationId s
               = (Err (NotFoundError "Project"), s)).
  { unfold SourcesService.verifyProject, bind, query, throw, ret.
    destruct (find _ (projects s)) as [q|] eqn:F; auto.
    apply find_some in F. destruct F as [I B].
    apply andb_prop in B. destruct B as [B O].
    apply Nat.eqb_eq in B, O. now destruct (D q I B). }
  unfold Int4.createProcessingRun, Int4.getProcessingConfig,
    Int4.updateProcessingConfig, Int4.listProcessingRuns,
    Int4.listProjectSources.
  rewrite !int4_param_bind by assumption.
  unfold createProcessingRun, getProcessingConfig, updateProcessingConfig,
    listProcessingRuns, listProjectSources, bind.
  rewrite V, V'. repeat split.
Qed.

Lemma X25_foreign_project_looks_missing_witness :
  Int4.createProcessingRun 50 1 2 demo = Int4.createProcessingRun 50 7 2 demo.
Proof.
  destruct (X25_foreign_project_looks_missing 50 1 2 defaultProcessingConfig
              {| page := 1; limit := 20; offset := 0 |} demo) as (A & _).
  - reflexivity.
  - reflexivity.
  - intros q [<-|[<-|[]]]; simpl; intros E; [lia|discriminate].
  - destruct (X25_foreign_project_looks_missing 50 7 2 defaultProcessingConfig
                {| page := 1; limit := 20; offset := 0 |} demo) as (B & _).
    + reflexivity.
    + reflexivity.
    + intros q [<-|[<-|[]]]; simpl; intros E; discriminate.
    + now rewrite A, B.
Defined.
